(** * Seat reservation: the client hook [useBooking], the store's tables and
    the [release_expired_holds] function

    The development embeds
    - the [seats] and [bookings] relations, their row-level-security
      policies and the plpgsql function [release_expired_holds]
      (the SQL migration),
    - the React hook [useBooking] ([fetchSeats], [holdSeat],
      [confirmPayment], [releaseHold]) of [src/pages/Index.tsx],
    - the sort of the [SeatGrid] component,
    and settles the properties of the reservation state machine on them.

    Conventions of the embedding.
    - A timestamp is a [Z]: milliseconds since the epoch, the resolution of
      a JS [Date].  A handler is called with [now], the reading of the
      browser's clock ([new Date()], [Date.now()]) taken for its call.  The
      server has a clock of its own, read by [now()] in
      [release_expired_holds]: its reading at each request is part of the
      world the handler runs in, and only a world that gives none makes it
      agree with the browser's.
    - A string is the UTF-8 text of a JS string, byte by byte, as a string
      literal of this file is: equality, the order of the bytes (the order
      of the code points) and the ASCII digits are read off the bytes, and
      the white space of [trim] and [parseInt] is recognised by its
      encoding.
    - The ids are texts of uuids, as every id read from the store is; what
      the store answers to a filter value that is no uuid is not embedded.
    - A nullable column or field is an [option].
    - A store request (a [supabase] call) either is carried out by the
      store or fails in transport without being carried out; which one is
      read from a schedule of faults, one flag per request.  The store is
      shared: what the requests of other clients served since the
      handler's previous request did to it is part of the world too, one
      entry per request, and only a world that gives none leaves the
      handler alone with the store.
    - A React state variable read inside a handler is the value captured by
      the closure (the snapshot [c] the handler was created with); the
      [set...] calls act on the pending state, in order.
    - The requests are made under the session of the [supabase] client,
      which the policies see as [auth.uid()]; the [user] of a snapshot is
      what the guards of the handlers read. *)

From Stdlib Require Import ZArith List String Ascii Bool Lia.
From Stdlib Require Import Permutation Sorted.
Import ListNotations.
Open Scope string_scope.
Open Scope list_scope.
Open Scope Z_scope.

(** ** Data model *)

Definition Timestamp := Z.

(** [status TEXT CHECK (status IN ('AVAILABLE', 'HELD', 'BOOKED'))] *)
Inductive SeatStatus := AVAILABLE | HELD | BOOKED.

(** [status TEXT CHECK (status IN ('HELD', 'CONFIRMED', 'CANCELLED'))] *)
Inductive BookingStatus := BK_HELD | BK_CONFIRMED | BK_CANCELLED.

(** [BookingState.status: 'IDLE' | 'HELD' | 'CONFIRMED' | 'CANCELLED'] *)
Inductive UiStatus := ST_IDLE | ST_HELD | ST_CONFIRMED | ST_CANCELLED.

Definition SeatStatus_eqb (a b : SeatStatus) : bool :=
  match a, b with
  | AVAILABLE, AVAILABLE | HELD, HELD | BOOKED, BOOKED => true
  | _, _ => false
  end.

Definition BookingStatus_eqb (a b : BookingStatus) : bool :=
  match a, b with
  | BK_HELD, BK_HELD | BK_CONFIRMED, BK_CONFIRMED
  | BK_CANCELLED, BK_CANCELLED => true
  | _, _ => false
  end.

Definition UiStatus_eqb (a b : UiStatus) : bool :=
  match a, b with
  | ST_IDLE, ST_IDLE | ST_HELD, ST_HELD | ST_CONFIRMED, ST_CONFIRMED
  | ST_CANCELLED, ST_CANCELLED => true
  | _, _ => false
  end.

(** A row of [public.seats] (and the [Seat] interface of the client). *)
Record Seat := mkSeat {
  id : string;
  show_id : string;
  seat_id : string;
  status : SeatStatus;
  hold_expires_at : option Timestamp;
  booked_by : option string;
  booked_at : option Timestamp;
  hold_id : option string;
  held_by : option string
}.

(** A row of [public.bookings]. *)
Record Booking := mkBooking {
  bk_id : string;
  bk_seat_id : string;
  bk_user_id : option string;
  bk_customer_name : string;
  bk_status : BookingStatus;
  bk_hold_expires_at : option Timestamp;
  bk_confirmed_at : option Timestamp
}.

Record Db := mkDb {
  seats_tbl : list Seat;
  bookings_tbl : list Booking
}.

(** [interface BookingState] *)
Record BookingState := mkBookingState {
  bookingId : option string;
  seatId : option string;
  customerName : string;
  bstatus : UiStatus;
  holdExpiresAt : option Timestamp
}.

(** The state variables of [useBooking] that the handlers read or set;
    [user] is [useAuth().user], by its id, and is also the store's
    [auth.uid()]. *)
Record Client := mkClient {
  user : option string;
  currentShow : option string;
  seats : list Seat;
  selectedSeat : option Seat;
  bookingState : BookingState;
  loading : bool
}.

(** The toasts of the handlers, by title and description. *)
Inductive Toast :=
| T_SelectSeat        (* "Error", "Please select a seat and enter your name" *)
| T_EnterName         (* "Error", "Please enter your name" *)
| T_SeatUnavailable   (* "Seat Unavailable" *)
| T_SeatHeld          (* "Seat Held" *)
| T_NoActiveBooking   (* "Error", "No active booking to confirm" *)
| T_BookingConfirmed  (* "Booking Confirmed!" *)
| T_HoldReleased      (* "Hold Released" *)
| T_Error (msg : string). (* "Error", error.message, from a catch block *)

Definition HOLD_DURATION_SECONDS : Z := 20.

Definition idle : BookingState :=
  {| bookingId := None; seatId := None; customerName := EmptyString;
     bstatus := ST_IDLE; holdExpiresAt := None |}.

(** ** JavaScript helpers *)

(** Truthiness of a [string | null]: [null] and the empty string are falsy. *)
Definition truthy (o : option string) : bool :=
  match o with
  | Some s => negb (s =? EmptyString)%string
  | None => false
  end.

Definition isSome {A} (o : option A) : bool :=
  match o with Some _ => true | None => false end.

(** White space as [String.prototype.trim] and [parseInt] strip it
    (WhiteSpace and LineTerminator of ECMAScript), by its UTF-8 encoding:
    U+0009 to U+000D and U+0020 in one byte; U+00A0 in two; U+1680, U+2000
    to U+200A, U+2028, U+2029, U+202F, U+205F, U+3000 and U+FEFF in
    three. *)
Definition is_space (a : ascii) : bool :=
  let n := nat_of_ascii a in
  ((9 <=? n)%nat && (n <=? 13)%nat) || (n =? 32)%nat.

Definition is_space2 (a b : ascii) : bool :=
  (nat_of_ascii a =? 194)%nat && (nat_of_ascii b =? 160)%nat.

Definition is_space3 (a b c : ascii) : bool :=
  let x := nat_of_ascii a in
  let y := nat_of_ascii b in
  let z := nat_of_ascii c in
  ((x =? 225)%nat && (y =? 154)%nat && (z =? 128)%nat)
  || ((x =? 226)%nat && (y =? 128)%nat
      && (((128 <=? z)%nat && (z <=? 138)%nat) || (z =? 168)%nat
          || (z =? 169)%nat || (z =? 175)%nat))
  || ((x =? 226)%nat && (y =? 129)%nat && (z =? 159)%nat)
  || ((x =? 227)%nat && (y =? 128)%nat && (z =? 128)%nat)
  || ((x =? 239)%nat && (y =? 187)%nat && (z =? 191)%nat).

Fixpoint trim_start (s : string) : string :=
  match s with
  | EmptyString => EmptyString
  | String a r =>
      if is_space a then trim_start r
      else
        match r with
        | String b r2 =>
            if is_space2 a b then trim_start r2
            else
              match r2 with
              | String c r3 => if is_space3 a b c then trim_start r3 else s
              | EmptyString => s
              end
        | EmptyString => s
        end
  end.

(** A string that is one white-space character and nothing else. *)
Definition blank (s : string) : bool :=
  match s with
  | String a EmptyString => is_space a
  | String a (String b EmptyString) => is_space2 a b
  | String a (String b (String c EmptyString)) => is_space3 a b c
  | _ => false
  end.

Fixpoint trim_end (s : string) : string :=
  match s with
  | EmptyString => EmptyString
  | String a r =>
      let t := trim_end r in
      if blank (String a t) then EmptyString else String a t
  end.

Definition trim (s : string) : string := trim_end (trim_start s).

(** Two white spaces beyond ASCII, as the bytes of their UTF-8 texts: the
    no-break space U+00A0 and the em space U+2003. *)
Definition nbsp : string :=
  String (ascii_of_nat 194) (String (ascii_of_nat 160) EmptyString).

Definition em_space : string :=
  String (ascii_of_nat 226)
    (String (ascii_of_nat 128) (String (ascii_of_nat 131) EmptyString)).

(** ** The store *)

Inductive Result (A : Type) :=
| Ok (a : A)
| Err (msg : string).
Arguments Ok {A} a.
Arguments Err {A} msg.

(** [UPDATE t SET ... WHERE ...]: every row the condition selects is
    replaced, the others are kept, in place. *)
Definition sql_update {R} (where_ : R -> bool) (set : R -> R) (rows : list R)
  : list R :=
  map (fun r => if where_ r then set r else r) rows.

(** [hold_expires_at < now()]; a comparison with NULL is not true. *)
Definition expired_before (now : Timestamp) (t : option Timestamp) : bool :=
  match t with
  | Some e => e <? now
  | None => false
  end.

Definition clear_hold (s : Seat) : Seat :=
  {| id := id s; show_id := show_id s; seat_id := seat_id s;
     status := AVAILABLE;
     hold_expires_at := None;
     booked_by := booked_by s; booked_at := booked_at s;
     hold_id := None;
     held_by := None |}.

Definition set_bk_status (st : BookingStatus) (b : Booking) : Booking :=
  {| bk_id := bk_id b; bk_seat_id := bk_seat_id b; bk_user_id := bk_user_id b;
     bk_customer_name := bk_customer_name b;
     bk_status := st;
     bk_hold_expires_at := bk_hold_expires_at b;
     bk_confirmed_at := bk_confirmed_at b |}.

(** The condition of both updates of [release_expired_holds]:
    [WHERE status = 'HELD' AND hold_expires_at < now()]. *)
Definition seat_hold_expired (now : Timestamp) (s : Seat) : bool :=
  SeatStatus_eqb (status s) HELD && expired_before now (hold_expires_at s).

Definition booking_hold_expired (now : Timestamp) (b : Booking) : bool :=
  BookingStatus_eqb (bk_status b) BK_HELD
  && expired_before now (bk_hold_expires_at b).

(** [public.release_expired_holds()], SECURITY DEFINER: one function call,
    both updates in the caller's transaction, no policy applies. *)
Definition release_expired_holds (now : Timestamp) (d : Db) : Db :=
  {| seats_tbl :=
       sql_update (seat_hold_expired now) clear_hold (seats_tbl d);
     bookings_tbl :=
       sql_update (booking_hold_expired now) (set_bk_status BK_CANCELLED)
                  (bookings_tbl d) |}.

(** [ORDER BY seat_id] on a TEXT column: order of the strings, character by
    character. *)
Fixpoint insert_by_label (s : Seat) (l : list Seat) : list Seat :=
  match l with
  | [] => [s]
  | x :: r =>
      if String.leb (seat_id s) (seat_id x) then s :: l
      else x :: insert_by_label s r
  end.

Fixpoint order_by_seat_id (l : list Seat) : list Seat :=
  match l with
  | [] => []
  | x :: r => insert_by_label x (order_by_seat_id r)
  end.

(** [from('seats').select('*').eq('show_id', show).order('seat_id')];
    policy "Anyone can view seats". *)
Definition select_seats (show : string) (d : Db) : list Seat :=
  order_by_seat_id
    (filter (fun s => (show_id s =? show)%string) (seats_tbl d)).

(** [from('seats').update(set).<filters>]; policy "Authenticated users can
    update seats" (TO authenticated, USING (true)): without a session no row
    is visible to the update. *)
Definition update_seats (auth : option string) (where_ : Seat -> bool)
    (set : Seat -> Seat) (d : Db) : Db :=
  match auth with
  | Some _ => {| seats_tbl := sql_update where_ set (seats_tbl d);
                 bookings_tbl := bookings_tbl d |}
  | None => d
  end.

(** [from('bookings').update(set).<filters>]; policy "Users can update their
    own bookings" (USING (user_id = auth.uid())). *)
Definition owns (auth : option string) (b : Booking) : bool :=
  match auth, bk_user_id b with
  | Some u, Some v => (u =? v)%string
  | _, _ => false
  end.

Definition update_bookings (auth : option string) (where_ : Booking -> bool)
    (set : Booking -> Booking) (d : Db) : Db :=
  {| seats_tbl := seats_tbl d;
     bookings_tbl :=
       sql_update (fun b => owns auth b && where_ b) set (bookings_tbl d) |}.

(** [from('bookings').insert(row)]: refused by the policy "Authenticated
    users can create bookings" (WITH CHECK (user_id = auth.uid())), by the
    primary key on [id] and by the foreign key [seat_id -> seats(id)]. *)
Definition insert_booking (auth : option string) (b : Booking) (d : Db)
  : Result unit * Db :=
  if negb (owns auth b) then
    (Err "new row violates row-level security policy", d)
  else if existsb (fun x => (bk_id x =? bk_id b)%string) (bookings_tbl d) then
    (Err "duplicate key value violates unique constraint", d)
  else if negb (existsb (fun s => (id s =? bk_seat_id b)%string) (seats_tbl d))
  then (Err "violates foreign key constraint", d)
  else (Ok tt, {| seats_tbl := seats_tbl d;
                  bookings_tbl := bookings_tbl d ++ [b] |}).

(** ** The handler monad

    A handler runs against the store [db], the pending client state [ui], the
    session of the [supabase] client (the store's [auth.uid()], which is not
    the [user] a closure captured), the schedule of transport faults, what
    the other clients do to the store before each request ([others]), the
    reading of the server's clock at each request ([clock]) and the list of
    toasts shown so far. *)
Record World := mkWorld {
  db : Db;
  ui : Client;
  session : option string;
  faults : list bool;
  others : list (Db -> Db);
  clock : list Timestamp;
  toasts : list Toast
}.

Definition M (A : Type) : Type := World -> A * World.

Definition ret {A} (a : A) : M A := fun w => (a, w).

Definition bind {A B} (m : M A) (k : A -> M B) : M B :=
  fun w => let (a, w') := m w in k a w'.

Notation "x <- m ;; k" := (bind m (fun x => k))
  (at level 61, m at next level, right associativity).
Notation "m ;; k" := (bind m (fun _ => k))
  (at level 61, right associativity).

Definition exec {A} (m : M A) (w : World) : World := snd (m w).

(** The store as the next request finds it: with the writes of the other
    clients served since the previous request; an exhausted list means
    none. *)
Definition found (w : World) : Db := hd (fun d => d) (others w) (db w).

(** One request to the store, made under the session: the next flag of the
    schedule says whether it fails in transport (it is then not carried
    out); an exhausted schedule means no further fault. *)
Definition request {A} (op : option string -> Db -> Result A * Db)
  : M (Result A) :=
  fun w =>
    if hd false (faults w) then
      (Err "Failed to fetch",
       {| db := found w; ui := ui w; session := session w;
          faults := tl (faults w); others := tl (others w);
          clock := tl (clock w); toasts := toasts w |})
    else
      let (r, d) := op (session w) (found w) in
      (r, {| db := d; ui := ui w; session := session w;
             faults := tl (faults w); others := tl (others w);
             clock := tl (clock w); toasts := toasts w |}).

(** The server's [now()] at the next request: its reading in the world, or
    the browser's [now] when the world gives none. *)
Definition server_now (now : Timestamp) : M Timestamp :=
  fun w => (hd now (clock w), w).

Definition toast (t : Toast) : M unit :=
  fun w => (tt, {| db := db w; ui := ui w; session := session w;
                   faults := faults w; others := others w;
                   clock := clock w; toasts := toasts w ++ [t] |}).

Definition set_ui (f : Client -> Client) : M unit :=
  fun w => (tt, {| db := db w; ui := f (ui w); session := session w;
                   faults := faults w; others := others w;
                   clock := clock w; toasts := toasts w |}).

Definition setSeats (l : list Seat) : M unit :=
  set_ui (fun c => {| user := user c; currentShow := currentShow c;
                      seats := l; selectedSeat := selectedSeat c;
                      bookingState := bookingState c; loading := loading c |}).

Definition setSelectedSeat (s : option Seat) : M unit :=
  set_ui (fun c => {| user := user c; currentShow := currentShow c;
                      seats := seats c; selectedSeat := s;
                      bookingState := bookingState c; loading := loading c |}).

(** [setBookingState(prev => f prev)]; a plain value is a constant [f]. *)
Definition setBookingState (f : BookingState -> BookingState) : M unit :=
  set_ui (fun c => {| user := user c; currentShow := currentShow c;
                      seats := seats c; selectedSeat := selectedSeat c;
                      bookingState := f (bookingState c);
                      loading := loading c |}).

Definition setLoading (b : bool) : M unit :=
  set_ui (fun c => {| user := user c; currentShow := currentShow c;
                      seats := seats c; selectedSeat := selectedSeat c;
                      bookingState := bookingState c; loading := b |}).

(** ** The handlers of [useBooking] *)

(** The client's check "is the hold still valid": [expiresAt > new Date()]. *)
Definition hold_still_valid (now : Timestamp) (expiresAt : Timestamp) : bool :=
  expiresAt >? now.

Definition with_holdExpiresAt (e : Timestamp) (prev : BookingState)
  : BookingState :=
  {| bookingId := bookingId prev; seatId := seatId prev;
     customerName := customerName prev; bstatus := bstatus prev;
     holdExpiresAt := Some e |}.

(** "Restore booking state on refresh", the last block of [fetchSeats]. *)
Definition restore_booking (c : Client) (now : Timestamp) (data : list Seat)
  : M unit :=
  match seatId (bookingState c) with
  | Some sid =>
      if truthy (Some sid) && UiStatus_eqb (bstatus (bookingState c)) ST_HELD
      then
        match find (fun s => (id s =? sid)%string) data with
        | Some heldSeat =>
            if SeatStatus_eqb (status heldSeat) HELD then
              match hold_expires_at heldSeat with
              | Some expiresAt =>
                  if hold_still_valid now expiresAt then
                    setSelectedSeat (Some heldSeat) ;;
                    setBookingState (with_holdExpiresAt expiresAt)
                  else
                    setBookingState (fun _ => idle)
              | None => ret tt
              end
            else ret tt
        | None => ret tt
        end
      else ret tt
  | None => ret tt
  end.

(** [fetchSeats]: the rpc runs [release_expired_holds] at the server's
    clock and its result is not looked at; an error of the select ends the
    function. *)
Definition fetchSeats (c : Client) (now : Timestamp) : M unit :=
  match currentShow c with
  | None => ret tt
  | Some show =>
      t <- server_now now ;;
      _ <- request (fun _ d => (Ok tt, release_expired_holds t d)) ;;
      r <- request (fun _ d => (Ok (select_seats show d), d)) ;;
      match r with
      | Err _ => ret tt
      | Ok data =>
          setSeats data ;;
          match selectedSeat c with
          | Some sel =>
              match find (fun s => (id s =? id sel)%string) data with
              | Some updated => setSelectedSeat (Some updated)
              | None => ret tt
              end
          | None => ret tt
          end ;;
          restore_booking c now data
      end
  end.

Definition hold_seat_row (expires : Timestamp) (bookingId_ : string)
    (name : string) (s : Seat) : Seat :=
  {| id := id s; show_id := show_id s; seat_id := seat_id s;
     status := HELD;
     hold_expires_at := Some expires;
     booked_by := booked_by s; booked_at := booked_at s;
     hold_id := Some bookingId_;
     held_by := Some name |}.

(** The filter of the seat update of [holdSeat]:
    [.eq('id', selectedSeat.id).eq('status', 'AVAILABLE')]. *)
Definition hold_filter (sel : Seat) (s : Seat) : bool :=
  (id s =? id sel)%string && SeatStatus_eqb (status s) AVAILABLE.

(** [holdSeat(customerName)]; [uuid] is the value of [crypto.randomUUID()].
    [seats] in the check after the refresh is the captured list, not the
    result of that refresh. *)
Definition holdSeat (c : Client) (customerName_ : string) (now : Timestamp)
    (uuid : string) : M unit :=
  match user c, selectedSeat c, currentShow c with
  | Some uid, Some sel, Some _ =>
      if (trim customerName_ =? EmptyString)%string then toast T_EnterName
      else
        fetchSeats c now ;;
        let currentSeat := find (fun s => (id s =? id sel)%string) (seats c) in
        match option_map status currentSeat with
        | Some AVAILABLE =>
            setLoading true ;;
            (let holdExpiresAt_ := now + HOLD_DURATION_SECONDS * 1000 in
             let bookingId_ := uuid in
             r1 <- request (fun auth d =>
                     (Ok tt,
                      update_seats auth (hold_filter sel)
                        (hold_seat_row holdExpiresAt_ bookingId_
                                       (trim customerName_)) d)) ;;
             match r1 with
             | Err e => toast (T_Error e)
             | Ok _ =>
                 r2 <- request (fun auth => insert_booking auth
                         {| bk_id := bookingId_;
                            bk_seat_id := id sel;
                            bk_user_id := Some uid;
                            bk_customer_name := trim customerName_;
                            bk_status := BK_HELD;
                            bk_hold_expires_at := Some holdExpiresAt_;
                            bk_confirmed_at := None |}) ;;
                 match r2 with
                 | Err e => toast (T_Error e)
                 | Ok _ =>
                     setBookingState (fun _ =>
                       {| bookingId := Some bookingId_;
                          seatId := Some (id sel);
                          customerName := trim customerName_;
                          bstatus := ST_HELD;
                          holdExpiresAt := Some holdExpiresAt_ |}) ;;
                     fetchSeats c now ;;
                     toast T_SeatHeld
                 end
             end) ;;
            setLoading false
        | _ => toast T_SeatUnavailable
        end
  | _, _, _ => toast T_SelectSeat
  end.

Definition book_seat_row (name : string) (now : Timestamp) (s : Seat) : Seat :=
  {| id := id s; show_id := show_id s; seat_id := seat_id s;
     status := BOOKED;
     hold_expires_at := None;
     booked_by := Some name;
     booked_at := Some now;
     hold_id := None;
     held_by := None |}.

(** The filter of the seat update of [confirmPayment]:
    [.eq('id', bookingState.seatId).eq('hold_id', bookingState.bookingId)];
    a NULL [hold_id] equals nothing. *)
Definition confirm_filter (sid bid : string) (s : Seat) : bool :=
  (id s =? sid)%string
  && match hold_id s with
     | Some h => (h =? bid)%string
     | None => false
     end.

(** The seat update of [confirmPayment], as the store carries it out. *)
Definition confirm_seat_update (auth : option string) (sid bid : string)
    (name : string) (now : Timestamp) (d : Db) : Db :=
  update_seats auth (confirm_filter sid bid) (book_seat_row name now) d.

Definition confirm_booking_row (now : Timestamp) (b : Booking) : Booking :=
  {| bk_id := bk_id b; bk_seat_id := bk_seat_id b; bk_user_id := bk_user_id b;
     bk_customer_name := bk_customer_name b;
     bk_status := BK_CONFIRMED;
     bk_hold_expires_at := bk_hold_expires_at b;
     bk_confirmed_at := Some now |}.

Definition confirmed_state : BookingState :=
  {| bookingId := None; seatId := None; customerName := EmptyString;
     bstatus := ST_CONFIRMED; holdExpiresAt := None |}.

(** [confirmPayment()].  The [setTimeout] that puts the state back to IDLE
    two seconds after the success is the separate step [confirm_timeout]. *)
Definition confirmPayment (c : Client) (now : Timestamp) : M unit :=
  match user c, bookingId (bookingState c), seatId (bookingState c) with
  | Some _, Some bid, Some sid =>
      if truthy (Some bid) && truthy (Some sid) then
        setLoading true ;;
        (r1 <- request (fun auth d =>
                 (Ok tt,
                  confirm_seat_update auth sid bid
                    (customerName (bookingState c)) now d)) ;;
         match r1 with
         | Err e => toast (T_Error e)
         | Ok _ =>
             r2 <- request (fun auth d =>
                     (Ok tt,
                      update_bookings auth
                        (fun b => (bk_id b =? bid)%string)
                        (confirm_booking_row now) d)) ;;
             match r2 with
             | Err e => toast (T_Error e)
             | Ok _ =>
                 setBookingState (fun _ => confirmed_state) ;;
                 fetchSeats c now ;;
                 toast T_BookingConfirmed
             end
         end) ;;
        setLoading false
      else toast T_NoActiveBooking
  | _, _, _ => toast T_NoActiveBooking
  end.

Definition confirm_timeout : M unit := setBookingState (fun _ => idle).

(** The filter of the seat update of [releaseHold]:
    [.eq('id', bookingState.seatId)], and nothing else. *)
Definition release_filter (sid : string) (s : Seat) : bool :=
  (id s =? sid)%string.

(** [releaseHold()]: an error of the booking update is logged and the
    function goes on. *)
Definition releaseHold (c : Client) (now : Timestamp) : M unit :=
  match seatId (bookingState c) with
  | Some sid =>
      if truthy (Some sid) then
        setLoading true ;;
        (r1 <- request (fun auth d =>
                 (Ok tt,
                  update_seats auth (release_filter sid) clear_hold d)) ;;
         match r1 with
         | Err e => toast (T_Error e)
         | Ok _ =>
             match bookingId (bookingState c) with
             | Some bid =>
                 if truthy (Some bid) then
                   _ <- request (fun auth d =>
                          (Ok tt,
                           update_bookings auth
                             (fun b => (bk_id b =? bid)%string)
                             (set_bk_status BK_CANCELLED) d)) ;;
                   ret tt
                 else ret tt
             | None => ret tt
             end ;;
             setBookingState (fun _ => idle) ;;
             fetchSeats c now ;;
             toast T_HoldReleased
         end) ;;
        setLoading false
      else ret tt
  | None => ret tt
  end.

(** The initial [bookingState] of [useBooking]: the value saved under
    [bms_current_booking] when there is one that parses, the idle state
    otherwise. *)
Definition initBookingState (saved : option BookingState) : BookingState :=
  match saved with
  | Some parsed => parsed
  | None => idle
  end.

(** The countdown effect, one tick of its interval: the remaining whole
    seconds, and the automatic release when none is left.  The displayed
    [timeRemaining] is not part of the embedded state. *)
Definition remaining_seconds (now : Timestamp) (e : Timestamp) : Z :=
  Z.max 0 ((e - now) / 1000).

Definition timer_tick (c : Client) (now : Timestamp) : M unit :=
  match holdExpiresAt (bookingState c) with
  | Some e =>
      if UiStatus_eqb (bstatus (bookingState c)) ST_HELD then
        if remaining_seconds now e <=? 0 then releaseHold c now else ret tt
      else ret tt
  | None => ret tt
  end.

(** The world at the start of a handler: the store, the state of the
    client, the session, the faults, the writes of the others and the
    readings of the server's clock to come, no toast yet. *)
Definition start_among (sess : option string) (c : Client) (d : Db)
    (fs : list bool) (os : list (Db -> Db)) (sv : list Timestamp) : World :=
  {| db := d; ui := c; session := sess; faults := fs; others := os;
     clock := sv; toasts := [] |}.

(** The same for a handler that is alone with the store and whose clock is
    the server's. *)
Definition start (sess : option string) (c : Client) (d : Db)
    (fs : list bool) : World :=
  start_among sess c d fs [] [].

(** A handler [m] of the latest render of the state [c], the user of that
    state being the one of the session. *)
Definition run (m : M unit) (c : Client) (d : Db) (fs : list bool) : World :=
  exec m (start (user c) c d fs).

Definition run_among (m : M unit) (c : Client) (d : Db) (fs : list bool)
    (os : list (Db -> Db)) (sv : list Timestamp) : World :=
  exec m (start_among (user c) c d fs os sv).

(** ** The sort of [SeatGrid] *)

Definition is_digit (a : ascii) : bool :=
  let n := nat_of_ascii a in (48 <=? n)%nat && (n <=? 57)%nat.

Definition digit_val (a : ascii) : Z := Z.of_nat (nat_of_ascii a) - 48.

(** The longest prefix of decimal digits, read as a number; [None] when
    there is no digit. *)
Fixpoint read_digits (acc : option Z) (s : string) : option Z :=
  match s with
  | EmptyString => acc
  | String a r =>
      if is_digit a then
        read_digits (Some (10 * match acc with Some n => n | None => 0 end
                           + digit_val a)) r
      else acc
  end.

Definition hex_val (a : ascii) : option Z :=
  let n := nat_of_ascii a in
  if is_digit a then Some (Z.of_nat n - 48)
  else if (97 <=? n)%nat && (n <=? 102)%nat then Some (Z.of_nat n - 87)
  else if (65 <=? n)%nat && (n <=? 70)%nat then Some (Z.of_nat n - 55)
  else None.

Fixpoint read_hex (acc : option Z) (s : string) : option Z :=
  match s with
  | EmptyString => acc
  | String a r =>
      match hex_val a with
      | Some v =>
          read_hex (Some (16 * match acc with Some n => n | None => 0 end + v))
                   r
      | None => acc
      end
  end.

(** The digits after the sign: hexadecimal after [0x] or [0X], decimal
    otherwise. *)
Definition read_number (s : string) : option Z :=
  match s with
  | String "0" (String "x" r) | String "0" (String "X" r) => read_hex None r
  | _ => read_digits None s
  end.

(** [parseInt(s)] without a radix: leading white space, an optional sign,
    the digits; [None] is NaN.  The result is the integer itself, which is
    what the JS number is up to 2^53. *)
Definition parseInt (s : string) : option Z :=
  match trim_start s with
  | String "-" r => option_map Z.opp (read_number r)
  | String "+" r => read_number r
  | t => read_number t
  end.

(** [s.replace('A', '')]: the first occurrence of the letter is removed. *)
Fixpoint replace_A (s : string) : string :=
  match s with
  | EmptyString => EmptyString
  | String a r => if (a =? "A")%char then r else String a (replace_A r)
  end.

Definition seat_number (s : Seat) : option Z :=
  parseInt (replace_A (seat_id s)).

(** The comparator [(a, b) => numA - numB]; [None] is NaN. *)
Definition compare_seats (a b : Seat) : option Z :=
  match seat_number a, seat_number b with
  | Some x, Some y => Some (x - y)
  | _, _ => None
  end.

(** [Array.prototype.sort] with a comparator: stable, and a NaN result
    counts as 0; [b] goes before [a] exactly when the comparator on
    [(a, b)] is positive. *)
Definition goes_after (a b : Seat) : bool :=
  match compare_seats a b with
  | Some v => 0 <? v
  | None => false
  end.

Fixpoint insert_sorted (s : Seat) (l : list Seat) : list Seat :=
  match l with
  | [] => [s]
  | x :: r => if goes_after s x then x :: insert_sorted s r else s :: l
  end.

(** [sortedSeats = [...seats].sort(...)] *)
Definition sortedSeats (l : list Seat) : list Seat :=
  fold_right insert_sorted [] l.

(** ** Properties of the store's state *)

(** The three shapes of a seat row: nothing set (AVAILABLE), the hold fields
    set and the booking fields unset (HELD), the booking fields set and the
    hold fields unset (BOOKED). *)
Definition hold_fields_set (s : Seat) : bool :=
  isSome (hold_expires_at s) && isSome (hold_id s) && isSome (held_by s).

Definition hold_fields_unset (s : Seat) : bool :=
  negb (isSome (hold_expires_at s)) && negb (isSome (hold_id s))
  && negb (isSome (held_by s)).

Definition booking_fields_set (s : Seat) : bool :=
  isSome (booked_by s) && isSome (booked_at s).

Definition booking_fields_unset (s : Seat) : bool :=
  negb (isSome (booked_by s)) && negb (isSome (booked_at s)).

Definition seat_shape_ok (s : Seat) : bool :=
  match status s with
  | AVAILABLE => hold_fields_unset s && booking_fields_unset s
  | HELD => hold_fields_set s && booking_fields_unset s
  | BOOKED => booking_fields_set s && hold_fields_unset s
  end.





(** The rows of a seat, and of a transaction, in a store. *)
Definition seat_rows (sid : string) (d : Db) : list Seat :=
  filter (fun s => (id s =? sid)%string) (seats_tbl d).

Definition booking_rows (bid : string) (d : Db) : list Booking :=
  filter (fun b => (bk_id b =? bid)%string) (bookings_tbl d).

(** The numeric order of two seats whose labels both give a number. *)
Definition num_le (a b : Seat) : Prop :=
  match seat_number a, seat_number b with
  | Some x, Some y => x <= y
  | _, _ => False
  end.

(** The text order of two seats' labels. *)
Definition label_le (a b : Seat) : Prop :=
  String.leb (seat_id a) (seat_id b) = true.

(** A label in which [parseInt] finds a number that a JS number holds
    exactly. *)
Definition numbered (s : Seat) : bool :=
  match seat_number s with
  | Some n => Z.abs n <? 2 ^ 53
  | None => false
  end.

(** ** Scenarios *)

Definition fresh_seat (i label : string) : Seat :=
  {| id := i; show_id := "show1"; seat_id := label; status := AVAILABLE;
     hold_expires_at := None; booked_by := None; booked_at := None;
     hold_id := None; held_by := None |}.

(** A show with the seats A1, A2 and A10, all AVAILABLE. *)
Definition store0 : Db :=
  {| seats_tbl := [fresh_seat "s1" "A1"; fresh_seat "s2" "A2";
                   fresh_seat "s10" "A10"];
     bookings_tbl := [] |}.

Definition client0 (u : string) : Client :=
  {| user := Some u; currentShow := Some "show1"; seats := [];
     selectedSeat := None; bookingState := idle; loading := false |}.

(** The seat picker of [BookingPanel]:
    [onSelectSeat(seats.find(s => s.seat_id === value) || null)]. *)
Definition pick (label : string) (c : Client) : Client :=
  {| user := user c; currentShow := currentShow c; seats := seats c;
     selectedSeat := find (fun s => (seat_id s =? label)%string) (seats c);
     bookingState := bookingState c; loading := loading c |}.

(** A page reloaded with a booking state saved in the local storage: the
    state of its first render, and the state once the show is known. *)
Definition reloaded (u : option string) (show : option string)
    (saved : option BookingState) : Client :=
  {| user := u; currentShow := show; seats := [];
     selectedSeat := None; bookingState := initBookingState saved;
     loading := false |}.

(** Alice and Carol load the page at 0 and pick A1.  Alice holds it at 1000
    under T1: her deadline is 21000. *)
Definition alice_loaded : World :=
  run (fetchSeats (client0 "alice") 0) (client0 "alice") store0 [].

Definition alice_picked : Client := pick "A1" (ui alice_loaded).

Definition carol_loaded : World :=
  run (fetchSeats (client0 "carol") 0) (client0 "carol") store0 [].

Definition carol_picked : Client := pick "A1" (ui carol_loaded).

Definition alice_holds : World :=
  run (holdSeat alice_picked "Alice" 1000 "T1") alice_picked
      (db alice_loaded) [].

(** Alice's page is closed.  Bob loads the page at 25000: his refresh runs
    the reclaimer.  He picks A1, holds it at 26000 under T2 and confirms at
    27000. *)
Definition bob_loaded : World :=
  run (fetchSeats (client0 "bob") 25000) (client0 "bob") (db alice_holds) [].

Definition bob_picked : Client := pick "A1" (ui bob_loaded).

Definition bob_holds : World :=
  run (holdSeat bob_picked "Bob" 26000 "T2") bob_picked (db bob_loaded) [].

Definition bob_confirms : World :=
  run (confirmPayment (ui bob_holds) 27000) (ui bob_holds) (db bob_holds) [].

(** Alice's page is reloaded with her hold saved, and refreshes: at her
    deadline exactly; after the seat was reclaimed; while Bob holds the
    seat; after Bob booked it. *)
Definition alice_mounted : Client :=
  reloaded None None (Some (bookingState (ui alice_holds))).

Definition alice_saved : Client :=
  reloaded (Some "alice") (Some "show1")
           (Some (bookingState (ui alice_holds))).

Definition alice_resumes_at_deadline : World :=
  run (fetchSeats alice_saved 21000) alice_saved (db alice_holds) [].

Definition alice_resumes_reclaimed : World :=
  run (fetchSeats alice_saved 25500) alice_saved (db bob_loaded) [].

Definition alice_resumes_held_by_bob : World :=
  run (fetchSeats alice_saved 26500) alice_saved (db bob_holds) [].

Definition alice_resumes_booked : World :=
  run (fetchSeats alice_saved 28000) alice_saved (db bob_confirms) [].

(** Reloaded while Bob holds the seat, Alice presses "Cancel Hold" at
    26800. *)
Definition alice_cancels_bobs_hold : World :=
  run (releaseHold (ui alice_resumes_held_by_bob) 26800)
      (ui alice_resumes_held_by_bob) (db alice_resumes_held_by_bob) [].

(** Reloaded after Bob booked the seat, Alice's countdown ticks at 29000.
    Her refresh did not set the booking state, so the interval is the one of
    the first render and so is the [releaseHold] it calls; the request is
    made under her session. *)
Definition alice_countdown_on_bobs_seat : World :=
  exec (timer_tick alice_mounted 29000)
       (start (Some "alice") (ui alice_resumes_booked)
              (db alice_resumes_booked) []).

(** Carol's list of seats dates from 0; she presses "Hold" at 30000, after
    Bob booked A1. *)
Definition carol_holds_booked_seat : World :=
  run (holdSeat carol_picked "Carol" 30000 "T3") carol_picked
      (db bob_confirms) [].

(** Alice's page stays open, its countdown suspended (the tab asleep), and
    nobody refreshes: she confirms at her deadline 21000, or at 30000. *)
Definition alice_confirms_at_deadline : World :=
  run (confirmPayment (ui alice_holds) 21000) (ui alice_holds)
      (db alice_holds) [].

Definition alice_confirms_late : World :=
  run (confirmPayment (ui alice_holds) 30000) (ui alice_holds)
      (db alice_holds) [].

(** Transport faults between the two writes of an operation: the fourth
    request of Alice's hold (the insert) fails; the second request of her
    release at 5000 (the booking update) fails. *)
Definition alice_hold_insert_fails : World :=
  run (holdSeat alice_picked "Alice" 1000 "T1") alice_picked
      (db alice_loaded) [false; false; false; true].


(** The rows of seat A1 while Bob holds it, and while Alice holds it with
    her transaction. *)
Definition bobs_row : Seat :=
  {| id := "s1"; show_id := "show1"; seat_id := "A1";
     status := HELD; hold_expires_at := Some 46000;
     booked_by := None; booked_at := None;
     hold_id := Some "T2"; held_by := Some "Bob" |}.

Definition alices_row : Seat :=
  {| id := "s1"; show_id := "show1"; seat_id := "A1";
     status := HELD; hold_expires_at := Some 21000;
     booked_by := None; booked_at := None;
     hold_id := Some "T1"; held_by := Some "Alice" |}.

Definition alices_booking : Booking :=
  {| bk_id := "T1"; bk_seat_id := "s1"; bk_user_id := Some "alice";
     bk_customer_name := "Alice"; bk_status := BK_HELD;
     bk_hold_expires_at := Some 21000; bk_confirmed_at := None |}.

(** Two clients at once.  Alice and Carol both have A1 AVAILABLE in their
    lists and press "Hold Seat" at 1000.  The store serves the two requests
    of Alice's refresh, then Carol's whole call (under the token T3), then
    Alice's seat update and what follows it. *)
Definition carol_served (d : Db) : Db :=
  db (run (holdSeat carol_picked "Carol" 1000 "T3") carol_picked d []).

Definition alice_holds_after_carol : World :=
  run_among (holdSeat alice_picked "Alice" 1000 "T1") alice_picked
            (db alice_loaded) []
            [fun d => d; fun d => d; carol_served] [].

(** Alice's page was asleep since her hold.  Bob holds A1 under T2 with the
    deadline 46000, and Alice presses "Pay" at 50000 with the state of her
    hold under T1. *)
Definition alice_confirms_over_bob : World :=
  run (confirmPayment (ui alice_holds) 50000) (ui alice_holds)
      (db bob_holds) [].

(** ** Calls of the handlers, one after the other

    A call is a handler of some client, created with a snapshot of that
    client's state, made under a session at an instant, with the transport
    faults it meets.  The store after a call is the store the next call
    finds: clients share nothing else. *)
Inductive Action :=
| Refresh                      (* fetchSeats *)
| Hold (name uuid : string)    (* holdSeat *)
| Confirm                      (* confirmPayment *)
| Release                      (* releaseHold *)
| Tick.                        (* one tick of the countdown *)

Definition handler (a : Action) (c : Client) (now : Timestamp) : M unit :=
  match a with
  | Refresh => fetchSeats c now
  | Hold name uuid => holdSeat c name now uuid
  | Confirm => confirmPayment c now
  | Release => releaseHold c now
  | Tick => timer_tick c now
  end.

Record Call := mkCall {
  action : Action;
  snapshot : Client;
  caller : option string;
  instant : Timestamp;
  schedule : list bool
}.

Definition call (k : Call) (d : Db) : World :=
  exec (handler (action k) (snapshot k) (instant k))
       (start (caller k) (snapshot k) d (schedule k)).

Definition run_calls (ks : list Call) (d : Db) : Db :=
  fold_left (fun d k => db (call k d)) ks d.

(** A world in which the handler is alone with the store and the server's
    clock is the browser's. *)
Definition alone (w : World) : Prop := others w = [] /\ clock w = [].

(** A handler keeps a property of the store, under a session. *)
Definition keeps {A} (s : option string) (P : Db -> Prop) (m : M A) : Prop :=
  forall w, alone w -> session w = s -> P (db w) ->
            alone (snd (m w)) /\ session (snd (m w)) = s
            /\ P (db (snd (m w))).

(** What identifies a seat, and what a transaction is created with. *)
Definition seat_key (s : Seat) : string * string * string :=
  (id s, show_id s, seat_id s).

Definition booking_key (b : Booking)
  : string * string * option string * string * option Timestamp :=
  (bk_id b, bk_seat_id b, bk_user_id b, bk_customer_name b,
   bk_hold_expires_at b).

(** The calls that are not a release: the refresh, the hold, the
    confirmation. *)
Definition no_release (k : Call) : bool :=
  match action k with
  | Refresh | Hold _ _ | Confirm => true
  | Release | Tick => false
  end.

(** The part of the three shapes that concerns the hold fields, with the
    booking fields of a BOOKED seat. *)
Definition hold_shape_ok (s : Seat) : bool :=
  match status s with
  | AVAILABLE => hold_fields_unset s
  | HELD => hold_fields_set s
  | BOOKED => hold_fields_unset s && booking_fields_set s
  end.


(** A name made of white space only, the empty name included. *)
Fixpoint all_space (s : string) : bool :=
  match s with
  | EmptyString => true
  | String a r =>
      if is_space a then all_space r
      else
        match r with
        | String b r2 =>
            if is_space2 a b then all_space r2
            else
              match r2 with
              | String c r3 => is_space3 a b c && all_space r3
              | EmptyString => false
              end
        | EmptyString => false
        end
  end.

(** A handler keeps a property of the pending state of the client. *)
Definition keeps_ui {A} (Q : Client -> Prop) (m : M A) : Prop :=
  forall w, Q (ui w) -> Q (ui (snd (m w))).

(** An action that only sets state variables of the client; [Q] relates
    the pending state before and after. *)
Definition ui_only {A} (Q : Client -> Client -> Prop) (m : M A) : Prop :=
  forall w, exists a u,
    m w = (a, {| db := db w; ui := u; session := session w;
                 faults := faults w; others := others w; clock := clock w;
                 toasts := toasts w |})
    /\ Q (ui w) u.

(** What a refresh leaves alone in the pending state: the user, the show,
    the loading flag; and the booking state too when the refresh was created
    in a state that is not HELD. *)
Definition refresh_frame (c : Client) (u u' : Client) : Prop :=
  user u' = user u /\ currentShow u' = currentShow u
  /\ loading u' = loading u
  /\ (bstatus (bookingState c) <> ST_HELD ->
      bookingState u' = bookingState u).

(** The same for the steps after [setSeats], which keep the list too. *)
Definition tail_frame (c : Client) (u u' : Client) : Prop :=
  refresh_frame c u u' /\ seats u' = seats u.

(** A call that does not release under the token [tok]: not a release or a
    countdown tick of a client whose state names [tok]. *)
Definition releases_other (tok : string) (k : Call) : bool :=
  match action k with
  | Release | Tick =>
      match bookingId (bookingState (snapshot k)) with
      | Some bid => negb (bid =? tok)%string
      | None => true
      end
  | _ => true
  end.

(** The decimal digits of a non-negative integer, without leading zeros,
    as many as the fuel allows. *)
Definition digit_char (k : Z) : ascii := ascii_of_nat (48 + Z.to_nat k).

Fixpoint decimal (fuel : nat) (n : Z) : string :=
  match fuel with
  | O => EmptyString
  | S f =>
      if n <? 10 then String (digit_char n) EmptyString
      else decimal f (n / 10) ++ String (digit_char (n mod 10)) EmptyString
  end.

(** The text of a number in a template literal, for the integers from 0
    that a JS number holds exactly (below 2^53, sixteen digits at most):
    the decimal digits.  Beyond, the number is not every integer and its
    text takes an exponent: not embedded ([None]). *)
Definition number_to_string (n : Z) : option string :=
  if (0 <=? n) && (n <? 2 ^ 53) then Some (decimal 16 n) else None.

(** The labels of [seedShow]: [`A${i}`] for [i] from 1 to 30. *)
Definition seat_label (i : Z) : option string :=
  option_map (String "A") (number_to_string i).

Definition seatLabels : list string :=
  flat_map (fun i => match seat_label (Z.of_nat i) with
                     | Some label => [label]
                     | None => []
                     end)
           (List.seq 1 30).

(** [seatsToInsert]: the show, the label and the status of each new row;
    the store fills in the id and leaves the other columns NULL. *)
Definition seatsToInsert (show : string)
  : list (string * string * SeatStatus) :=
  map (fun label => (show, label, AVAILABLE)) seatLabels.

Definition inserted_seat (i : string) (r : string * string * SeatStatus)
  : Seat :=
  {| id := i; show_id := fst (fst r); seat_id := snd (fst r);
     status := snd r; hold_expires_at := None; booked_by := None;
     booked_at := None; hold_id := None; held_by := None |}.

Fixpoint all_digits (s : string) : bool :=
  match s with
  | EmptyString => true
  | String a r => is_digit a && all_digits r
  end.

(** The number [SeatGrid] reads in a label, 0 standing for NaN. *)
Definition label_number (label : string) : Z :=
  match parseInt (replace_A label) with
  | Some n => n
  | None => 0
  end.

(** ** More scenarios *)

(** Dave loads the page at 2000, while Alice holds A1, and picks A1 in the
    panel all the same. *)
Definition dave_loaded : World :=
  run (fetchSeats (client0 "dave") 2000) (client0 "dave") (db alice_holds) [].

Definition dave_picked : Client := pick "A1" (ui dave_loaded).

(** The calls from Alice's hold to Bob's booking. *)
Definition bob_books : list Call :=
  [ mkCall (Hold "Alice" "T1") alice_picked (Some "alice") 1000 [];
    mkCall Refresh (client0 "bob") (Some "bob") 25000 [];
    mkCall (Hold "Bob" "T2") bob_picked (Some "bob") 26000 [];
    mkCall Confirm (ui bob_holds) (Some "bob") 27000 [] ].

(** What follows Bob's booking: Carol holds with her list of 0, Alice's
    reloaded page refreshes, Alice confirms with the state of her hold. *)
Definition after_bob_booked : list Call :=
  [ mkCall (Hold "Carol" "T3") carol_picked (Some "carol") 30000 [];
    mkCall Refresh alice_saved (Some "alice") 31000 [];
    mkCall Confirm (ui alice_holds) (Some "alice") 32000 [] ].

(** And then the countdown of Alice's reloaded page ticks, and she cancels
    with the state of her hold. *)
Definition alice_lets_go : list Call :=
  [ mkCall Tick alice_mounted (Some "alice") 29000 [];
    mkCall Release (ui alice_holds) (Some "alice") 33000 [] ].



(** The store after the two requests of a refresh: found, swept at the
    server's clock unless the rpc failed, and found again by the select. *)
Definition refreshed (now : Timestamp) (w : World) : Db :=
  hd (fun d => d) (tl (others w))
     (if hd false (faults w) then found w
      else release_expired_holds (hd now (clock w)) (found w)).

(** ** Stepping through a handler *)

Lemma exec_bind {A B} (m : M A) (k : A -> M B) (w : World) :
  exec (bind m k) w = exec (k (fst (m w))) (exec m w).
Proof. unfold exec, bind. destruct (m w); reflexivity. Qed.

(** A request, step by step: what it returns and the world it leaves. *)
Lemma request_run {A} (op : option string -> Db -> Result A * Db) w :
  request op w
  = (if hd false (faults w) then Err "Failed to fetch"
     else fst (op (session w) (found w)),
     {| db := if hd false (faults w) then found w
              else snd (op (session w) (found w));
        ui := ui w; session := session w; faults := tl (faults w);
        others := tl (others w); clock := tl (clock w);
        toasts := toasts w |}).
Proof.
  unfold request. destruct (hd false (faults w)); [reflexivity|].
  destruct (op (session w) (found w)); reflexivity.
Qed.

Lemma found_alone (w : World) : alone w -> found w = db w.
Proof. intros (H & _). unfold found. rewrite H. reflexivity. Qed.

Lemma fst_server_now (now : Timestamp) (w : World) :
  fst (server_now now w) = hd now (clock w).
Proof. reflexivity. Qed.

Lemma exec_server_now (now : Timestamp) (w : World) :
  exec (server_now now) w = w.
Proof. reflexivity. Qed.

(** ** White space *)

Lemma trim_start_eq (a : ascii) (r : string) :
  trim_start (String a r)
  = if is_space a then trim_start r
    else match r with
         | String b r2 =>
             if is_space2 a b then trim_start r2
             else match r2 with
                  | String c r3 =>
                      if is_space3 a b c then trim_start r3 else String a r
                  | EmptyString => String a r
                  end
         | EmptyString => String a r
         end.
Proof. reflexivity. Qed.

Lemma all_space_eq (a : ascii) (r : string) :
  all_space (String a r)
  = if is_space a then all_space r
    else match r with
         | String b r2 =>
             if is_space2 a b then all_space r2
             else match r2 with
                  | String c r3 => is_space3 a b c && all_space r3
                  | EmptyString => false
                  end
         | EmptyString => false
         end.
Proof. reflexivity. Qed.

(** Induction on a string by its suffixes. *)
Lemma suffix_ind (P : string -> Prop) :
  (forall s, (forall t, (String.length t < String.length s)%nat -> P t) ->
             P s) ->
  forall s, P s.
Proof.
  intros H s.
  assert (G : forall n t, (String.length t < n)%nat -> P t).
  { induction n as [|n IH]; intros t Hn; [lia|].
    apply H. intros u Hu. apply IH. lia. }
  apply (G (S (String.length s))). lia.
Qed.

Lemma length_trim_start (s : string) :
  (String.length (trim_start s) <= String.length s)%nat.
Proof.
  induction s as [s IH] using suffix_ind.
  destruct s as [|a r]; [apply le_n|]. rewrite trim_start_eq.
  destruct (is_space a).
  { specialize (IH r). cbn [String.length] in *. lia. }
  destruct r as [|b r2]; [apply le_n|].
  destruct (is_space2 a b).
  { specialize (IH r2). cbn [String.length] in *. lia. }
  destruct r2 as [|c r3]; [apply le_n|].
  destruct (is_space3 a b c); [|apply le_n].
  specialize (IH r3). cbn [String.length] in *. lia.
Qed.

(** A string is blank exactly when [trim_start] leaves nothing of it. *)
Lemma all_space_trim_start (s : string) :
  all_space s = true <-> trim_start s = EmptyString.
Proof.
  induction s as [s IH] using suffix_ind.
  destruct s as [|a r]; [split; reflexivity|].
  rewrite trim_start_eq, all_space_eq.
  destruct (is_space a); [apply IH; cbn; lia|].
  destruct r as [|b r2]; [split; discriminate|].
  destruct (is_space2 a b); [apply IH; cbn; lia|].
  destruct r2 as [|c r3]; [split; discriminate|].
  destruct (is_space3 a b c); cbn [andb];
    [apply IH; cbn; lia | split; discriminate].
Qed.

Lemma trim_start_idem (s : string) : trim_start (trim_start s) = trim_start s.
Proof.
  induction s as [s IH] using suffix_ind.
  destruct s as [|a r]; [reflexivity|].
  rewrite (trim_start_eq a r).
  destruct (is_space a) eqn:E; [apply IH; cbn; lia|].
  destruct r as [|b r2]; [rewrite trim_start_eq, E; reflexivity|].
  destruct (is_space2 a b) eqn:E2; [apply IH; cbn; lia|].
  destruct r2 as [|c r3]; [rewrite trim_start_eq, E, E2; reflexivity|].
  destruct (is_space3 a b c) eqn:E3; [apply IH; cbn; lia|].
  rewrite trim_start_eq, E, E2, E3. reflexivity.
Qed.

(** What [trim_end] keeps is the beginning of the string. *)
Lemma trim_end_prefix (s : string) :
  exists u, s = (trim_end s ++ u)%string.
Proof.
  induction s as [|a r (u & IH)]; [exists EmptyString; reflexivity|].
  cbn [trim_end]. destruct (blank (String a (trim_end r))).
  - exists (String a r). reflexivity.
  - exists u. cbn [append]. rewrite <- IH. reflexivity.
Qed.

(** A string that does not start with white space is not trimmed to
    nothing at its end. *)
Lemma trim_end_of_trimmed (s : string) :
  trim_start s = s -> trim_end s = EmptyString -> s = EmptyString.
Proof.
  intros Hs He. destruct s as [|a r]; [reflexivity|]. exfalso.
  cbn [trim_end] in He.
  destruct (blank (String a (trim_end r))) eqn:B; [|discriminate He].
  destruct (trim_end_prefix r) as (u & Hu).
  assert (L : forall t, trim_start t = String a r ->
                        (String.length t < String.length (String a r))%nat ->
                        False).
  { intros t Ht Hl. pose proof (length_trim_start t) as H.
    rewrite Ht in H. lia. }
  rewrite trim_start_eq in Hs.
  destruct (trim_end r) as [|b [|c [|x y]]]; cbn [blank] in B.
  - rewrite B in Hs. apply (L r Hs). cbn. lia.
  - cbn [append] in Hu. subst r.
    destruct (is_space a); [apply (L _ Hs); cbn; lia|].
    rewrite B in Hs. apply (L _ Hs). cbn. lia.
  - cbn [append] in Hu. subst r.
    destruct (is_space a); [apply (L _ Hs); cbn; lia|].
    destruct (is_space2 a b); [apply (L _ Hs); cbn; lia|].
    rewrite B in Hs. apply (L _ Hs). cbn. lia.
  - discriminate B.
Qed.

Lemma trim_blank (s : string) :
  trim s = EmptyString <-> all_space s = true.
Proof.
  unfold trim. rewrite all_space_trim_start. split.
  - apply trim_end_of_trimmed. apply trim_start_idem.
  - intros ->. reflexivity.
Qed.

(** ** Rows under the updates *)

Lemma nth_error_sql_update {R} (p : R -> bool) (f : R -> R) (l : list R)
    (i : nat) (r : R) :
  nth_error l i = Some r ->
  nth_error (sql_update p f l) i = Some (if p r then f r else r).
Proof.
  intro H. unfold sql_update. rewrite nth_error_map, H. reflexivity.
Qed.

Lemma confirm_filter_other_token (sid bid : string) (r : Seat) :
  hold_id r <> Some bid -> confirm_filter sid bid r = false.
Proof.
  intro H. unfold confirm_filter. destruct (hold_id r) as [h|].
  - destruct (String.eqb_spec h bid) as [->|_].
    + exfalso. apply H. reflexivity.
    + apply andb_false_r.
  - apply andb_false_r.
Qed.

(** A row after the reclaimer. *)
Lemma nth_error_release_expired_holds (now : Timestamp) (d : Db) (i : nat)
    (r : Seat) :
  nth_error (seats_tbl d) i = Some r ->
  nth_error (seats_tbl (release_expired_holds now d)) i
  = Some (if seat_hold_expired now r then clear_hold r else r).
Proof. intro H. simpl. apply nth_error_sql_update. exact H. Qed.

Lemma map_bk_id_sql_update (p : Booking -> bool) (st : BookingStatus)
    (l : list Booking) :
  map bk_id (sql_update p (set_bk_status st) l) = map bk_id l.
Proof.
  unfold sql_update. rewrite map_map. apply map_ext. intro b.
  destruct (p b); reflexivity.
Qed.

Lemma truthy_nonempty (s : string) : s <> EmptyString -> truthy (Some s) = true.
Proof.
  intro H. unfold truthy.
  destruct (String.eqb_spec s EmptyString); [contradiction|].
  reflexivity.
Qed.

(** The seat update of [holdSeat] is a compare-and-swap on the status: a
    row that is not AVAILABLE is not selected. *)
Lemma hold_filter_not_available (sel r : Seat) :
  status r <> AVAILABLE -> hold_filter sel r = false.
Proof.
  intro H. unfold hold_filter. destruct (status r); try contradiction;
    apply andb_false_r.
Qed.

(** [confirmPayment] without a session, a token or a seat id. *)
Lemma confirmPayment_refuses (c : Client) (d : Db) (fs : list bool)
    (now : Timestamp) :
  user c = None \/ truthy (bookingId (bookingState c)) = false
  \/ truthy (seatId (bookingState c)) = false ->
  run (confirmPayment c now) c d fs
  = {| db := d; ui := c; session := user c; faults := fs;
       others := []; clock := []; toasts := [T_NoActiveBooking] |}.
Proof.
  intro H. unfold run, confirmPayment.
  destruct (user c) as [uid|]; [|reflexivity].
  destruct (bookingId (bookingState c)) as [bid|]; [|reflexivity].
  destruct (seatId (bookingState c)) as [sid|]; [|reflexivity].
  destruct H as [H|[H|H]]; [discriminate| |]; rewrite H;
    [|rewrite andb_false_r]; reflexivity.
Qed.

(** [releaseHold] without a local seat id does nothing. *)
Lemma releaseHold_without_seat (c : Client) (d : Db) (fs : list bool)
    (now : Timestamp) :
  truthy (seatId (bookingState c)) = false ->
  run (releaseHold c now) c d fs = start (user c) c d fs.
Proof.
  intro H. unfold run, releaseHold.
  destruct (seatId (bookingState c)) as [sid|]; [|reflexivity].
  rewrite H. reflexivity.
Qed.


(** The countdown calls [releaseHold] from one second before the deadline
    on. *)
Lemma countdown_releases (c : Client) (now e : Timestamp) :
  holdExpiresAt (bookingState c) = Some e ->
  bstatus (bookingState c) = ST_HELD ->
  e - now < 1000 ->
  timer_tick c now = releaseHold c now.
Proof.
  intros He Hst Hlt. unfold timer_tick, remaining_seconds.
  rewrite He, Hst. cbn [UiStatus_eqb].
  assert (H : (e - now) / 1000 <= 0).
  { apply Z.lt_succ_r. apply Z.div_lt_upper_bound; lia. }
  destruct (Z.leb_spec (Z.max 0 ((e - now) / 1000)) 0); [reflexivity | lia].
Qed.

(** ** The three shapes under the updates *)

(** The rows written by the hold, by the confirmation and by the reclaimer
    have one of the three shapes. *)
Lemma hold_seat_row_shape (e : Timestamp) (tok name : string) (s : Seat) :
  status s = AVAILABLE -> seat_shape_ok s = true ->
  seat_shape_ok (hold_seat_row e tok name s) = true.
Proof.
  unfold seat_shape_ok. intros -> H. apply andb_prop in H. destruct H as [_ H].
  cbn. exact H.
Qed.

Lemma book_seat_row_shape (name : string) (now : Timestamp) (s : Seat) :
  seat_shape_ok (book_seat_row name now s) = true.
Proof. reflexivity. Qed.

Lemma clear_hold_shape_of_held (s : Seat) :
  status s = HELD -> seat_shape_ok s = true ->
  seat_shape_ok (clear_hold s) = true.
Proof.
  unfold seat_shape_ok. intros -> H. apply andb_prop in H. destruct H as [_ H].
  cbn. exact H.
Qed.

(** The row written by [releaseHold] on a BOOKED seat has none of them. *)
Lemma clear_hold_shape_of_booked (s : Seat) :
  status s = BOOKED -> seat_shape_ok s = true ->
  seat_shape_ok (clear_hold s) = false.
Proof.
  unfold seat_shape_ok, booking_fields_set, booking_fields_unset.
  intros -> H. apply andb_prop in H. destruct H as [H _].
  apply andb_prop in H. destruct H as [Hby _]. cbn.
  destruct (booked_by s); [reflexivity | discriminate Hby].
Qed.

Lemma forallb_sql_update {R} (ok p : R -> bool) (f : R -> R) (l : list R) :
  (forall r, ok r = true -> p r = true -> ok (f r) = true) ->
  forallb ok l = true -> forallb ok (sql_update p f l) = true.
Proof.
  intros Hf. induction l as [|x r IH]; intro H; [reflexivity|].
  cbn in H. apply andb_prop in H. destruct H as [Hx Hr].
  unfold sql_update in *. cbn [map forallb]. rewrite (IH Hr), andb_true_r.
  destruct (p x) eqn:E; [apply Hf; assumption | exact Hx].
Qed.

(** The seat updates of [holdSeat] and of [confirmPayment] and the reclaimer,
    which are conditioned on the status or on the token, keep every seat in
    one of the three shapes. *)
Lemma guarded_updates_keep_shapes (d : Db) (auth : option string)
    (sel : Seat) (e now : Timestamp) (tok name sid : string) :
  forallb seat_shape_ok (seats_tbl d) = true ->
  forallb seat_shape_ok
    (seats_tbl (update_seats auth (hold_filter sel)
                  (hold_seat_row e tok name) d)) = true
  /\ forallb seat_shape_ok
       (seats_tbl (confirm_seat_update auth sid tok name now d)) = true
  /\ forallb seat_shape_ok (seats_tbl (release_expired_holds now d)) = true.
Proof.
  intro H. split; [|split].
  - unfold update_seats. destruct auth; [|exact H]. cbn [seats_tbl].
    apply forallb_sql_update; [|exact H]. intros r Hr Hp.
    apply hold_seat_row_shape; [|exact Hr].
    unfold hold_filter in Hp. apply andb_prop in Hp. destruct Hp as [_ Hp].
    destruct (status r); try discriminate Hp. reflexivity.
  - unfold confirm_seat_update, update_seats. destruct auth; [|exact H].
    cbn [seats_tbl]. apply forallb_sql_update; [|exact H]. intros r _ _.
    apply book_seat_row_shape.
  - cbn [release_expired_holds seats_tbl].
    apply forallb_sql_update; [|exact H]. intros r Hr Hp.
    apply clear_hold_shape_of_held; [|exact Hr].
    unfold seat_hold_expired in Hp. apply andb_prop in Hp.
    destruct Hp as [Hp _]. destruct (status r); try discriminate Hp.
    reflexivity.
Qed.

(** ** The two orders of the seat list *)

Lemma insert_by_label_hd (s : Seat) (l : list Seat) (x : Seat) :
  label_le x s -> HdRel label_le x l -> HdRel label_le x (insert_by_label s l).
Proof.
  intros Hxs Hl. destruct l as [|y r]; simpl.
  - constructor. exact Hxs.
  - destruct (String.leb (seat_id s) (seat_id y)); constructor;
      [exact Hxs | inversion Hl; assumption].
Qed.

Lemma insert_by_label_sorted (s : Seat) (l : list Seat) :
  Sorted label_le l -> Sorted label_le (insert_by_label s l).
Proof.
  induction l as [|x r IH]; intro Hs; simpl.
  - repeat constructor.
  - destruct (String.leb (seat_id s) (seat_id x)) eqn:E.
    + constructor; [exact Hs | constructor; exact E].
    + inversion Hs as [|? ? Hr Hhd]; subst. constructor.
      * apply IH. exact Hr.
      * apply insert_by_label_hd; [|exact Hhd].
        destruct (String.leb_total (seat_id s) (seat_id x)) as [H|H];
          [congruence | exact H].
Qed.

Lemma order_by_seat_id_sorted (l : list Seat) :
  Sorted label_le (order_by_seat_id l).
Proof.
  induction l as [|x r IH]; simpl.
  - constructor.
  - apply insert_by_label_sorted. exact IH.
Qed.

Lemma insert_sorted_perm (s : Seat) (l : list Seat) :
  Permutation (insert_sorted s l) (s :: l).
Proof.
  induction l as [|x r IH]; simpl.
  - apply Permutation_refl.
  - destruct (goes_after s x).
    + apply perm_trans with (x :: s :: r).
      * apply perm_skip. exact IH.
      * apply perm_swap.
    + apply Permutation_refl.
Qed.

Lemma sortedSeats_perm (l : list Seat) : Permutation (sortedSeats l) l.
Proof.
  induction l as [|x r IH]; simpl.
  - apply perm_nil.
  - apply perm_trans with (x :: sortedSeats r).
    + apply insert_sorted_perm.
    + apply perm_skip. exact IH.
Qed.

Lemma num_le_trans (a b c : Seat) : num_le a b -> num_le b c -> num_le a c.
Proof.
  unfold num_le. destruct (seat_number a), (seat_number b), (seat_number c);
    try tauto. lia.
Qed.

Lemma insert_sorted_sorted (s : Seat) (l : list Seat) :
  seat_number s <> None ->
  Forall (fun x => seat_number x <> None) l ->
  StronglySorted num_le l -> StronglySorted num_le (insert_sorted s l).
Proof.
  intros Hs. induction l as [|x r IH]; intros Hall Hsorted; simpl.
  - repeat constructor.
  - inversion Hall as [|? ? Hx Hr]; subst.
    inversion Hsorted as [|? ? Hsr Hxr]; subst.
    destruct (goes_after s x) eqn:E.
    + constructor; [apply IH; assumption|].
      apply (Permutation_Forall (Permutation_sym (insert_sorted_perm s r))).
      constructor; [|exact Hxr].
      unfold goes_after, compare_seats in E. unfold num_le.
      destruct (seat_number s), (seat_number x); try discriminate.
      apply Z.ltb_lt in E. lia.
    + assert (Hsx : num_le s x).
      { unfold goes_after, compare_seats in E. unfold num_le.
        destruct (seat_number s), (seat_number x); try contradiction.
        apply Z.ltb_ge in E. lia. }
      constructor; [exact Hsorted|].
      constructor; [exact Hsx|].
      eapply Forall_impl; [|exact Hxr].
      intros y Hy. eapply num_le_trans; eassumption.
Qed.

Lemma sortedSeats_sorted (l : list Seat) :
  Forall (fun x => seat_number x <> None) l ->
  StronglySorted num_le (sortedSeats l).
Proof.
  induction l as [|x r IH]; intro Hall; simpl.
  - constructor.
  - inversion Hall as [|? ? Hx Hr]; subst.
    apply insert_sorted_sorted; [exact Hx | | apply IH; exact Hr].
    apply (Permutation_Forall (Permutation_sym (sortedSeats_perm r))).
    exact Hr.
Qed.

(** ** The whole effect of a refresh *)

Lemma map_sql_update_key {R K} (key : R -> K) (p : R -> bool) (f : R -> R)
    (l : list R) :
  (forall r, key (f r) = key r) ->
  map key (sql_update p f l) = map key l.
Proof.
  intro Hf. unfold sql_update. rewrite map_map. apply map_ext.
  intro r. destruct (p r); [apply Hf | reflexivity].
Qed.

Lemma ui_only_ret {A} (Q : Client -> Client -> Prop) (a : A) :
  (forall u, Q u u) -> ui_only Q (ret a).
Proof.
  intros Hrefl w. exists a, (ui w). split; [|apply Hrefl].
  unfold ret. destruct w; reflexivity.
Qed.

Lemma ui_only_set_ui (Q : Client -> Client -> Prop) (f : Client -> Client) :
  (forall u, Q u (f u)) -> ui_only Q (set_ui f).
Proof. intros H w. exists tt, (f (ui w)). split; [reflexivity | apply H]. Qed.

Lemma ui_only_bind {A B} (Q : Client -> Client -> Prop) (m : M A)
    (k : A -> M B) :
  (forall u1 u2 u3, Q u1 u2 -> Q u2 u3 -> Q u1 u3) ->
  ui_only Q m -> (forall a, ui_only Q (k a)) -> ui_only Q (bind m k).
Proof.
  intros Htr Hm Hk w. destruct (Hm w) as (a & u & E & HQ).
  unfold bind. rewrite E.
  destruct (Hk a {| db := db w; ui := u; session := session w;
                    faults := faults w; others := others w;
                    clock := clock w; toasts := toasts w |})
    as (b & u' & E' & HQ').
  exists b, u'. split; [exact E' | exact (Htr _ _ _ HQ HQ')].
Qed.

Lemma tail_frame_refl c u : tail_frame c u u.
Proof. repeat split. Qed.

Lemma tail_frame_trans c u1 u2 u3 :
  tail_frame c u1 u2 -> tail_frame c u2 u3 -> tail_frame c u1 u3.
Proof.
  intros ((A1 & A2 & A3 & A4) & A5) ((B1 & B2 & B3 & B4) & B5).
  repeat split; try congruence.
  intro H. rewrite (B4 H). apply A4. exact H.
Qed.

Ltac tail_step :=
  match goal with
  | |- ui_only _ (match ?x with _ => _ end) => destruct x
  | |- ui_only _ (ret _) => apply ui_only_ret, tail_frame_refl
  | |- ui_only _ (bind _ _) =>
      apply ui_only_bind; [apply tail_frame_trans| |intro]
  | |- ui_only _ (setSelectedSeat _) =>
      apply ui_only_set_ui; intro; repeat split
  | |- ui_only _ (setBookingState _) =>
      apply ui_only_set_ui; intro; repeat split;
      let H := fresh in intro H; contradiction
  end.

Lemma ui_only_restore_booking c now data :
  ui_only (tail_frame c) (restore_booking c now data).
Proof.
  unfold restore_booking.
  destruct (seatId (bookingState c)) as [sid|]; [|tail_step].
  destruct (truthy (Some sid)); cbn [andb]; [|tail_step].
  destruct (UiStatus_eqb (bstatus (bookingState c)) ST_HELD) eqn:E;
    [|tail_step].
  assert (Hheld : bstatus (bookingState c) = ST_HELD)
    by (destruct (bstatus (bookingState c)); try discriminate E; reflexivity).
  repeat tail_step.
Qed.

(** The world after a refresh of a client that has a show: two entries of
    each schedule are used up, no toast is shown, and the list of the
    client is what the select returned. *)
Lemma fetchSeats_world (c : Client) (now : Timestamp) (w : World)
    (show : string) :
  currentShow c = Some show ->
  exists u,
    exec (fetchSeats c now) w
    = {| db := refreshed now w;
         ui := u; session := session w; faults := tl (tl (faults w));
         others := tl (tl (others w)); clock := tl (tl (clock w));
         toasts := toasts w |}
    /\ refresh_frame c (ui w) u
    /\ (hd false (tl (faults w)) = false ->
        seats u = select_seats show (refreshed now w)).
Proof.
  intro Hshow. unfold fetchSeats. rewrite Hshow.
  rewrite exec_bind, fst_server_now, exec_server_now.
  rewrite exec_bind. unfold exec at 2. rewrite !request_run.
  cbn [fst snd]. rewrite exec_bind. unfold exec at 2.
  rewrite !request_run.
  cbn [fst snd ui session faults others clock toasts].
  repeat match goal with
         | |- context [found (mkWorld ?a ?b ?c ?d ?e ?f ?g)] =>
             change (found (mkWorld a b c d e f g)) with (refreshed now w)
         end.
  destruct (hd false (tl (faults w))).
  - exists (ui w). split; [reflexivity|]. split; [repeat split|].
    discriminate.
  - rewrite exec_bind. unfold setSeats at 1, set_ui at 1, exec at 2.
    cbn [snd db ui session faults others clock toasts].
    match goal with
    | |- exists u, exec ?m ?w1 = _ /\ _ =>
        assert (Hm : ui_only (tail_frame c) m)
          by (repeat tail_step; apply ui_only_restore_booking);
        destruct (Hm w1) as (a & u & E & (F1 & F2 & F3 & F4) & F5);
        exists u; unfold exec; rewrite E
    end.
    cbn [snd db ui session faults others clock toasts] in *.
    split; [reflexivity|]. split; [|intros _; exact F5].
    repeat split; assumption.
Qed.

(** For a handler that nobody disturbs. *)
Lemma refreshed_undisturbed (now : Timestamp) (w : World) :
  others w = [] ->
  refreshed now w
  = if hd false (faults w) then db w
    else release_expired_holds (hd now (clock w)) (db w).
Proof. intro H. unfold refreshed, found. rewrite H. reflexivity. Qed.

(** ** Stepping through a handler, request by request *)

Lemma existsb_map {A B} (f : B -> bool) (g : A -> B) (l : list A) :
  existsb (fun x => f (g x)) l = existsb f (map g l).
Proof.
  induction l as [|a l IH]; cbn; [reflexivity | rewrite IH; reflexivity].
Qed.

Lemma exec_request {A} (op : option string -> Db -> Result A * Db) w :
  exec (request op) w
  = {| db := if hd false (faults w) then found w
             else snd (op (session w) (found w));
       ui := ui w; session := session w; faults := tl (faults w);
       others := tl (others w); clock := tl (clock w);
       toasts := toasts w |}.
Proof. unfold exec. rewrite request_run. reflexivity. Qed.

Lemma fst_request {A} (op : option string -> Db -> Result A * Db) w :
  fst (request op w)
  = if hd false (faults w) then Err "Failed to fetch"
    else fst (op (session w) (found w)).
Proof. rewrite request_run. reflexivity. Qed.

Lemma exec_set_ui f w :
  exec (set_ui f) w
  = {| db := db w; ui := f (ui w); session := session w;
       faults := faults w; others := others w; clock := clock w;
       toasts := toasts w |}.
Proof. reflexivity. Qed.

Lemma exec_toast t w :
  exec (toast t) w
  = {| db := db w; ui := ui w; session := session w;
       faults := faults w; others := others w; clock := clock w;
       toasts := toasts w ++ [t] |}.
Proof. reflexivity. Qed.

Lemma found_eq (d : Db) u s fs os sv ts :
  found {| db := d; ui := u; session := s; faults := fs; others := os;
           clock := sv; toasts := ts |}
  = hd (fun d => d) os d.
Proof. reflexivity. Qed.

Ltac run_steps :=
  unfold setLoading, setBookingState, setSelectedSeat, setSeats;
  repeat (rewrite ?exec_bind, ?exec_request, ?fst_request, ?exec_set_ui,
            ?exec_toast, ?found_eq;
          cbn [fst snd db ui session faults others clock toasts hd tl user
               currentShow seats selectedSeat bookingState loading]).

Lemma nth_hd_tl2 (fs : list bool) :
  nth 2 fs false = hd false (tl (tl fs))
  /\ nth 3 fs false = hd false (tl (tl (tl fs))).
Proof. destruct fs as [|a [|b [|x [|y r]]]]; split; reflexivity. Qed.

Lemma nth_hd_tl4 {A} (l : list A) (x : A) :
  nth 4 l x = hd x (tl (tl (tl (tl l)))).
Proof. destruct l as [|a [|b [|c [|d [|e r]]]]]; reflexivity. Qed.

(** ** The whole effect of a hold *)

(** The ids in the store at the time of the insert of [holdSeat] are those
    at its start. *)
Lemma hold_update_ids (auth : option string) (p : Seat -> bool)
    (e : Timestamp) (tok name : string) (now : Timestamp) (f : bool)
    (d : Db) :
  let d1 := update_seats auth p (hold_seat_row e tok name)
              (if f then d else release_expired_holds now d) in
  map id (seats_tbl d1) = map id (seats_tbl d)
  /\ map bk_id (bookings_tbl d1) = map bk_id (bookings_tbl d).
Proof.
  cbn zeta. unfold update_seats.
  destruct auth, f; cbn [seats_tbl bookings_tbl release_expired_holds];
    rewrite ?map_bk_id_sql_update;
    rewrite ?(map_sql_update_key id) by (intro; reflexivity);
    split; reflexivity.
Qed.

(** The world after a hold that goes through when nobody else writes,
    whatever the readings of the server's clock and whatever becomes of the
    two requests of each refresh. *)
Lemma holdSeat_world (c : Client) (d : Db) (f1 f2 f5 f6 : bool)
    (fs : list bool) (sv : list Timestamp) (name uuid : string)
    (now : Timestamp) (uid show : string) (sel : Seat) :
  user c = Some uid -> selectedSeat c = Some sel ->
  currentShow c = Some show ->
  all_space name = false ->
  option_map status (find (fun s => (id s =? id sel)%string) (seats c))
  = Some AVAILABLE ->
  existsb (fun b => (bk_id b =? uuid)%string) (bookings_tbl d) = false ->
  existsb (fun s => (id s =? id sel)%string) (seats_tbl d) = true ->
  let d1 := update_seats (Some uid) (hold_filter sel)
              (hold_seat_row (now + HOLD_DURATION_SECONDS * 1000) uuid
                             (trim name))
              (if f1 then d else release_expired_holds (hd now sv) d) in
  let d2 := {| seats_tbl := seats_tbl d1;
               bookings_tbl :=
                 bookings_tbl d1
                 ++ [{| bk_id := uuid; bk_seat_id := id sel;
                        bk_user_id := Some uid;
                        bk_customer_name := trim name;
                        bk_status := BK_HELD;
                        bk_hold_expires_at :=
                          Some (now + HOLD_DURATION_SECONDS * 1000);
                        bk_confirmed_at := None |}] |} in
  exists u,
    run_among (holdSeat c name now uuid) c d
        (f1 :: f2 :: false :: false :: f5 :: f6 :: fs) [] sv
    = {| db := if f5 then d2
               else release_expired_holds (nth 4 sv now) d2;
         ui := u; session := Some uid; faults := fs; others := [];
         clock := tl (tl (tl (tl (tl (tl sv))))); toasts := [T_SeatHeld] |}
    /\ user u = Some uid /\ currentShow u = Some show /\ loading u = false
    /\ (bstatus (bookingState c) <> ST_HELD ->
        bookingState u
        = {| bookingId := Some uuid; seatId := Some (id sel);
             customerName := trim name; bstatus := ST_HELD;
             holdExpiresAt := Some (now + HOLD_DURATION_SECONDS * 1000) |}).
Proof.
  intros Hu Hsel Hshow Hname Hlist Hfresh Hfk d1 d2.
  unfold run_among, holdSeat. rewrite Hu, Hsel, Hshow.
  destruct (trim name =? EmptyString)%string eqn:E.
  { apply String.eqb_eq in E. apply trim_blank in E. congruence. }
  rewrite exec_bind.
  destruct (fetchSeats_world c now
              (start_among (Some uid) c d
                 (f1 :: f2 :: false :: false :: f5 :: f6 :: fs) [] sv)
              show Hshow)
    as (u1 & E1 & (U1 & U2 & U3 & U4) & _).
  rewrite E1. clear E1.
  cbn [start_among refreshed found db ui session faults others clock toasts
       hd tl] in *.
  rewrite Hlist. run_steps. fold d1.
  destruct (hold_update_ids (Some uid) (hold_filter sel)
              (now + HOLD_DURATION_SECONDS * 1000) uuid (trim name)
              (hd now sv) f1 d) as (Is & Ib).
  cbn zeta in Is, Ib. fold d1 in Is, Ib.
  unfold insert_booking, owns. cbn [bk_user_id bk_id bk_seat_id].
  rewrite String.eqb_refl. cbn [negb].
  rewrite (existsb_map (fun x => (x =? uuid)%string) bk_id), Ib,
    <- (existsb_map (fun x => (x =? uuid)%string) bk_id), Hfresh.
  rewrite (existsb_map (fun x => (x =? id sel)%string) id), Is,
    <- (existsb_map (fun x => (x =? id sel)%string) id), Hfk.
  cbn [negb]. run_steps. fold d2.
  match goal with
  | |- context [exec (fetchSeats c now) ?w] =>
      destruct (fetchSeats_world c now w show Hshow)
        as (u2 & E2 & (V1 & V2 & V3 & V4) & _);
      rewrite E2; clear E2
  end.
  cbn [refreshed found db ui session faults others clock toasts hd tl user
       currentShow seats selectedSeat bookingState loading] in *.
  rewrite <- (nth_hd_tl4 sv now).
  run_steps. cbn [app]. eexists. split; [reflexivity|].
  cbn [user currentShow loading bookingState].
  split; [congruence|]. split; [congruence|]. split; [reflexivity|].
  exact V4.
Qed.

(** ** What a refresh reads and what it keeps *)

Lemma insert_by_label_perm (s : Seat) (l : list Seat) :
  Permutation (s :: l) (insert_by_label s l).
Proof.
  induction l as [|x r IH]; cbn [insert_by_label]; [reflexivity|].
  destruct (String.leb (seat_id s) (seat_id x)); [reflexivity|].
  rewrite perm_swap. apply perm_skip. exact IH.
Qed.

Lemma order_by_seat_id_perm (l : list Seat) :
  Permutation l (order_by_seat_id l).
Proof.
  induction l as [|x r IH]; cbn [order_by_seat_id]; [reflexivity|].
  rewrite <- insert_by_label_perm. apply perm_skip. exact IH.
Qed.

Lemma In_select_seats (show : string) (d : Db) (s : Seat) :
  In s (select_seats show d) <-> In s (seats_tbl d) /\ show_id s = show.
Proof.
  unfold select_seats. split.
  - intro H. apply (Permutation_in _ (Permutation_sym
                                        (order_by_seat_id_perm _))) in H.
    apply filter_In in H. destruct H as (H1 & H2).
    split; [exact H1 | apply String.eqb_eq; exact H2].
  - intros (H1 & H2). apply (Permutation_in _ (order_by_seat_id_perm _)).
    apply filter_In. split; [exact H1 | apply String.eqb_eq; exact H2].
Qed.

Lemma restore_booking_noop (c : Client) (now : Timestamp) (data : list Seat)
    (w : World) :
  (forall sid s, seatId (bookingState c) = Some sid ->
                 find (fun s => (id s =? sid)%string) data = Some s ->
                 status s <> HELD) ->
  exec (restore_booking c now data) w = w.
Proof.
  intro H. unfold restore_booking.
  destruct (seatId (bookingState c)) as [sid|]; [|destruct w; reflexivity].
  destruct (truthy (Some sid) && _); [|destruct w; reflexivity].
  destruct (find _ data) as [s|] eqn:F; [|destruct w; reflexivity].
  specialize (H sid s eq_refl F).
  destruct (status s); try (destruct w; reflexivity).
  exfalso. apply H. reflexivity.
Qed.

Lemma Forall_sql_update {R} (Q : R -> Prop) (p : R -> bool) (f : R -> R)
    (l : list R) :
  (forall r, p r = true -> Q (f r)) -> (forall r, p r = false -> Q r) ->
  Forall Q (sql_update p f l).
Proof.
  intros Hf Hn. unfold sql_update. apply Forall_forall. intros x Hin.
  apply in_map_iff in Hin. destruct Hin as (r & <- & _).
  destruct (p r) eqn:E; [apply Hf | apply Hn]; exact E.
Qed.

(** A refresh that nobody disturbs shows no toast and changes the store by
    the reclaimer, at the server's clock, or not at all. *)
Lemma fetchSeats_undisturbed (c : Client) (now : Timestamp) (w : World) :
  others w = [] ->
  toasts (exec (fetchSeats c now) w) = toasts w
  /\ session (exec (fetchSeats c now) w) = session w
  /\ others (exec (fetchSeats c now) w) = []
  /\ (db (exec (fetchSeats c now) w) = db w
      \/ db (exec (fetchSeats c now) w)
         = release_expired_holds (hd now (clock w)) (db w)).
Proof.
  intro Ho. destruct (currentShow c) as [show|] eqn:E.
  - destruct (fetchSeats_world c now w show E) as (u & -> & _).
    cbn [toasts session others db]. rewrite (refreshed_undisturbed now w Ho).
    rewrite Ho. repeat split. destruct (hd false (faults w)); auto.
  - unfold fetchSeats. rewrite E. cbn. auto.
Qed.

(** A refresh leaves the booking state alone when the store has no seat
    HELD under the id the state names. *)
Lemma fetchSeats_state_kept (c : Client) (now : Timestamp) (w : World) :
  others w = [] ->
  (forall sid s, seatId (bookingState c) = Some sid ->
                 In s (seats_tbl (db w)) -> id s = sid -> status s <> HELD) ->
  bookingState (ui (exec (fetchSeats c now) w)) = bookingState (ui w).
Proof.
  intros Ho H. unfold fetchSeats.
  destruct (currentShow c) as [show|]; [|reflexivity].
  rewrite exec_bind, fst_server_now, exec_server_now.
  rewrite exec_bind, exec_request.
  rewrite exec_bind, exec_request, fst_request.
  cbn [fst snd db ui session faults others clock toasts].
  rewrite found_eq. unfold found. rewrite Ho. cbn [tl hd].
  destruct (hd false (tl (faults w))); [reflexivity|].
  set (t := hd now (clock w)).
  set (D := if hd false (faults w) then db w
            else release_expired_holds t (db w)).
  assert (HD : forall sid s, seatId (bookingState c) = Some sid ->
                 find (fun s => (id s =? sid)%string) (select_seats show D)
                 = Some s -> status s <> HELD).
  { intros sid s Hsid F. apply find_some in F. destruct F as (Hin & Hid).
    apply String.eqb_eq in Hid. apply In_select_seats in Hin.
    destruct Hin as (Hin & _). subst D.
    destruct (hd false (faults w)); [exact (H sid s Hsid Hin Hid)|].
    cbn [release_expired_holds seats_tbl] in Hin.
    unfold sql_update in Hin. apply in_map_iff in Hin.
    destruct Hin as (r & Hr & Hin).
    destruct (seat_hold_expired t r).
    - subst s. discriminate.
    - subst s. exact (H sid r Hsid Hin Hid). }
  rewrite !exec_bind. rewrite (restore_booking_noop c now _ _ HD).
  unfold setSeats. rewrite exec_set_ui.
  destruct (selectedSeat c) as [sel|]; [|reflexivity].
  destruct (find _ _); reflexivity.
Qed.

(** ** The rows after a release, a hold and a confirmation *)

Lemma truthy_Some (s : string) : s <> EmptyString -> truthy (Some s) = true.
Proof.
  intro H. unfold truthy. destruct (s =? EmptyString)%string eqn:E;
    [apply String.eqb_eq in E; contradiction | reflexivity].
Qed.

Lemma releaseHold_idle (c : Client) (d : Db) (fs : list bool)
    (sv : list Timestamp) (now : Timestamp) (uid sid : string) :
  seatId (bookingState c) = Some sid -> sid <> EmptyString ->
  hd false fs = false ->
  let w := exec (releaseHold c now) (start_among (Some uid) c d fs [] sv) in
  toasts w = [T_HoldReleased]
  /\ bookingState (ui w) = idle /\ loading (ui w) = false
  /\ Forall (fun s => id s = sid -> status s = AVAILABLE) (seats_tbl (db w)).
Proof.
  intros Hsid Hne Hf w. subst w. unfold releaseHold, start_among.
  rewrite Hsid, (truthy_Some sid Hne). run_steps. rewrite Hf. run_steps.
  assert (Hfin : forall w3,
             others w3 = [] ->
             toasts w3 = [] -> bookingState (ui w3) = idle ->
             Forall (fun s => id s = sid -> status s = AVAILABLE)
                    (seats_tbl (db w3)) ->
             toasts (exec (fetchSeats c now) w3) ++ [T_HoldReleased]
             = [T_HoldReleased]
             /\ bookingState (ui (exec (fetchSeats c now) w3)) = idle
             /\ false = false
             /\ Forall (fun s => id s = sid -> status s = AVAILABLE)
                       (seats_tbl (db (exec (fetchSeats c now) w3)))).
  { intros w3 Ho Ht Hb Hs.
    destruct (fetchSeats_undisturbed c now w3 Ho) as (Ht' & _ & _ & Hd).
    rewrite Ht', Ht. split; [reflexivity|]. split; [|split; [reflexivity|]].
    - rewrite fetchSeats_state_kept; [exact Hb | exact Ho |].
      intros sid' s Hsid' Hin Hid. rewrite Hsid in Hsid'.
      injection Hsid' as <-.
      rewrite (proj1 (Forall_forall _ _) Hs s Hin Hid). discriminate.
    - destruct Hd as [-> | ->]; [exact Hs|].
      cbn [release_expired_holds seats_tbl]. apply Forall_forall.
      intros x Hin. unfold sql_update in Hin. apply in_map_iff in Hin.
      destruct Hin as (r & <- & Hin).
      destruct (seat_hold_expired _ r); [reflexivity|].
      exact (proj1 (Forall_forall _ _) Hs r Hin). }
  assert (Hs1 : Forall (fun s => id s = sid -> status s = AVAILABLE)
                  (seats_tbl (update_seats (Some uid) (release_filter sid)
                                           clear_hold d))).
  { cbn [update_seats seats_tbl]. apply Forall_sql_update.
    - intros r _ _. reflexivity.
    - intros r Hr Hid. unfold release_filter in Hr.
      apply String.eqb_neq in Hr. contradiction. }
  destruct (bookingId (bookingState c)) as [bid|];
    [destruct (truthy (Some bid))|];
    run_steps; apply Hfin; try reflexivity;
    try destruct (hd false (tl fs)); exact Hs1.
Qed.

Lemma nth_error_app_last {A} (l : list A) (x : A) :
  nth_error (l ++ [x]) (List.length l) = Some x.
Proof. induction l as [|a l IH]; [reflexivity | exact IH]. Qed.

Lemma length_sql_update {R} (p : R -> bool) (f : R -> R) (l : list R) :
  List.length (sql_update p f l) = List.length l.
Proof. unfold sql_update. apply length_map. Qed.

(** The rows of a hold that went through, in the store it leaves: the
    sweep of the closing refresh, at the server's clock, keeps them when
    that clock is not past the deadline. *)
Lemma held_rows (d : Db) (f1 f5 : bool) (t1 t5 : Timestamp)
    (name uuid uid : string) (now : Timestamp) (sel : Seat) (i : nat)
    (row : Seat) :
  nth_error (seats_tbl d) i = Some row ->
  id row = id sel -> status row = AVAILABLE ->
  f5 = true \/ t5 <= now + HOLD_DURATION_SECONDS * 1000 ->
  let e := now + HOLD_DURATION_SECONDS * 1000 in
  let bk := {| bk_id := uuid; bk_seat_id := id sel; bk_user_id := Some uid;
               bk_customer_name := name; bk_status := BK_HELD;
               bk_hold_expires_at := Some e; bk_confirmed_at := None |} in
  let d1 := update_seats (Some uid) (hold_filter sel)
              (hold_seat_row e uuid name)
              (if f1 then d else release_expired_holds t1 d) in
  let d2 := {| seats_tbl := seats_tbl d1;
               bookings_tbl := bookings_tbl d1 ++ [bk] |} in
  let d3 := if f5 then d2 else release_expired_holds t5 d2 in
  nth_error (seats_tbl d3) i = Some (hold_seat_row e uuid name row)
  /\ nth_error (bookings_tbl d3) (List.length (bookings_tbl d)) = Some bk.
Proof.
  intros Hrow Hid Hav Hclock e bk d1 d2 d3.
  assert (H1 : nth_error (seats_tbl d1) i
               = Some (hold_seat_row e uuid name row)).
  { subst d1. cbn [update_seats seats_tbl].
    assert (H0 : nth_error
                   (seats_tbl (if f1 then d else release_expired_holds t1 d))
                   i = Some row).
    { destruct f1; [exact Hrow|].
      rewrite (nth_error_release_expired_holds t1 _ _ _ Hrow).
      unfold seat_hold_expired. rewrite Hav. reflexivity. }
    rewrite (nth_error_sql_update _ _ _ _ _ H0). unfold hold_filter.
    rewrite Hid, String.eqb_refl, Hav. reflexivity. }
  assert (H2 : nth_error (bookings_tbl d2) (List.length (bookings_tbl d))
               = Some bk).
  { subst d2. cbn [bookings_tbl].
    assert (L : List.length (bookings_tbl d1) = List.length (bookings_tbl d)).
    { subst d1. cbn [update_seats bookings_tbl].
      destruct f1; [reflexivity|]. cbn [release_expired_holds bookings_tbl].
      apply length_sql_update. }
    rewrite <- L. apply nth_error_app_last. }
  subst d3. destruct f5; [split; assumption|].
  destruct Hclock as [Hc | Hc]; [discriminate Hc|].
  assert (Hex : (e <? t5) = false) by (apply Z.ltb_ge; exact Hc).
  split.
  - change (seats_tbl d2) with (seats_tbl d1) in *.
    rewrite (nth_error_release_expired_holds t5 d2 i _ H1).
    unfold seat_hold_expired. cbn [hold_seat_row status hold_expires_at].
    cbn [SeatStatus_eqb andb expired_before]. rewrite Hex. reflexivity.
  - cbn [release_expired_holds bookings_tbl].
    rewrite (nth_error_sql_update _ _ _ _ _ H2).
    unfold booking_hold_expired, bk. cbn [bk_status bk_hold_expires_at].
    cbn [BookingStatus_eqb andb expired_before]. rewrite Hex. reflexivity.
Qed.

Lemma nth_error_existsb {A} (p : A -> bool) (l : list A) (i : nat) (x : A) :
  nth_error l i = Some x -> p x = true -> existsb p l = true.
Proof.
  intros H Hp. apply existsb_exists. exists x.
  split; [exact (nth_error_In _ _ H) | exact Hp].
Qed.

Lemma unique_row {R K} (key : R -> K) (l : list R) (i : nat) (r s : R) :
  NoDup (map key l) -> nth_error l i = Some r -> In s l -> key s = key r ->
  s = r.
Proof.
  revert i. induction l as [|x l IH]; intros i Hnd Hr Hin Hk.
  - destruct Hin.
  - cbn [map] in Hnd. inversion Hnd as [|? ? Hx Hl]; subst.
    destruct i as [|i]; cbn [nth_error] in Hr.
    + injection Hr as ->. destruct Hin as [-> | Hin]; [reflexivity|].
      exfalso. apply Hx. rewrite <- Hk. apply in_map. exact Hin.
    + destruct Hin as [-> | Hin].
      * exfalso. apply Hx. rewrite Hk. apply in_map.
        exact (nth_error_In _ _ Hr).
      * exact (IH i Hl Hr Hin Hk).
Qed.


Lemma find_unique {A} (p : A -> bool) (l : list A) (x : A) :
  In x l -> p x = true ->
  (forall y, In y l -> p y = true -> y = x) ->
  find p l = Some x.
Proof.
  induction l as [|a l IH]; intros Hin Hp Hu; [destruct Hin|].
  cbn [find]. destruct (p a) eqn:E.
  - f_equal. apply Hu; [left; reflexivity | exact E].
  - destruct Hin as [-> | Hin]; [congruence|].
    apply IH; [exact Hin | exact Hp |].
    intros y Hy. apply Hu. right. exact Hy.
Qed.

(** [confirmPayment] with both writes carried out, on a seat that carries
    the caller's token: whatever [now] is, the seat is booked and the
    transaction confirmed. *)
Lemma confirmPayment_rows_among
    (c : Client) (d : Db) (fs : list bool) (sv : list Timestamp)
    (now : Timestamp)
    (uid bid sid : string) (i j : nat) (r : Seat) (b : Booking) :
  user c = Some uid ->
  bookingId (bookingState c) = Some bid -> bid <> EmptyString ->
  seatId (bookingState c) = Some sid -> sid <> EmptyString ->
  nth_error (seats_tbl d) i = Some r -> id r = sid -> hold_id r = Some bid ->
  nth_error (bookings_tbl d) j = Some b -> bk_id b = bid ->
  bk_user_id b = Some uid ->
  let w := run_among (confirmPayment c now) c d (false :: false :: fs) []
                     sv in
  toasts w = [T_BookingConfirmed]
  /\ nth_error (seats_tbl (db w)) i
     = Some (book_seat_row (customerName (bookingState c)) now r)
  /\ nth_error (bookings_tbl (db w)) j = Some (confirm_booking_row now b).
Proof.
  intros Hu Hb Hbne Hs Hsne Hr Hid Hh Hbk Hbid Hown w. subst w.
  unfold run_among, start_among, confirmPayment. rewrite Hu, Hb, Hs.
  rewrite (truthy_nonempty _ Hbne), (truthy_nonempty _ Hsne).
  cbn [andb].
  repeat (rewrite !exec_bind;
          cbn -[confirm_seat_update update_bookings fetchSeats]).
  match goal with
  | |- context [exec (fetchSeats c now) ?w] =>
      destruct (fetchSeats_undisturbed c now w eq_refl)
        as (Ht & _ & _ & Hd);
      set (w' := exec (fetchSeats c now) w) in *; clearbody w'
  end.
  cbn [db toasts] in Ht, Hd. rewrite Ht.
  assert (Hseat : nth_error
            (seats_tbl
               (update_bookings (Some uid)
                  (fun b0 => (bk_id b0 =? bid)%string) (confirm_booking_row now)
                  (confirm_seat_update (Some uid) sid bid
                     (customerName (bookingState c)) now d))) i
          = Some (book_seat_row (customerName (bookingState c)) now r)).
  { cbn [update_bookings confirm_seat_update update_seats seats_tbl].
    rewrite (nth_error_sql_update _ _ _ _ _ Hr).
    unfold confirm_filter. rewrite Hid, Hh, !String.eqb_refl. reflexivity. }
  assert (Hbook : nth_error
            (bookings_tbl
               (update_bookings (Some uid)
                  (fun b0 => (bk_id b0 =? bid)%string) (confirm_booking_row now)
                  (confirm_seat_update (Some uid) sid bid
                     (customerName (bookingState c)) now d))) j
          = Some (confirm_booking_row now b)).
  { cbn [update_bookings confirm_seat_update update_seats bookings_tbl].
    rewrite (nth_error_sql_update _ _ _ _ _ Hbk).
    unfold owns. rewrite Hown, Hbid, !String.eqb_refl. reflexivity. }
  split; [reflexivity|].
  destruct Hd as [H|H]; rewrite H.
  - split; assumption.
  - split.
    + rewrite (nth_error_release_expired_holds _ _ _ _ Hseat). reflexivity.
    + cbn [release_expired_holds bookings_tbl].
      rewrite (nth_error_sql_update _ _ _ _ _ Hbook). reflexivity.
Qed.


Lemma confirmPayment_rows
    (c : Client) (d : Db) (fs : list bool) (now : Timestamp)
    (uid bid sid : string) (i j : nat) (r : Seat) (b : Booking) :
  user c = Some uid ->
  bookingId (bookingState c) = Some bid -> bid <> EmptyString ->
  seatId (bookingState c) = Some sid -> sid <> EmptyString ->
  nth_error (seats_tbl d) i = Some r -> id r = sid -> hold_id r = Some bid ->
  nth_error (bookings_tbl d) j = Some b -> bk_id b = bid ->
  bk_user_id b = Some uid ->
  toasts (run (confirmPayment c now) c d (false :: false :: fs))
  = [T_BookingConfirmed]
  /\ nth_error
       (seats_tbl (db (run (confirmPayment c now) c d (false :: false :: fs))))
       i
     = Some (book_seat_row (customerName (bookingState c)) now r)
  /\ nth_error
       (bookings_tbl
          (db (run (confirmPayment c now) c d (false :: false :: fs)))) j
     = Some (confirm_booking_row now b).
Proof. exact (confirmPayment_rows_among c d fs [] now uid bid sid i j r b). Qed.


Lemma nth2_hd_tl {A} (l : list A) (x : A) : nth 2 l x = hd x (tl (tl l)).
Proof. destruct l as [|a [|b [|c r]]]; reflexivity. Qed.


(** ** The properties of the reservation state machine *)

(** C1.  [holdSeat] on a seat that is BOOKED in the store, called from a
    client whose list of seats still shows it AVAILABLE: the seat rows are
    left as they are, but the call does not end in "Seat Unavailable"; it
    inserts a transaction in HELD status, puts the client in the HELD state
    and shows "Seat Held". *)
Theorem holdSeat_on_booked_seat_creates_transaction :
  map status (seat_rows "s1" (db bob_confirms)) = [BOOKED]
  /\ map status (seats carol_picked) = [AVAILABLE; AVAILABLE; AVAILABLE]
  /\ toasts carol_holds_booked_seat = [T_SeatHeld]
  /\ seats_tbl (db carol_holds_booked_seat) = seats_tbl (db bob_confirms)
  /\ booking_rows "T3" (db bob_confirms) = []
  /\ booking_rows "T3" (db carol_holds_booked_seat) =
       [ {| bk_id := "T3"; bk_seat_id := "s1"; bk_user_id := Some "carol";
            bk_customer_name := "Carol"; bk_status := BK_HELD;
            bk_hold_expires_at := Some 50000; bk_confirmed_at := None |} ]
  /\ bookingState (ui carol_holds_booked_seat) =
       {| bookingId := Some "T3"; seatId := Some "s1";
          customerName := "Carol"; bstatus := ST_HELD;
          holdExpiresAt := Some 50000 |}.
Proof. vm_compute. repeat split; reflexivity. Qed.

(** C2.  Hold by Alice, reclaim, hold and confirm by Bob, then the release
    that the countdown of Alice's reloaded page calls, no second being left
    of her hold: every seat has one of the three shapes up to Bob's
    confirmation, and Alice's release leaves seat A1 AVAILABLE with
    [booked_by] and [booked_at] still set. *)
Theorem release_leaves_available_seat_with_booking_fields :
  forallb seat_shape_ok (seats_tbl store0) = true
  /\ forallb seat_shape_ok (seats_tbl (db alice_holds)) = true
  /\ forallb seat_shape_ok (seats_tbl (db bob_loaded)) = true
  /\ forallb seat_shape_ok (seats_tbl (db bob_holds)) = true
  /\ forallb seat_shape_ok (seats_tbl (db bob_confirms)) = true
  /\ forallb seat_shape_ok (seats_tbl (db alice_resumes_booked)) = true
  /\ bookingState (ui alice_resumes_booked) = bookingState alice_saved
  /\ remaining_seconds 29000 21000 = 0
  /\ toasts alice_countdown_on_bobs_seat = [T_HoldReleased]
  /\ seat_rows "s1" (db alice_countdown_on_bobs_seat) =
       [ {| id := "s1"; show_id := "show1"; seat_id := "A1";
            status := AVAILABLE; hold_expires_at := None;
            booked_by := Some "Bob"; booked_at := Some 27000;
            hold_id := None; held_by := None |} ]
  /\ forallb seat_shape_ok (seats_tbl (db alice_countdown_on_bobs_seat))
     = false.
Proof. vm_compute. repeat split; reflexivity. Qed.




(** C4, counterexample.  Alice's transaction T1 is HELD with the deadline
    21000; her [confirmPayment] at 21000, and at 30000, books the seat and
    confirms the transaction. *)
Lemma confirm_after_deadline_books :
  map bk_status (booking_rows "T1" (db alice_holds)) = [BK_HELD]
  /\ map bk_hold_expires_at (booking_rows "T1" (db alice_holds)) = [Some 21000]
  /\ toasts alice_confirms_at_deadline = [T_BookingConfirmed]
  /\ db alice_confirms_at_deadline <> db alice_holds
  /\ map status (seat_rows "s1" (db alice_confirms_at_deadline)) = [BOOKED]
  /\ map bk_status (booking_rows "T1" (db alice_confirms_at_deadline))
     = [BK_CONFIRMED]
  /\ toasts alice_confirms_late = [T_BookingConfirmed]
  /\ db alice_confirms_late <> db alice_holds
  /\ map status (seat_rows "s1" (db alice_confirms_late)) = [BOOKED]
  /\ map bk_status (booking_rows "T1" (db alice_confirms_late))
     = [BK_CONFIRMED].
Proof.
  vm_compute. repeat split; try reflexivity; intro H; discriminate H.
Qed.

(** C4, amended.  [confirmPayment] compares no deadline with the clock.
    When the seat carries the caller's token and both writes are carried
    out, then at every [now], before or after [hold_expires_at], the call
    ends in "Booking Confirmed!", the seat is BOOKED with the hold fields
    cleared and [booked_by], [booked_at] set, and the caller's transaction
    is CONFIRMED at [now].  The call ends in "No active booking to confirm",
    with the store untouched, when the client has no user, no token or no
    seat id. *)
Theorem confirm_books_at_any_time
    (c : Client) (d : Db) (fs : list bool) (now : Timestamp)
    (uid bid sid : string) (i j : nat) (r : Seat) (b : Booking) :
  user c = Some uid ->
  bookingId (bookingState c) = Some bid -> bid <> EmptyString ->
  seatId (bookingState c) = Some sid -> sid <> EmptyString ->
  nth_error (seats_tbl d) i = Some r -> id r = sid -> hold_id r = Some bid ->
  nth_error (bookings_tbl d) j = Some b -> bk_id b = bid ->
  bk_user_id b = Some uid ->
  (toasts (run (confirmPayment c now) c d (false :: false :: fs))
   = [T_BookingConfirmed]
   /\ nth_error
        (seats_tbl (db (run (confirmPayment c now) c d (false :: false :: fs))))
        i
      = Some {| id := id r; show_id := show_id r; seat_id := seat_id r;
                status := BOOKED; hold_expires_at := None;
                booked_by := Some (customerName (bookingState c));
                booked_at := Some now;
                hold_id := None; held_by := None |}
   /\ nth_error
        (bookings_tbl
           (db (run (confirmPayment c now) c d (false :: false :: fs)))) j
      = Some {| bk_id := bk_id b; bk_seat_id := bk_seat_id b;
                bk_user_id := bk_user_id b;
                bk_customer_name := bk_customer_name b;
                bk_status := BK_CONFIRMED;
                bk_hold_expires_at := bk_hold_expires_at b;
                bk_confirmed_at := Some now |})
  /\ (forall c0 d0 fs0 now0,
         user c0 = None \/ truthy (bookingId (bookingState c0)) = false
         \/ truthy (seatId (bookingState c0)) = false ->
         run (confirmPayment c0 now0) c0 d0 fs0
         = {| db := d0; ui := c0; session := user c0; faults := fs0;
              others := []; clock := [];
              toasts := [T_NoActiveBooking] |}).
Proof.
  intros Hu Hb Hbne Hs Hsne Hr Hid Hh Hbk Hbid Hown. split.
  - exact (confirmPayment_rows c d fs now uid bid sid i j r b
             Hu Hb Hbne Hs Hsne Hr Hid Hh Hbk Hbid Hown).
  - intros c0 d0 fs0 now0 H. apply confirmPayment_refuses. exact H.
Qed.

Lemma confirm_books_at_any_time_witness :
  user (ui alice_holds) = Some "alice"
  /\ bookingId (bookingState (ui alice_holds)) = Some "T1"
  /\ seatId (bookingState (ui alice_holds)) = Some "s1"
  /\ nth_error (seats_tbl (db alice_holds)) 0 = Some alices_row
  /\ nth_error (bookings_tbl (db alice_holds)) 0 = Some alices_booking
  /\ hold_still_valid 30000 21000 = false
  /\ toasts (run (confirmPayment (ui alice_holds) 30000) (ui alice_holds)
               (db alice_holds) [false; false]) = [T_BookingConfirmed]
  /\ map status
       (seat_rows "s1"
          (db (run (confirmPayment (ui alice_holds) 30000) (ui alice_holds)
                   (db alice_holds) [false; false]))) = [BOOKED]
  /\ run (confirmPayment (client0 "alice") 30000) (client0 "alice")
         (db alice_holds) []
     = {| db := db alice_holds; ui := client0 "alice";
          session := Some "alice"; faults := [];
          others := []; clock := [];
          toasts := [T_NoActiveBooking] |}.
Proof.
  assert (Hu : user (ui alice_holds) = Some "alice")
    by (vm_compute; reflexivity).
  assert (Hb : bookingId (bookingState (ui alice_holds)) = Some "T1")
    by (vm_compute; reflexivity).
  assert (Hs : seatId (bookingState (ui alice_holds)) = Some "s1")
    by (vm_compute; reflexivity).
  assert (Hr : nth_error (seats_tbl (db alice_holds)) 0 = Some alices_row)
    by (vm_compute; reflexivity).
  assert (Hbk : nth_error (bookings_tbl (db alice_holds)) 0
                = Some alices_booking) by (vm_compute; reflexivity).
  assert (Hbne : "T1" <> EmptyString) by (intro H; discriminate H).
  assert (Hsne : "s1" <> EmptyString) by (intro H; discriminate H).
  destruct (confirm_books_at_any_time (ui alice_holds) (db alice_holds) []
              30000 "alice" "T1" "s1" 0 0 alices_row alices_booking
              Hu Hb Hbne Hs Hsne Hr eq_refl eq_refl Hbk eq_refl eq_refl)
    as [[Ht _] Hguard].
  split; [exact Hu|]. split; [exact Hb|]. split; [exact Hs|].
  split; [exact Hr|]. split; [exact Hbk|].
  split; [vm_compute; reflexivity|]. split; [exact Ht|].
  split; [vm_compute; reflexivity|].
  apply Hguard. right. left. reflexivity.
Defined.

(** C5.  Alice's transaction T1 was cancelled by the reclaimer and Bob holds
    the seat under T2; the [releaseHold] of Alice's reloaded page does not
    end as "nothing to do": it shows "Hold Released" and sets the seat
    AVAILABLE, wiping Bob's hold, whose transaction T2 stays HELD.  Her
    state is idle afterwards, and a second [releaseHold] does nothing. *)
Theorem release_of_cancelled_hold_frees_the_seat :
  map bk_status (booking_rows "T1" (db alice_resumes_held_by_bob))
  = [BK_CANCELLED]
  /\ seat_rows "s1" (db alice_resumes_held_by_bob) = [bobs_row]
  /\ bookingId (bookingState (ui alice_resumes_held_by_bob)) = Some "T1"
  /\ toasts alice_cancels_bobs_hold = [T_HoldReleased]
  /\ seat_rows "s1" (db alice_cancels_bobs_hold) = [fresh_seat "s1" "A1"]
  /\ map bk_status (booking_rows "T2" (db alice_cancels_bobs_hold))
     = [BK_HELD]
  /\ bookingState (ui alice_cancels_bobs_hold) = idle
  /\ run (releaseHold (ui alice_cancels_bobs_hold) 27000)
         (ui alice_cancels_bobs_hold) (db alice_cancels_bobs_hold) []
     = start (Some "alice") (ui alice_cancels_bobs_hold)
             (db alice_cancels_bobs_hold) [].
Proof. vm_compute. repeat split; reflexivity. Qed.

(** C6.  At [now = holdExpiresAt] the reclaimer's condition
    [hold_expires_at < now()] is false and the client's condition
    [expiresAt > new Date()] is false too: the reclaimer keeps the hold and
    the client drops it.  On Alice's hold with the deadline 21000, a refresh
    at 21000 leaves the seat HELD in the store and resets her state. *)
Theorem reclaimer_and_client_differ_at_deadline :
  (forall e : Timestamp,
      expired_before e (Some e) = false /\ hold_still_valid e e = false)
  /\ seat_rows "s1" (release_expired_holds 21000 (db alice_holds))
     = [alices_row]
  /\ seat_rows "s1" (db alice_resumes_at_deadline) = [alices_row]
  /\ bookingState alice_saved =
       {| bookingId := Some "T1"; seatId := Some "s1";
          customerName := "Alice"; bstatus := ST_HELD;
          holdExpiresAt := Some 21000 |}
  /\ bookingState (ui alice_resumes_at_deadline) = idle.
Proof.
  split.
  - intro e. unfold expired_before, hold_still_valid.
    rewrite Z.gtb_ltb, Z.ltb_irrefl. split; reflexivity.
  - vm_compute. repeat split; reflexivity.
Qed.

(** C7.  Alice and Carol both have A1 AVAILABLE in their lists, as it is
    in the store, and both press "Hold Seat" at 1000.  Carol's call is
    served between Alice's refresh and Alice's seat update: that update,
    keyed on [status = 'AVAILABLE'], then matches no row, and nothing reads
    how many rows it matched.  Alice's call goes on: it inserts her
    transaction T1 in HELD status, sets her state to HELD under T1 and ends
    in "Seat Held", while the seat is HELD under Carol's token T3, in
    Carol's name. *)
Theorem holdSeat_reports_a_hold_it_lost :
  seat_rows "s1" (db alice_loaded) = [fresh_seat "s1" "A1"]
  /\ option_map status
       (find (fun s => (id s =? "s1")%string) (seats alice_picked))
     = Some AVAILABLE
  /\ seat_rows "s1" (carol_served (db alice_loaded))
     = [ {| id := "s1"; show_id := "show1"; seat_id := "A1";
            status := HELD; hold_expires_at := Some 21000;
            booked_by := None; booked_at := None;
            hold_id := Some "T3"; held_by := Some "Carol" |} ]
  /\ toasts alice_holds_after_carol = [T_SeatHeld]
  /\ bookingState (ui alice_holds_after_carol)
     = {| bookingId := Some "T1"; seatId := Some "s1";
          customerName := "Alice"; bstatus := ST_HELD;
          holdExpiresAt := Some 21000 |}
  /\ seat_rows "s1" (db alice_holds_after_carol)
     = [ {| id := "s1"; show_id := "show1"; seat_id := "A1";
            status := HELD; hold_expires_at := Some 21000;
            booked_by := None; booked_at := None;
            hold_id := Some "T3"; held_by := Some "Carol" |} ]
  /\ bookings_tbl (db alice_holds_after_carol)
     = [ {| bk_id := "T3"; bk_seat_id := "s1"; bk_user_id := Some "carol";
            bk_customer_name := "Carol"; bk_status := BK_HELD;
            bk_hold_expires_at := Some 21000; bk_confirmed_at := None |};
         {| bk_id := "T1"; bk_seat_id := "s1"; bk_user_id := Some "alice";
            bk_customer_name := "Alice"; bk_status := BK_HELD;
            bk_hold_expires_at := Some 21000; bk_confirmed_at := None |} ].
Proof. vm_compute. repeat split; reflexivity. Qed.

(** C8.  Alice's page is reloaded with her hold of A1 under T1 saved.  When
    the store has the seat AVAILABLE again (reclaimed), or BOOKED by Bob,
    the refresh keeps her HELD state as it was saved; when Bob holds the
    seat under T2, it keeps her HELD state under T1 and takes Bob's
    deadline. *)
Theorem resume_keeps_hold_of_lost_seat :
  bookingState alice_saved =
    {| bookingId := Some "T1"; seatId := Some "s1";
       customerName := "Alice"; bstatus := ST_HELD;
       holdExpiresAt := Some 21000 |}
  /\ seat_rows "s1" (db alice_resumes_reclaimed) = [fresh_seat "s1" "A1"]
  /\ bookingState (ui alice_resumes_reclaimed) = bookingState alice_saved
  /\ map status (seat_rows "s1" (db alice_resumes_booked)) = [BOOKED]
  /\ bookingState (ui alice_resumes_booked) = bookingState alice_saved
  /\ seat_rows "s1" (db alice_resumes_held_by_bob) = [bobs_row]
  /\ bookingState (ui alice_resumes_held_by_bob) =
       {| bookingId := Some "T1"; seatId := Some "s1";
          customerName := "Alice"; bstatus := ST_HELD;
          holdExpiresAt := Some 46000 |}.
Proof. vm_compute. repeat split; reflexivity. Qed.

(** C9, counterexample.  The query of [fetchSeats] on the show with A1, A2
    and A10 returns A10 before A2. *)
Lemma select_seats_is_lexical :
  map seat_id (select_seats "show1" store0) = ["A1"; "A10"; "A2"].
Proof. vm_compute. reflexivity. Qed.

(** C9, amended.  The query of [fetchSeats] returns exactly the seats of
    the show, each as often as the store has it, in the text order of
    their labels, in which A10 comes before A2.  The numeric order is made
    by [SeatGrid]: its [sortedSeats] is a permutation of the list it is
    given and, when [parseInt] finds a number in every label once the
    first [A] is removed, every seat in it comes before the seats with a
    larger number. *)
Theorem seat_grid_sorts_by_number (show : string) (d : Db) (l : list Seat) :
  Forall (fun s => numbered s = true) l ->
  Permutation (select_seats show d)
              (filter (fun s => (show_id s =? show)%string) (seats_tbl d))
  /\ Sorted label_le (select_seats show d)
  /\ Permutation (sortedSeats l) l
  /\ StronglySorted num_le (sortedSeats l).
Proof.
  intro Hall. split; [|split; [|split]].
  - unfold select_seats. symmetry. apply order_by_seat_id_perm.
  - unfold select_seats. apply order_by_seat_id_sorted.
  - apply sortedSeats_perm.
  - apply sortedSeats_sorted. eapply Forall_impl; [|exact Hall].
    intros s Hs Hnone. unfold numbered in Hs. rewrite Hnone in Hs.
    discriminate Hs.
Qed.

Lemma seat_grid_sorts_by_number_witness :
  Forall (fun s => numbered s = true) (select_seats "show1" store0)
  /\ map seat_id (select_seats "show1" store0) = ["A1"; "A10"; "A2"]
  /\ Permutation (select_seats "show1" store0)
                 (filter (fun s => (show_id s =? "show1")%string)
                         (seats_tbl store0))
  /\ map seat_id (sortedSeats (select_seats "show1" store0))
     = ["A1"; "A2"; "A10"]
  /\ StronglySorted num_le (sortedSeats (select_seats "show1" store0)).
Proof.
  assert (Hall : Forall (fun s => numbered s = true)
                   (select_seats "show1" store0)).
  { repeat (constructor; [vm_compute; reflexivity|]). constructor. }
  destruct (seat_grid_sorts_by_number "show1" store0
              (select_seats "show1" store0) Hall) as (Hperm & _ & _ & Hsorted).
  split; [exact Hall|]. split; [vm_compute; reflexivity|].
  split; [exact Hperm|].
  split; [vm_compute; reflexivity|]. exact Hsorted.
Defined.

(** C10, counterexample.  Bob holds A1 under T2 with the deadline 46000.
    Alice's [confirmPayment] under T1 at 50000 does not book the seat, and
    the row is not left as it was: the refresh that closes the call runs
    the reclaimer, which returns Bob's hold to AVAILABLE. *)
Lemma confirm_call_frees_expired_hold_of_other_token :
  bookingId (bookingState (ui alice_holds)) = Some "T1"
  /\ seat_rows "s1" (db bob_holds) = [bobs_row]
  /\ hold_id bobs_row = Some "T2"
  /\ hold_expires_at bobs_row = Some 46000
  /\ seat_rows "s1" (db alice_confirms_over_bob) = [fresh_seat "s1" "A1"]
  /\ status (fresh_seat "s1" "A1") = AVAILABLE
  /\ seat_rows "s1" (db alice_confirms_over_bob)
     <> seat_rows "s1" (db bob_holds).
Proof.
  vm_compute. repeat split; try reflexivity. intro H. discriminate H.
Qed.

(** C10, amended.  The seat update of [confirmPayment] is keyed on
    [hold_id = bookingId]: a seat row whose [hold_id] is not the caller's
    token is left exactly as it is by that update, whoever the caller and
    whatever the seat id, so that the call never books it.  When nobody
    else's request is served during the call, the row is as it was after
    the whole call too, unless it is HELD with a deadline before the
    server's clock at the reclaimer of the closing refresh (the third
    request): then it is AVAILABLE with its hold fields cleared. *)
Theorem confirm_update_leaves_seat_of_other_token
    (c : Client) (sess : option string) (d : Db) (fs : list bool)
    (sv : list Timestamp) (now : Timestamp) (bid : string) (i : nat)
    (r : Seat) :
  bookingId (bookingState c) = Some bid ->
  nth_error (seats_tbl d) i = Some r ->
  hold_id r <> Some bid ->
  (forall auth sid name,
      nth_error (seats_tbl (confirm_seat_update auth sid bid name now d)) i
      = Some r)
  /\ (let w := exec (confirmPayment c now) (start_among sess c d fs [] sv) in
      nth_error (seats_tbl (db w)) i = Some r
      \/ (status r = HELD
          /\ (exists e, hold_expires_at r = Some e /\ e < nth 2 sv now)
          /\ nth_error (seats_tbl (db w)) i
             = Some {| id := id r; show_id := show_id r;
                       seat_id := seat_id r; status := AVAILABLE;
                       hold_expires_at := None;
                       booked_by := booked_by r; booked_at := booked_at r;
                       hold_id := None; held_by := None |})).
Proof.
  intros Hbid Hr Hne.
  assert (Hupd : forall auth sid name d0,
             nth_error (seats_tbl d0) i = Some r ->
             nth_error
               (seats_tbl (confirm_seat_update auth sid bid name now d0)) i
             = Some r).
  { intros auth sid name d0 Hd0. unfold confirm_seat_update, update_seats.
    destruct auth; [|exact Hd0]. simpl.
    rewrite (nth_error_sql_update _ _ _ _ _ Hd0).
    rewrite confirm_filter_other_token by exact Hne.
    reflexivity. }
  split; [intros; apply Hupd; exact Hr|].
  cbv zeta. unfold confirmPayment, start_among. rewrite Hbid.
  destruct (user c) as [uid|]; [|left; exact Hr].
  destruct (seatId (bookingState c)) as [sid|]; [|left; exact Hr].
  destruct (truthy (Some bid) && truthy (Some sid)); [|left; exact Hr].
  run_steps. destruct (hd false fs); run_steps; [left; exact Hr|].
  destruct (hd false (tl fs)); run_steps;
    [left; apply Hupd; exact Hr|].
  match goal with
  | |- context [exec (fetchSeats c now) ?w] =>
      destruct (fetchSeats_undisturbed c now w eq_refl) as (_ & _ & _ & Hd)
  end.
  cbn [db clock] in Hd.
  assert (H2 : nth_error
                 (seats_tbl
                    (update_bookings sess
                       (fun b => (bk_id b =? bid)%string)
                       (confirm_booking_row now)
                       (confirm_seat_update sess sid bid
                          (customerName (bookingState c)) now d))) i
               = Some r).
  { cbn [update_bookings seats_tbl]. apply Hupd. exact Hr. }
  destruct Hd as [-> | ->]; [left; exact H2|].
  rewrite (nth_error_release_expired_holds _ _ _ _ H2).
  rewrite <- nth2_hd_tl. unfold seat_hold_expired.
  destruct (status r) eqn:Est; cbn [SeatStatus_eqb andb];
    try (left; reflexivity).
  destruct (hold_expires_at r) as [e|] eqn:Ee; cbn [expired_before];
    [|left; reflexivity].
  destruct (Z.ltb_spec e (nth 2 sv now)); [|left; reflexivity].
  right. split; [reflexivity|]. split; [exists e; split; [reflexivity|lia]|].
  reflexivity.
Qed.

Lemma confirm_update_leaves_seat_of_other_token_witness :
  bookingId (bookingState (ui alice_holds)) = Some "T1"
  /\ nth_error (seats_tbl (db bob_holds)) 0 = Some bobs_row
  /\ hold_id bobs_row <> Some "T1"
  /\ nth_error
       (seats_tbl (confirm_seat_update (Some "alice") "s1" "T1" "Alice" 27000
                     (db bob_holds))) 0
     = Some bobs_row
  /\ nth_error
       (seats_tbl
          (db (exec (confirmPayment (ui alice_holds) 27000)
                 (start_among (Some "alice") (ui alice_holds) (db bob_holds)
                    [] [] [27010; 27020; 27030; 27040])))) 0
     = Some bobs_row.
Proof.
  assert (Hb : bookingId (bookingState (ui alice_holds)) = Some "T1")
    by (vm_compute; reflexivity).
  assert (Hr : nth_error (seats_tbl (db bob_holds)) 0 = Some bobs_row)
    by (vm_compute; reflexivity).
  assert (Hne : hold_id bobs_row <> Some "T1")
    by (vm_compute; intro H; discriminate H).
  destruct (confirm_update_leaves_seat_of_other_token (ui alice_holds)
              (Some "alice") (db bob_holds) [] [27010; 27020; 27030; 27040]
              27000 "T1" 0 bobs_row Hb Hr Hne) as (Hupd & Hcall).
  split; [exact Hb|]. split; [exact Hr|]. split; [exact Hne|].
  split; [exact (Hupd (Some "alice") "s1" "Alice")|].
  destruct Hcall as [H | (_ & (e & He & Hlt) & _)]; [exact H|].
  exfalso. injection He as <-. vm_compute in Hlt. discriminate Hlt.
Defined.
(** ** Properties of the store that the handlers keep *)

Lemma keeps_ret {A} s P (a : A) : keeps s P (ret a).
Proof. intros w Hal Hs HP. repeat split; try assumption; apply Hal. Qed.

Lemma keeps_bind {A B} s P (m : M A) (k : A -> M B) :
  keeps s P m -> (forall a, keeps s P (k a)) -> keeps s P (bind m k).
Proof.
  intros Hm Hk w Hal Hs HP. unfold bind. specialize (Hm w Hal Hs HP).
  destruct (m w) as [a w1]. cbn [snd] in Hm. destruct Hm as (Hal1 & Hs1 & HP1).
  exact (Hk a w1 Hal1 Hs1 HP1).
Qed.

(** The server's clock is the browser's where the handler is alone. *)
Lemma keeps_server_now {B} s P now (k : Timestamp -> M B) :
  keeps s P (k now) -> keeps s P (bind (server_now now) k).
Proof.
  intros Hk w Hal Hs HP. unfold bind, server_now.
  rewrite (proj2 Hal). exact (Hk w Hal Hs HP).
Qed.

Lemma keeps_toast s P t : keeps s P (toast t).
Proof. intros w Hal Hs HP. repeat split; try assumption; apply Hal. Qed.

Lemma keeps_set_ui s P f : keeps s P (set_ui f).
Proof. intros w Hal Hs HP. repeat split; try assumption; apply Hal. Qed.

Lemma keeps_request {A} s (P : Db -> Prop)
    (op : option string -> Db -> Result A * Db) :
  (forall d, P d -> P (snd (op s d))) -> keeps s P (request op).
Proof.
  intros Hop w Hal Hs HP. unfold request. rewrite (found_alone w Hal).
  destruct Hal as [Ho Hc]. destruct (hd false (faults w)).
  - cbn [snd db session]. unfold alone. cbn [others clock].
    rewrite Ho, Hc. repeat split; assumption.
  - specialize (Hop (db w) HP). rewrite Hs.
    destruct (op s (db w)) as [r d']. cbn [snd db session] in *.
    unfold alone. cbn [others clock]. rewrite Ho, Hc.
    repeat split; assumption.
Qed.

(** The structure of a handler, taken apart down to its requests. *)
Ltac keeps_step :=
  match goal with
  | |- keeps _ _ (bind (server_now _) _) => apply keeps_server_now
  | |- keeps _ _ (bind _ _) => apply keeps_bind; [|intro]
  | |- keeps _ _ (ret _) => apply keeps_ret
  | |- keeps _ _ (toast _) => apply keeps_toast
  | |- keeps _ _ (set_ui _) => apply keeps_set_ui
  | |- keeps _ _ (setSeats _) => apply keeps_set_ui
  | |- keeps _ _ (setSelectedSeat _) => apply keeps_set_ui
  | |- keeps _ _ (setBookingState _) => apply keeps_set_ui
  | |- keeps _ _ (setLoading _) => apply keeps_set_ui
  | |- keeps _ _ (request _) => apply keeps_request; intros ? ?; cbn [snd]
  | |- keeps _ _ (match ?x with _ => _ end) => destruct x
  | |- keeps _ _ (let _ := _ in _) => cbv zeta
  end.

Lemma keeps_restore_booking s P c now data :
  keeps s P (restore_booking c now data).
Proof. unfold restore_booking. repeat keeps_step. Qed.

Lemma keeps_fetchSeats s P c now :
  (forall d, P d -> P (release_expired_holds now d)) ->
  keeps s P (fetchSeats c now).
Proof.
  intro Hrec. unfold fetchSeats.
  repeat (keeps_step || apply keeps_restore_booking); auto.
Qed.

Lemma keeps_holdSeat s P c name now uuid :
  (forall d, P d -> P (release_expired_holds now d)) ->
  (forall sel d, P d ->
     P (update_seats s (hold_filter sel)
          (hold_seat_row (now + HOLD_DURATION_SECONDS * 1000) uuid
                         (trim name)) d)) ->
  (forall b d, bk_id b = uuid -> bk_status b = BK_HELD ->
               P d -> P (snd (insert_booking s b d))) ->
  keeps s P (holdSeat c name now uuid).
Proof.
  intros Hrec Hupd Hins. unfold holdSeat.
  repeat (keeps_step || apply (keeps_fetchSeats _ _ _ _ Hrec)); auto.
Qed.

Lemma keeps_confirmPayment s P c now :
  (forall d, P d -> P (release_expired_holds now d)) ->
  (forall sid bid d, bookingId (bookingState c) = Some bid -> P d ->
     P (confirm_seat_update s sid bid (customerName (bookingState c)) now d)) ->
  (forall bid d, P d ->
     P (update_bookings s (fun b => (bk_id b =? bid)%string)
          (confirm_booking_row now) d)) ->
  keeps s P (confirmPayment c now).
Proof.
  intros Hrec Hseat Hbk. unfold confirmPayment.
  destruct (user c); [|apply keeps_toast].
  destruct (bookingId (bookingState c)) as [bid|] eqn:E; [|apply keeps_toast].
  repeat (keeps_step || apply (keeps_fetchSeats _ _ _ _ Hrec)); auto.
Qed.

Lemma keeps_releaseHold s P c now :
  (forall d, P d -> P (release_expired_holds now d)) ->
  (forall sid d, P d -> P (update_seats s (release_filter sid) clear_hold d)) ->
  (forall bid d, P d ->
     P (update_bookings s (fun b => (bk_id b =? bid)%string)
          (set_bk_status BK_CANCELLED) d)) ->
  keeps s P (releaseHold c now).
Proof.
  intros Hrec Hseat Hbk. unfold releaseHold.
  repeat (keeps_step || apply (keeps_fetchSeats _ _ _ _ Hrec)); auto.
Qed.

Lemma keeps_handler s P a c now :
  (forall d, P d -> P (release_expired_holds now d)) ->
  (forall sel e tok name d, P d ->
     P (update_seats s (hold_filter sel) (hold_seat_row e tok name) d)) ->
  (forall b d, P d -> P (snd (insert_booking s b d))) ->
  (forall sid bid name d,
     P d -> P (confirm_seat_update s sid bid name now d)) ->
  (forall bid d, P d ->
     P (update_bookings s (fun b => (bk_id b =? bid)%string)
          (confirm_booking_row now) d)) ->
  (forall sid d, P d -> P (update_seats s (release_filter sid) clear_hold d)) ->
  (forall bid d, P d ->
     P (update_bookings s (fun b => (bk_id b =? bid)%string)
          (set_bk_status BK_CANCELLED) d)) ->
  keeps s P (handler a c now).
Proof.
  intros Hrec Hhold Hins Hconf Hconfb Hrel Hrelb.
  destruct a; cbn [handler].
  - apply keeps_fetchSeats; assumption.
  - apply keeps_holdSeat; auto.
  - apply keeps_confirmPayment; auto.
  - apply keeps_releaseHold; assumption.
  - unfold timer_tick. repeat keeps_step.
    apply keeps_releaseHold; assumption.
Qed.

(** From one call to any sequence of calls. *)
Lemma run_calls_keeps (P : Db -> Prop) (ok : Call -> Prop) :
  (forall k, ok k ->
     keeps (caller k) P (handler (action k) (snapshot k) (instant k))) ->
  forall ks d, Forall ok ks -> P d -> P (run_calls ks d).
Proof.
  intros Hk ks. induction ks as [|k ks IH]; intros d Hall HP; [exact HP|].
  inversion Hall as [|? ? Hok Hrest]; subst. cbn [run_calls fold_left].
  apply IH; [exact Hrest|].
  unfold call, exec.
  apply (Hk k Hok); [split; reflexivity | reflexivity | exact HP].
Qed.

(** X1.  Whatever the calls, by whatever clients and with whatever faults:
    the seats of the store stay the same seats.  None is created or
    deleted, none changes its id, its show or its label, and their order is
    kept. *)
Theorem seats_stay_the_same_seats (ks : list Call) (d : Db) :
  map seat_key (seats_tbl (run_calls ks d)) = map seat_key (seats_tbl d).
Proof.
  apply (run_calls_keeps
           (fun d' => map seat_key (seats_tbl d') = map seat_key (seats_tbl d))
           (fun _ => True)); [|apply Forall_forall; trivial|reflexivity].
  intros k _.
  assert (Hupd : forall s p f d',
             (forall r, seat_key (f r) = seat_key r) ->
             map seat_key (seats_tbl d') = map seat_key (seats_tbl d) ->
             map seat_key (seats_tbl (update_seats s p f d'))
             = map seat_key (seats_tbl d)).
  { intros s p f d' Hf H. unfold update_seats. destruct s; [|exact H].
    cbn [seats_tbl]. rewrite map_sql_update_key; assumption. }
  apply keeps_handler.
  - intros d' H. cbn [release_expired_holds seats_tbl].
    rewrite map_sql_update_key; [exact H | reflexivity].
  - intros. apply Hupd; [reflexivity | assumption].
  - intros b d' H. unfold insert_booking.
    repeat match goal with |- context [if ?x then _ else _] => destruct x end;
      exact H.
  - intros. apply Hupd; [reflexivity | assumption].
  - intros; assumption.
  - intros. apply Hupd; [reflexivity | assumption].
  - intros; assumption.
Qed.

(** X2.  Whatever the calls: the transactions are only added to.  Every
    transaction of the store is still there, at its place, with its id, its
    seat, its user, its customer name and its deadline; the new ones come
    after. *)
Theorem bookings_are_only_added (ks : list Call) (d : Db) :
  exists added,
    map booking_key (bookings_tbl (run_calls ks d))
    = map booking_key (bookings_tbl d) ++ added.
Proof.
  apply (run_calls_keeps
           (fun d' => exists added,
                map booking_key (bookings_tbl d')
                = map booking_key (bookings_tbl d) ++ added)
           (fun _ => True));
    [|apply Forall_forall; trivial|exists []; symmetry; apply app_nil_r].
  intros k _.
  assert (Hseat : forall s p f d',
             (exists added, map booking_key (bookings_tbl d')
                            = map booking_key (bookings_tbl d) ++ added) ->
             exists added,
               map booking_key (bookings_tbl (update_seats s p f d'))
               = map booking_key (bookings_tbl d) ++ added).
  { intros s p f d' H. unfold update_seats. destruct s; exact H. }
  assert (Hbk : forall s p f d',
             (forall b, booking_key (f b) = booking_key b) ->
             (exists added, map booking_key (bookings_tbl d')
                            = map booking_key (bookings_tbl d) ++ added) ->
             exists added,
               map booking_key (bookings_tbl (update_bookings s p f d'))
               = map booking_key (bookings_tbl d) ++ added).
  { intros s p f d' Hf [added H]. exists added.
    cbn [update_bookings bookings_tbl].
    rewrite map_sql_update_key; assumption. }
  apply keeps_handler.
  - intros d' [added H]. exists added.
    cbn [release_expired_holds bookings_tbl].
    rewrite map_sql_update_key; [exact H | reflexivity].
  - intros. apply Hseat. assumption.
  - intros b d' [added H]. unfold insert_booking.
    repeat match goal with |- context [if ?x then _ else _] => destruct x end;
      cbn [snd]; try (exists added; exact H).
    exists (added ++ [booking_key b]). cbn [bookings_tbl].
    rewrite map_app, H, app_assoc. reflexivity.
  - intros. unfold confirm_seat_update. apply Hseat. assumption.
  - intros. apply Hbk; [reflexivity | assumption].
  - intros. apply Hseat. assumption.
  - intros. apply Hbk; [reflexivity | assumption].
Qed.

Lemma forallb_update_seats (ok : Seat -> bool) s p f d :
  (forall r, ok r = true -> p r = true -> ok (f r) = true) ->
  forallb ok (seats_tbl d) = true ->
  forallb ok (seats_tbl (update_seats s p f d)) = true.
Proof.
  intros Hf H. unfold update_seats. destruct s; [|exact H].
  cbn [seats_tbl]. apply forallb_sql_update; assumption.
Qed.

Lemma insert_booking_seats s b d :
  seats_tbl (snd (insert_booking s b d)) = seats_tbl d.
Proof.
  unfold insert_booking.
  repeat match goal with |- context [if ?x then _ else _] => destruct x end;
    reflexivity.
Qed.

(** X3.  Whatever the calls, releases included: a seat is HELD exactly
    when its hold fields are set, in the sense that a HELD seat has its
    deadline, its token and its holder, an AVAILABLE or BOOKED seat has
    none of them, and a BOOKED seat has its booking fields. *)
Theorem hold_fields_follow_the_status (ks : list Call) (d : Db) :
  forallb hold_shape_ok (seats_tbl d) = true ->
  forallb hold_shape_ok (seats_tbl (run_calls ks d)) = true.
Proof.
  intro H0.
  apply (run_calls_keeps
           (fun d' => forallb hold_shape_ok (seats_tbl d') = true)
           (fun _ => True)); [|apply Forall_forall; trivial|exact H0].
  intros k _. apply keeps_handler.
  - intros d' H. cbn [release_expired_holds seats_tbl].
    apply forallb_sql_update; [|exact H]. intros r _ _. reflexivity.
  - intros sel e tok name d' H. apply forallb_update_seats; [|exact H].
    intros r _ _. reflexivity.
  - intros b d' H. rewrite insert_booking_seats. exact H.
  - intros sid bid name d' H. unfold confirm_seat_update.
    apply forallb_update_seats; [|exact H]. intros r _ _. reflexivity.
  - intros; assumption.
  - intros sid d' H. apply forallb_update_seats; [|exact H].
    intros r _ _. reflexivity.
  - intros; assumption.
Qed.

(** X4.  Whatever the refreshes, holds and confirmations, by whatever
    clients and with whatever faults: every seat keeps one of the three
    shapes (nothing set; hold fields set, booking fields unset; booking
    fields set, hold fields unset). *)
Theorem shapes_kept_without_release (ks : list Call) (d : Db) :
  Forall (fun k => no_release k = true) ks ->
  forallb seat_shape_ok (seats_tbl d) = true ->
  forallb seat_shape_ok (seats_tbl (run_calls ks d)) = true.
Proof.
  intros Hks H0.
  apply (run_calls_keeps
           (fun d' => forallb seat_shape_ok (seats_tbl d') = true)
           (fun k => no_release k = true)); [|exact Hks|exact H0].
  intros k Hk. unfold no_release in Hk.
  assert (Hrec : forall now d',
             forallb seat_shape_ok (seats_tbl d') = true ->
             forallb seat_shape_ok
               (seats_tbl (release_expired_holds now d')) = true).
  { intros now d' H. cbn [release_expired_holds seats_tbl].
    apply forallb_sql_update; [|exact H]. intros r Hr Hp.
    apply clear_hold_shape_of_held; [|exact Hr].
    unfold seat_hold_expired in Hp. apply andb_prop in Hp.
    destruct Hp as [Hp _]. destruct (status r); try discriminate Hp.
    reflexivity. }
  destruct (action k) as [|name uuid| | |]; try discriminate Hk;
    cbn [handler].
  - apply keeps_fetchSeats. apply Hrec.
  - apply keeps_holdSeat; [apply Hrec| |].
    + intros sel d' H. apply forallb_update_seats; [|exact H].
      intros r Hr Hp. apply hold_seat_row_shape; [|exact Hr].
      unfold hold_filter in Hp. apply andb_prop in Hp. destruct Hp as [_ Hp].
      destruct (status r); try discriminate Hp. reflexivity.
    + intros b d' _ _ H. rewrite insert_booking_seats. exact H.
  - apply keeps_confirmPayment; [apply Hrec| |].
    + intros sid bid d' _ H. unfold confirm_seat_update.
      apply forallb_update_seats; [|exact H]. intros r _ _.
      apply book_seat_row_shape.
    + intros; assumption.
Qed.

(** X5.  A BOOKED seat whose [hold_id] is NULL, as a confirmation leaves
    it, is frozen under refreshes, holds and confirmations, by whatever
    clients and with whatever faults: its row stays exactly as it is. *)
Theorem booked_seat_is_frozen (ks : list Call) (d : Db) (i : nat) (r : Seat) :
  Forall (fun k => no_release k = true) ks ->
  nth_error (seats_tbl d) i = Some r ->
  status r = BOOKED -> hold_id r = None ->
  nth_error (seats_tbl (run_calls ks d)) i = Some r.
Proof.
  intros Hks Hr Hst Hh.
  apply (run_calls_keeps
           (fun d' => nth_error (seats_tbl d') i = Some r)
           (fun k => no_release k = true)); [|exact Hks|exact Hr].
  intros k Hk. unfold no_release in Hk.
  assert (Hrec : forall now d',
             nth_error (seats_tbl d') i = Some r ->
             nth_error (seats_tbl (release_expired_holds now d')) i = Some r).
  { intros now d' H. rewrite (nth_error_release_expired_holds now _ _ _ H).
    unfold seat_hold_expired. rewrite Hst. reflexivity. }
  assert (Hupd : forall s p f d',
             p r = false ->
             nth_error (seats_tbl d') i = Some r ->
             nth_error (seats_tbl (update_seats s p f d')) i = Some r).
  { intros s p f d' Hp H. unfold update_seats. destruct s; [|exact H].
    cbn [seats_tbl]. rewrite (nth_error_sql_update _ _ _ _ _ H), Hp.
    reflexivity. }
  destruct (action k) as [|name uuid| | |]; try discriminate Hk;
    cbn [handler].
  - apply keeps_fetchSeats. apply Hrec.
  - apply keeps_holdSeat; [apply Hrec| |].
    + intros sel d' H. apply Hupd; [|exact H].
      apply hold_filter_not_available. rewrite Hst. discriminate.
    + intros b d' _ _ H. rewrite insert_booking_seats. exact H.
  - apply keeps_confirmPayment; [apply Hrec| |].
    + intros sid bid d' _ H. unfold confirm_seat_update.
      apply Hupd; [|exact H]. apply confirm_filter_other_token.
      rewrite Hh. discriminate.
    + intros; assumption.
Qed.



(** ** The reclaimer *)

Lemma expired_before_mono (t1 t2 : Timestamp) (x : option Timestamp) :
  t1 <= t2 -> expired_before t1 x = true -> expired_before t2 x = true.
Proof.
  intros Hle. unfold expired_before. destruct x as [e|]; [|trivial].
  intro H. apply Z.ltb_lt in H. apply Z.ltb_lt. lia.
Qed.

Lemma sql_update_twice {R} (p1 p2 : R -> bool) (f : R -> R) (l : list R) :
  (forall r, p1 r = true -> p2 r = true) ->
  (forall r, p2 (f r) = false) ->
  sql_update p2 f (sql_update p1 f l) = sql_update p2 f l.
Proof.
  intros Hmono Hdone. unfold sql_update. rewrite map_map. apply map_ext.
  intro r. destruct (p1 r) eqn:E1.
  - rewrite (Hmono r E1), Hdone. reflexivity.
  - reflexivity.
Qed.

(** X8.  Two sweeps of the reclaimer, the second no earlier than the first,
    leave the store as the second alone does.  In particular a sweep run
    twice at one instant changes nothing the second time. *)
Theorem release_expired_holds_twice (t1 t2 : Timestamp) (d : Db) :
  t1 <= t2 ->
  release_expired_holds t2 (release_expired_holds t1 d)
  = release_expired_holds t2 d.
Proof.
  intro Hle. unfold release_expired_holds. cbn [seats_tbl bookings_tbl].
  f_equal.
  - apply sql_update_twice.
    + intros r H. unfold seat_hold_expired in *. apply andb_prop in H.
      destruct H as [Hs He]. rewrite Hs.
      rewrite (expired_before_mono t1 t2 _ Hle He). reflexivity.
    + intro r. reflexivity.
  - apply sql_update_twice.
    + intros b H. unfold booking_hold_expired in *. apply andb_prop in H.
      destruct H as [Hs He]. rewrite Hs.
      rewrite (expired_before_mono t1 t2 _ Hle He). reflexivity.
    + intro b. reflexivity.
Qed.

(** X9.  After a sweep of the reclaimer at [now] no seat is HELD with a
    deadline before [now] and no transaction is HELD with a deadline before
    [now], whatever the store was. *)
Theorem release_expired_holds_sweeps (now : Timestamp) (d : Db) :
  Forall (fun s => seat_hold_expired now s = false)
         (seats_tbl (release_expired_holds now d))
  /\ Forall (fun b => booking_hold_expired now b = false)
            (bookings_tbl (release_expired_holds now d)).
Proof.
  split.
  - cbn [release_expired_holds seats_tbl]. apply Forall_sql_update.
    + intros r _. reflexivity.
    + intros r H. exact H.
  - cbn [release_expired_holds bookings_tbl]. apply Forall_sql_update.
    + intros b _. reflexivity.
    + intros b H. exact H.
Qed.

(** X10.  The policies on the writes at work: a call made without a session
    writes nothing.  Whatever the handler, its snapshot and the faults, the
    store after the call is the store before it, or that store swept by the
    reclaimer, which alone runs with the rights of its owner. *)
Theorem anonymous_calls_write_nothing (a : Action) (c : Client)
    (now : Timestamp) (d : Db) (fs : list bool) :
  db (exec (handler a c now) (start None c d fs)) = d
  \/ db (exec (handler a c now) (start None c d fs))
     = release_expired_holds now d.
Proof.
  assert (H : keeps None
                (fun d' => d' = d \/ d' = release_expired_holds now d)
                (handler a c now)).
  { assert (Hbk : forall p f d',
               update_bookings None p f d' = d').
    { intros p f d'. destruct d' as [ss bs]. unfold update_bookings.
      cbn [seats_tbl bookings_tbl]. f_equal. unfold sql_update.
      rewrite <- (map_id bs) at 2. apply map_ext. intro b. reflexivity. }
    apply keeps_handler.
    - intros d' [->| ->]; [right; reflexivity|].
      right. apply release_expired_holds_twice. lia.
    - intros sel e tok name d' H. exact H.
    - intros b d' H. exact H.
    - intros sid bid name d' H. exact H.
    - intros bid d' H. rewrite Hbk. exact H.
    - intros sid d' H. exact H.
    - intros bid d' H. rewrite Hbk. exact H. }
  unfold exec.
  apply H; [split; reflexivity | reflexivity | left; reflexivity].
Qed.

(** ** The guards of [holdSeat] *)

(** X11.  [holdSeat] called without a user, a selected seat or a show, or
    with a name that is empty or made of white space only, makes no request
    at all: the store, the client's state and the schedule of faults are
    left as they are, and the one toast shown is an error. *)
Theorem holdSeat_refuses_without_request (c : Client) (name uuid : string)
    (now : Timestamp) (w : World) :
  user c = None \/ selectedSeat c = None \/ currentShow c = None
  \/ all_space name = true ->
  exists t,
    (t = T_SelectSeat \/ t = T_EnterName)
    /\ exec (holdSeat c name now uuid) w
       = {| db := db w; ui := ui w; session := session w;
            faults := faults w; others := others w; clock := clock w;
            toasts := toasts w ++ [t] |}.
Proof.
  intro H. unfold holdSeat.
  destruct (user c) as [uid|];
    [|exists T_SelectSeat; split; [left|]; reflexivity].
  destruct (selectedSeat c) as [sel|];
    [|exists T_SelectSeat; split; [left|]; reflexivity].
  destruct (currentShow c) as [show|];
    [|exists T_SelectSeat; split; [left|]; reflexivity].
  destruct H as [H|[H|[H|H]]]; try discriminate H.
  apply trim_blank in H. rewrite H. cbn [String.eqb].
  exists T_EnterName. split; [right|]; reflexivity.
Qed.

(** X12.  [holdSeat] on a seat that the client's list shows HELD or BOOKED,
    or does not show at all, ends in "Seat Unavailable" and writes nothing:
    when nobody else's request is served during the call, the store is as
    before the call, or as the reclaimer of the refresh left it at the
    server's clock; no seat is held and no transaction is inserted. *)
Theorem holdSeat_unavailable_in_list (c : Client) (sess : option string)
    (d : Db) (fs : list bool) (sv : list Timestamp) (name uuid : string)
    (now : Timestamp) (sel : Seat) :
  user c <> None -> selectedSeat c = Some sel -> currentShow c <> None ->
  all_space name = false ->
  option_map status (find (fun s => (id s =? id sel)%string) (seats c))
  <> Some AVAILABLE ->
  let w := exec (holdSeat c name now uuid) (start_among sess c d fs [] sv) in
  toasts w = [T_SeatUnavailable]
  /\ (db w = d \/ db w = release_expired_holds (hd now sv) d).
Proof.
  intros Hu Hsel Hshow Hname Hlist w. subst w. unfold holdSeat. rewrite Hsel.
  destruct (user c) as [uid|]; [|contradiction].
  destruct (currentShow c) as [show|] eqn:Eshow; [|contradiction].
  destruct (trim name =? EmptyString)%string eqn:E.
  { apply String.eqb_eq in E. apply trim_blank in E. congruence. }
  rewrite exec_bind.
  destruct (fetchSeats_undisturbed c now (start_among sess c d fs [] sv)
              eq_refl) as (Ht & _ & _ & Hd).
  set (w1 := exec (fetchSeats c now) (start_among sess c d fs [] sv)) in *.
  clearbody w1. cbn [start_among toasts db clock] in Ht, Hd.
  destruct (option_map status _) as [[| |]|];
    try (exfalso; apply Hlist; reflexivity);
    (split; [cbn; rewrite Ht; reflexivity | exact Hd]).
Qed.

(** ** When a hold goes through *)

(** X13.  When a hold goes through.  For a signed-in client with a seat
    selected and a show, with nobody else's request served during the call
    and whatever the server's clock, [holdSeat] ends in "Seat Held" exactly
    when the name is not blank, the client's own list has the seat
    AVAILABLE, the third and fourth requests (the update and the insert)
    meet no fault, the token is the id of no transaction and the seat
    exists in the store.  The status of the seat in the store is not among
    the conditions. *)
Theorem holdSeat_held_iff (c : Client) (d : Db) (fs : list bool)
    (sv : list Timestamp) (name uuid : string) (now : Timestamp)
    (uid show : string) (sel : Seat) :
  user c = Some uid -> selectedSeat c = Some sel ->
  currentShow c = Some show ->
  toasts (run_among (holdSeat c name now uuid) c d fs [] sv) = [T_SeatHeld]
  <-> (all_space name = false
       /\ option_map status
            (find (fun s => (id s =? id sel)%string) (seats c))
          = Some AVAILABLE
       /\ nth 2 fs false = false /\ nth 3 fs false = false
       /\ existsb (fun b => (bk_id b =? uuid)%string) (bookings_tbl d) = false
       /\ existsb (fun s => (id s =? id sel)%string) (seats_tbl d) = true).
Proof.
  intros Hu Hsel Hshow. unfold run_among, holdSeat. rewrite Hu, Hsel, Hshow.
  destruct (trim name =? EmptyString)%string eqn:E.
  { apply String.eqb_eq in E. apply trim_blank in E. rewrite E.
    split; [discriminate | intros (H & _); discriminate H]. }
  assert (Hname : all_space name = false).
  { destruct (all_space name) eqn:F; [|reflexivity].
    apply trim_blank in F. rewrite F in E. discriminate E. }
  rewrite Hname. rewrite exec_bind.
  destruct (fetchSeats_world c now (start_among (Some uid) c d fs [] sv) show
              Hshow) as (u1 & E1 & _ & _).
  rewrite E1. clear E1.
  rewrite (refreshed_undisturbed now (start_among (Some uid) c d fs [] sv)
             eq_refl).
  cbn [start_among db ui session faults others clock toasts tl].
  destruct (option_map status _) as [[| |]|];
    try (split; [discriminate | intros (_ & H & _); discriminate H]).
  run_steps. destruct (nth_hd_tl2 fs) as (N2 & N3). rewrite N2, N3.
  destruct (hd false (tl (tl fs))).
  { run_steps. split; [discriminate | intros (_ & _ & H & _); discriminate H]. }
  run_steps.
  destruct (hold_update_ids (Some uid) (hold_filter sel)
              (now + HOLD_DURATION_SECONDS * 1000) uuid (trim name)
              (hd now sv) (hd false fs) d) as (Is & Ib).
  cbn zeta in Is, Ib.
  set (d1 := update_seats _ _ _ _) in *. clearbody d1.
  destruct (hd false (tl (tl (tl fs)))).
  { run_steps.
    split; [discriminate | intros (_ & _ & _ & H & _); discriminate H]. }
  unfold insert_booking, owns. cbn [bk_user_id bk_id bk_seat_id].
  rewrite String.eqb_refl. cbn [negb].
  rewrite (existsb_map (fun x => (x =? uuid)%string) bk_id), Ib,
    <- (existsb_map (fun x => (x =? uuid)%string) bk_id).
  rewrite (existsb_map (fun x => (x =? id sel)%string) id), Is,
    <- (existsb_map (fun x => (x =? id sel)%string) id).
  destruct (existsb _ (bookings_tbl d)).
  { run_steps.
    split; [discriminate | intros (_ & _ & _ & _ & H & _); discriminate H]. }
  destruct (existsb _ (seats_tbl d)); cbn [negb].
  2:{ run_steps.
      split; [discriminate | intros (_ & _ & _ & _ & _ & H); discriminate H]. }
  run_steps.
  match goal with
  | |- context [exec (fetchSeats c now) ?w] =>
      destruct (fetchSeats_world c now w show Hshow) as (u2 & E2 & _);
      rewrite E2; clear E2
  end.
  run_steps. cbn [app]. split; [intros _; repeat split | reflexivity].
Qed.

(** ** What a refresh lists *)


(** ** The client's state after a refresh *)

(** X15.  A release made with a session, by a client whose state names a
    seat of the store (its id is then the text of a uuid, as the store
    wants it), whose first request goes through and during which nobody
    else's request is served: the toast is "Hold Released", the client is
    back in the idle state with the loading flag down, and no seat with the
    named id is left HELD or BOOKED in the store.  The status of the seat
    before the call plays no part, nor does the server's clock. *)
Theorem releaseHold_ends_idle (c : Client) (d : Db) (fs : list bool)
    (sv : list Timestamp) (now : Timestamp) (uid sid : string) :
  seatId (bookingState c) = Some sid -> sid <> EmptyString ->
  In sid (map id (seats_tbl d)) ->
  hd false fs = false ->
  let w := exec (releaseHold c now) (start_among (Some uid) c d fs [] sv) in
  toasts w = [T_HoldReleased]
  /\ bookingState (ui w) = idle /\ loading (ui w) = false
  /\ Forall (fun s => id s = sid -> status s = AVAILABLE) (seats_tbl (db w)).
Proof.
  intros Hs Hne _ Hf. exact (releaseHold_idle c d fs sv now uid sid Hs Hne Hf).
Qed.

(** ** A hold followed by its release or its confirmation *)



(** ** Confirmed transactions *)

Lemma keeps_releaseHold_named s P c now :
  (forall d, P d -> P (release_expired_holds now d)) ->
  (forall sid d, P d -> P (update_seats s (release_filter sid) clear_hold d)) ->
  (forall bid d, bookingId (bookingState c) = Some bid -> P d ->
     P (update_bookings s (fun b => (bk_id b =? bid)%string)
          (set_bk_status BK_CANCELLED) d)) ->
  keeps s P (releaseHold c now).
Proof.
  intros Hrec Hseat Hbk. unfold releaseHold.
  destruct (seatId (bookingState c)) as [sid|]; [|apply keeps_ret].
  destruct (bookingId (bookingState c)) as [bid|] eqn:E;
    repeat (keeps_step || apply (keeps_fetchSeats _ _ _ _ Hrec)); auto.
Qed.

(** X18.  A transaction that is CONFIRMED stays CONFIRMED, in its place and
    under its id, whatever the calls, the clients, the sessions and the
    faults, as long as no release and no countdown tick comes from a client
    whose state names its id. *)
Theorem confirmed_booking_stays_confirmed (ks : list Call) (d : Db) (j : nat)
    (b : Booking) :
  Forall (fun k => releases_other (bk_id b) k = true) ks ->
  nth_error (bookings_tbl d) j = Some b ->
  bk_status b = BK_CONFIRMED ->
  exists b', nth_error (bookings_tbl (run_calls ks d)) j = Some b'
             /\ bk_id b' = bk_id b /\ bk_status b' = BK_CONFIRMED
             /\ booking_key b' = booking_key b.
Proof.
  intros Hks Hb Hst.
  set (P := fun d' : Db =>
              exists b', nth_error (bookings_tbl d') j = Some b'
                         /\ bk_id b' = bk_id b /\ bk_status b' = BK_CONFIRMED
                         /\ booking_key b' = booking_key b).
  apply (run_calls_keeps P (fun k => releases_other (bk_id b) k = true));
    [|exact Hks|exists b; repeat split; assumption].
  intros k Hk.
  assert (Hseat : forall p f d', P d' -> P (update_seats (caller k) p f d')).
  { intros p f d' H. unfold update_seats. destruct (caller k); exact H. }
  assert (Hrec : forall d', P d' -> P (release_expired_holds (instant k) d')).
  { intros d' (b' & H & Hi & Hs & Hkey). exists b'.
    cbn [release_expired_holds bookings_tbl].
    rewrite (nth_error_sql_update _ _ _ _ _ H). unfold booking_hold_expired.
    rewrite Hs. cbn [BookingStatus_eqb andb]. repeat split; assumption. }
  assert (Hins : forall b0 d', P d' ->
                   P (snd (insert_booking (caller k) b0 d'))).
  { intros b0 d' (b' & H & Hrest). exists b'. split; [|exact Hrest].
    unfold insert_booking.
    repeat match goal with |- context [if ?x then _ else _] => destruct x end;
      cbn [snd bookings_tbl]; try exact H.
    rewrite nth_error_app1; [exact H|].
    apply nth_error_Some. rewrite H. discriminate. }
  assert (Hconf : forall bid d', P d' ->
            P (update_bookings (caller k)
                 (fun b => (bk_id b =? bid)%string)
                 (confirm_booking_row (instant k)) d')).
  { intros bid d' (b' & H & Hi & Hs & Hkey).
    unfold P. cbn [update_bookings bookings_tbl].
    rewrite (nth_error_sql_update _ _ _ _ _ H).
    destruct (owns (caller k) b' && (bk_id b' =? bid)%string);
      eexists; (split; [reflexivity|]); repeat split; assumption. }
  assert (Hrel : forall bid d', negb (bid =? bk_id b)%string = true ->
            P d' ->
            P (update_bookings (caller k)
                 (fun b => (bk_id b =? bid)%string)
                 (set_bk_status BK_CANCELLED) d')).
  { intros bid d' Hne (b' & H & Hi & Hs & Hkey). exists b'.
    cbn [update_bookings bookings_tbl].
    rewrite (nth_error_sql_update _ _ _ _ _ H), Hi.
    rewrite String.eqb_sym. apply negb_true_iff in Hne. rewrite Hne.
    rewrite andb_false_r. repeat split; assumption. }
  unfold releases_other in Hk.
  destruct (action k) eqn:Ea; cbn [handler].
  - apply keeps_fetchSeats; assumption.
  - apply keeps_holdSeat; auto.
  - apply keeps_confirmPayment; auto.
    intros. unfold confirm_seat_update. apply Hseat. assumption.
  - apply keeps_releaseHold_named; auto.
    intros bid d' E H. rewrite E in Hk. apply Hrel; assumption.
  - unfold timer_tick. repeat keeps_step.
    apply keeps_releaseHold_named; auto.
    intros bid d' E' H. rewrite E' in Hk. apply Hrel; assumption.
Qed.

(** ** The countdown *)

(** X19.  One tick of the countdown of a client in the HELD state with a
    deadline: the tick is the release when less than a second is left to
    the deadline, the deadline passed or not, and it does nothing at all
    otherwise. *)
Theorem countdown_threshold (c : Client) (now e : Timestamp) (w : World) :
  holdExpiresAt (bookingState c) = Some e ->
  bstatus (bookingState c) = ST_HELD ->
  exec (timer_tick c now) w
  = if e - now <? 1000 then exec (releaseHold c now) w else w.
Proof.
  intros He Hst. unfold timer_tick. rewrite He, Hst. cbn [UiStatus_eqb].
  unfold remaining_seconds.
  destruct (e - now <? 1000) eqn:E.
  - apply Z.ltb_lt in E.
    assert (H : (Z.max 0 ((e - now) / 1000) <=? 0) = true).
    { apply Z.leb_le.
      assert ((e - now) / 1000 <= 0); [|lia].
      assert ((e - now) / 1000 < 1); [|lia].
      apply Z.div_lt_upper_bound; lia. }
    rewrite H. reflexivity.
  - apply Z.ltb_ge in E.
    assert (H : (Z.max 0 ((e - now) / 1000) <=? 0) = false).
    { apply Z.leb_gt.
      assert (1 <= (e - now) / 1000); [|lia].
      apply Z.div_le_lower_bound; lia. }
    rewrite H. destruct w; reflexivity.
Qed.

(** ** The labels of [seedShow] read by [SeatGrid] *)

Lemma digit_char_spec (k : Z) :
  0 <= k < 10 -> is_digit (digit_char k) = true /\ digit_val (digit_char k) = k.
Proof.
  intro H.
  assert (C : k = 0 \/ k = 1 \/ k = 2 \/ k = 3 \/ k = 4 \/ k = 5 \/ k = 6
              \/ k = 7 \/ k = 8 \/ k = 9) by lia.
  repeat (destruct C as [-> | C]; [split; reflexivity|]).
  subst k. split; reflexivity.
Qed.

Lemma all_digits_app (s t : string) :
  all_digits (s ++ t) = all_digits s && all_digits t.
Proof.
  induction s as [|a s IH]; [reflexivity|]. cbn [append all_digits].
  rewrite IH. apply andb_assoc.
Qed.

Lemma read_digits_app (s : string) (a : ascii) (acc : option Z) :
  all_digits s = true -> is_digit a = true ->
  read_digits acc (s ++ String a EmptyString)
  = Some (10 * match read_digits acc s with Some v => v | None => 0 end
          + digit_val a).
Proof.
  revert acc. induction s as [|x s IH]; intros acc Hs Ha.
  - cbn [append read_digits]. rewrite Ha. reflexivity.
  - cbn [all_digits] in Hs. apply andb_true_iff in Hs. destruct Hs as (Hx & Hs).
    cbn [append read_digits]. rewrite Hx. apply IH; assumption.
Qed.

Lemma decimal_spec (fuel : nat) (n : Z) :
  0 <= n -> n < 10 ^ Z.of_nat fuel -> (0 < fuel)%nat ->
  all_digits (decimal fuel n) = true
  /\ decimal fuel n <> EmptyString
  /\ read_digits None (decimal fuel n) = Some n.
Proof.
  revert n. induction fuel as [|f IH]; intros n Hn Hlt Hf; [lia|].
  cbn [decimal]. destruct (n <? 10) eqn:E.
  - apply Z.ltb_lt in E. destruct (digit_char_spec n (conj Hn E)) as (D1 & D2).
    cbn [all_digits read_digits]. rewrite D1, D2.
    split; [reflexivity|]. split; [discriminate|]. f_equal; lia.
  - apply Z.ltb_ge in E.
    assert (Hq : 0 <= n / 10) by (apply Z.div_pos; lia).
    rewrite Nat2Z.inj_succ, Z.pow_succ_r in Hlt by lia.
    assert (Hq2 : n / 10 < 10 ^ Z.of_nat f)
      by (apply Z.div_lt_upper_bound; lia).
    assert (Hf2 : (0 < f)%nat).
    { destruct f; [|lia]. cbn in Hlt. lia. }
    destruct (IH (n / 10) Hq Hq2 Hf2) as (A1 & A2 & A3).
    assert (Hm : 0 <= n mod 10 < 10) by (apply Z.mod_pos_bound; lia).
    destruct (digit_char_spec _ Hm) as (D1 & D2).
    split; [|split].
    + rewrite all_digits_app, A1. cbn [all_digits]. rewrite D1. reflexivity.
    + destruct (decimal f (n / 10)); [contradiction | discriminate].
    + rewrite (read_digits_app _ _ _ A1 D1), A3, D2. f_equal.
      rewrite (Z.div_mod n 10) at 3 by lia. reflexivity.
Qed.

Lemma is_digit_cases (a : ascii) :
  is_digit a = true ->
  a = "0"%char \/ a = "1"%char \/ a = "2"%char \/ a = "3"%char
  \/ a = "4"%char \/ a = "5"%char \/ a = "6"%char \/ a = "7"%char
  \/ a = "8"%char \/ a = "9"%char.
Proof.
  destruct a as [[] [] [] [] [] [] [] []]; intro H;
    try (vm_compute in H; discriminate H); tauto.
Qed.

(** A digit opens no white space, of one byte or of more. *)
Lemma trim_start_digit (a : ascii) (r : string) :
  is_digit a = true -> trim_start (String a r) = String a r.
Proof.
  intro Ha. apply is_digit_cases in Ha.
  repeat (destruct Ha as [-> | Ha];
          [destruct r as [|b [|x r3]]; reflexivity|]).
  subst. destruct r as [|b [|x r3]]; reflexivity.
Qed.

Lemma parseInt_digits (s : string) :
  all_digits s = true -> s <> EmptyString ->
  parseInt s = read_digits None s.
Proof.
  intros Hs Hne. destruct s as [|a r]; [contradiction|].
  cbn [all_digits] in Hs. apply andb_true_iff in Hs. destruct Hs as (Ha & Hr).
  unfold parseInt. rewrite (trim_start_digit a r Ha).
  apply is_digit_cases in Ha.
  repeat (destruct Ha as [-> | Ha]; [try reflexivity|]); subst;
    try reflexivity.
  destruct r as [|b r']; [reflexivity|].
  cbn [all_digits] in Hr. apply andb_true_iff in Hr. destruct Hr as (Hb & _).
  apply is_digit_cases in Hb.
  repeat (destruct Hb as [-> | Hb]; [reflexivity|]). subst. reflexivity.
Qed.

Lemma seat_label_small (n : Z) :
  0 <= n < 2 ^ 53 -> seat_label n = Some (String "A" (decimal 16 n)).
Proof.
  intros [H1 H2]. unfold seat_label, number_to_string.
  rewrite (proj2 (Z.leb_le _ _) H1), (proj2 (Z.ltb_lt _ _) H2). reflexivity.
Qed.

Lemma decimal_16_spec (n : Z) :
  0 <= n < 2 ^ 53 ->
  all_digits (decimal 16 n) = true
  /\ decimal 16 n <> EmptyString
  /\ read_digits None (decimal 16 n) = Some n.
Proof.
  intros [H1 H2]. apply decimal_spec; [exact H1 | | lia].
  change (2 ^ 53) with 9007199254740992 in H2.
  change (10 ^ Z.of_nat 16) with 10000000000000000. lia.
Qed.

Lemma seat_label_number (n : Z) (s : Seat) :
  0 <= n < 2 ^ 53 -> seat_id s = String "A" (decimal 16 n) ->
  seat_number s = Some n.
Proof.
  intros Hn Hl. unfold seat_number. rewrite Hl.
  cbn [replace_A]. change (("A" =? "A")%char) with true. cbv iota.
  destruct (decimal_16_spec n Hn) as (A1 & A2 & A3).
  rewrite (parseInt_digits _ A1 A2). exact A3.
Qed.

(** X21.  The labels that [seedShow] writes and the numbers that [SeatGrid]
    reads: for a number [n] from 0 that a JS number holds exactly (below
    2^53), the template literal gives a label, and that label is read back
    as [n], by [parseInt] on the label without its [A], whatever the number
    of digits of [n]. *)
Theorem seat_label_is_read_back (n : Z) :
  0 <= n < 2 ^ 53 ->
  exists label,
    seat_label n = Some label
    /\ forall s : Seat, seat_id s = label -> seat_number s = Some n.
Proof.
  intro Hn. exists (String "A" (decimal 16 n)).
  split; [exact (seat_label_small n Hn)|].
  intros s Hs. exact (seat_label_number n s Hn Hs).
Qed.

(** Two lists with the same elements, one in non-decreasing and one in
    increasing order of a key, are the same list. *)
Lemma sorted_perm_eq {X} (f : X -> Z) (B A : list X) :
  Permutation A B ->
  StronglySorted (fun x y => f x <= f y) A ->
  StronglySorted (fun x y => f x < f y) B ->
  A = B.
Proof.
  revert A. induction B as [|b B IH]; intros A HP HA HB.
  - apply Permutation_sym, Permutation_nil in HP. exact HP.
  - destruct A as [|a A].
    { apply Permutation_nil in HP. discriminate HP. }
    inversion HA as [|? ? HA' Ha]; subst.
    inversion HB as [|? ? HB' Hb]; subst.
    assert (Hab : a = b).
    { assert (Ia : In a (b :: B))
        by (apply (Permutation_in _ HP); left; reflexivity).
      assert (Ib : In b (a :: A))
        by (apply (Permutation_in _ (Permutation_sym HP)); left;
            reflexivity).
      destruct Ia as [E | Ia]; [symmetry; exact E|].
      destruct Ib as [E | Ib]; [exact E|].
      pose proof (proj1 (Forall_forall _ _) Hb a Ia).
      pose proof (proj1 (Forall_forall _ _) Ha b Ib). cbv beta in *. lia. }
    subst b. f_equal. apply IH; [|assumption|assumption].
    exact (Permutation_cons_inv HP).
Qed.

Lemma seq_increasing (a n : nat) :
  StronglySorted (fun x y => Z.of_nat x < Z.of_nat y) (List.seq a n).
Proof.
  revert a. induction n as [|n IH]; intro a; cbn [List.seq]; constructor.
  - apply IH.
  - apply Forall_forall. intros x Hx. apply in_seq in Hx. lia.
Qed.

Lemma StronglySorted_map {X Y} (g : X -> Y) (R : Y -> Y -> Prop)
    (l : list X) :
  StronglySorted (fun x y => R (g x) (g y)) l -> StronglySorted R (map g l).
Proof.
  induction 1 as [|x l Hl IH Hx]; cbn [map]; constructor.
  - exact IH.
  - apply Forall_forall. intros y Hy. apply in_map_iff in Hy.
    destruct Hy as (z & <- & Hz). exact (proj1 (Forall_forall _ _) Hx z Hz).
Qed.

Lemma StronglySorted_weaken {X} (R S : X -> X -> Prop) (l : list X) :
  (forall x y, In x l -> In y l -> R x y -> S x y) ->
  StronglySorted R l -> StronglySorted S l.
Proof.
  intros H Hs. induction Hs as [|x l Hl IH Hx]; constructor.
  - apply IH. intros a b Ha Hb. apply H; right; assumption.
  - apply Forall_forall. intros y Hy. apply H;
      [left; reflexivity | right; exact Hy |].
    exact (proj1 (Forall_forall _ _) Hx y Hy).
Qed.

Lemma label_number_seat_label (n : Z) :
  0 <= n < 2 ^ 53 -> label_number (String "A" (decimal 16 n)) = n.
Proof.
  intro Hn. unfold label_number.
  cbn [replace_A]. change (("A" =? "A")%char) with true. cbv iota.
  destruct (decimal_16_spec n Hn) as (A1 & A2 & A3).
  rewrite (parseInt_digits _ A1 A2), A3. reflexivity.
Qed.

(** Every number from 1 to 30 has its label. *)
Lemma seatLabels_eq :
  seatLabels
  = map (fun i => String "A" (decimal 16 (Z.of_nat i))) (List.seq 1 30).
Proof. vm_compute. reflexivity. Qed.

Lemma seq_30_small (x : nat) :
  In x (List.seq 1 30) -> 0 <= Z.of_nat x < 2 ^ 53.
Proof.
  intro H. apply in_seq in H. change (2 ^ 53) with 9007199254740992. lia.
Qed.

Lemma seatLabels_increasing :
  StronglySorted (fun x y => label_number x < label_number y) seatLabels.
Proof.
  rewrite seatLabels_eq. apply StronglySorted_map.
  apply (StronglySorted_weaken
           (fun x y => Z.of_nat x < Z.of_nat y)); [|apply seq_increasing].
  intros x y Hx Hy H.
  rewrite !label_number_seat_label by (apply seq_30_small; assumption).
  exact H.
Qed.

(** X22.  The grid of a seeded show.  Whatever the ids the store gave them
    and whatever the order in which they are handed to [SeatGrid], the
    seats that [seedShow] inserted are listed by [sortedSeats] as A1, A2,
    ..., A30: in the order in which [seedShow] made them. *)
Theorem seeded_show_is_listed_in_order (show : string) (l : list Seat) :
  Permutation (map (fun s => (show_id s, seat_id s, status s)) l)
              (seatsToInsert show) ->
  map seat_id (sortedSeats l) = seatLabels.
Proof.
  intro HP0.
  assert (HP : Permutation (map seat_id l) seatLabels).
  { apply (Permutation_map (fun r : string * string * SeatStatus =>
                              snd (fst r))) in HP0.
    unfold seatsToInsert in HP0. rewrite !map_map in HP0.
    cbn [fst snd] in HP0. rewrite map_id in HP0. exact HP0. }
  clear HP0.
  assert (Hnum : forall s, In s l -> seat_number s <> None).
  { intros s Hs.
    assert (Hin : In (seat_id s) seatLabels)
      by (apply (Permutation_in _ HP), in_map; exact Hs).
    rewrite seatLabels_eq in Hin. apply in_map_iff in Hin.
    destruct Hin as (n & Hn & Hseq).
    rewrite (seat_label_number (Z.of_nat n) s (seq_30_small n Hseq));
      [discriminate|].
    symmetry. exact Hn. }
  apply (sorted_perm_eq label_number).
  - rewrite <- HP. apply Permutation_map. apply sortedSeats_perm.
  - apply StronglySorted_map.
    assert (Hs : StronglySorted num_le (sortedSeats l)).
    { apply sortedSeats_sorted. apply Forall_forall. exact Hnum. }
    apply (StronglySorted_weaken num_le); [|exact Hs].
    intros x y _ _ H. unfold num_le in H. unfold label_number.
    fold (seat_number x). fold (seat_number y).
    destruct (seat_number x), (seat_number y); try contradiction. exact H.
  - apply seatLabels_increasing.
Qed.

(** ** What the answers of the handlers do not depend on *)

(** X23.  The toasts of a refresh, a confirmation, a release and a countdown
    tick do not depend on the store: run against any two stores, with the
    same snapshot, session and faults, they show the same toasts.  A
    confirmation says "Booking Confirmed!" and a release "Hold Released"
    whether or not a row was there to update. *)
Theorem answers_do_not_look_at_the_store (a : Action) (c : Client)
    (now : Timestamp) (s : option string) (d d' : Db) (fs : list bool) :
  (forall name uuid, a <> Hold name uuid) ->
  toasts (exec (handler a c now) (start s c d fs))
  = toasts (exec (handler a c now) (start s c d' fs)).
Proof.
  intro Ha.
  assert (Hrel : toasts (exec (releaseHold c now) (start s c d fs))
                 = toasts (exec (releaseHold c now) (start s c d' fs))).
  { unfold releaseHold, start, start_among.
    destruct (seatId (bookingState c)) as [sid|]; [|reflexivity].
    destruct (truthy (Some sid)); [|reflexivity].
    run_steps. destruct (hd false fs); run_steps; [reflexivity|].
    destruct (bookingId (bookingState c)) as [bid|];
      [destruct (truthy (Some bid))|]; run_steps;
      repeat match goal with
             | |- context [toasts (exec (fetchSeats c now) ?w)] =>
                 rewrite (proj1 (fetchSeats_undisturbed c now w eq_refl))
             end; reflexivity. }
  destruct a as [|name uuid| | |]; cbn [handler].
  - rewrite (proj1 (fetchSeats_undisturbed c now (start s c d fs) eq_refl)).
    rewrite (proj1 (fetchSeats_undisturbed c now (start s c d' fs) eq_refl)).
    reflexivity.
  - exfalso. exact (Ha name uuid eq_refl).
  - unfold confirmPayment, start, start_among.
    destruct (user c); [|reflexivity].
    destruct (bookingId (bookingState c)) as [bid|]; [|reflexivity].
    destruct (seatId (bookingState c)) as [sid|]; [|reflexivity].
    destruct (truthy (Some bid) && truthy (Some sid)); [|reflexivity].
    run_steps. destruct (hd false fs); run_steps; [reflexivity|].
    destruct (hd false (tl fs)); run_steps; [reflexivity|].
    repeat match goal with
           | |- context [toasts (exec (fetchSeats c now) ?w)] =>
               rewrite (proj1 (fetchSeats_undisturbed c now w eq_refl))
           end; reflexivity.
  - exact Hrel.
  - unfold timer_tick.
    destruct (holdExpiresAt (bookingState c)); [|reflexivity].
    destruct (UiStatus_eqb _ _); [|reflexivity].
    destruct (_ <=? _); [exact Hrel | reflexivity].
Qed.

(** X24.  The [finally] blocks at work: a handler called while the loading
    flag is down leaves it down, whatever the snapshot, the session, the
    store and the faults, errors included. *)
Theorem handlers_leave_the_loading_flag_down (a : Action) (c : Client)
    (now : Timestamp) (w : World) :
  loading (ui w) = false ->
  loading (ui (exec (handler a c now) w)) = false.
Proof.
  intro Hl.
  assert (Hf : loading (ui (exec (fetchSeats c now) w)) = false).
  { destruct (currentShow c) as [show|] eqn:E.
    - destruct (fetchSeats_world c now w show E)
        as (u & -> & (_ & _ & H & _) & _).
      cbn [ui]. rewrite H. exact Hl.
    - unfold fetchSeats. rewrite E. exact Hl. }
  assert (Hr : loading (ui (exec (releaseHold c now) w)) = false).
  { unfold releaseHold.
    destruct (seatId (bookingState c)) as [sid|]; [|exact Hl].
    destruct (truthy (Some sid)); [|exact Hl].
    do 2 rewrite exec_bind. unfold setLoading at 1.
    rewrite exec_set_ui. reflexivity. }
  destruct a as [|name uuid| | |]; cbn [handler].
  - exact Hf.
  - unfold holdSeat.
    destruct (user c); [|exact Hl].
    destruct (selectedSeat c); [|exact Hl].
    destruct (currentShow c) eqn:E; [|exact Hl].
    destruct (_ =? _)%string; [exact Hl|].
    rewrite exec_bind.
    destruct (option_map status _) as [[| |]|];
      try (rewrite exec_toast; exact Hf).
    do 2 rewrite exec_bind. unfold setLoading at 1.
    rewrite exec_set_ui. reflexivity.
  - unfold confirmPayment.
    destruct (user c); [|exact Hl].
    destruct (bookingId (bookingState c)); [|exact Hl].
    destruct (seatId (bookingState c)); [|exact Hl].
    destruct (_ && _); [|exact Hl].
    do 2 rewrite exec_bind. unfold setLoading at 1.
    rewrite exec_set_ui. reflexivity.
  - exact Hr.
  - unfold timer_tick.
    destruct (holdExpiresAt (bookingState c)); [|exact Hl].
    destruct (UiStatus_eqb _ _); [|exact Hl].
    destruct (_ <=? _); [exact Hr | exact Hl].
Qed.

(** ** The properties at work on the scenarios *)

Ltac all_calls tac :=
  repeat (apply Forall_cons; [tac|]); apply Forall_nil.

Lemma hold_fields_follow_the_status_witness :
  forallb hold_shape_ok (seats_tbl store0) = true
  /\ forallb hold_shape_ok
       (seats_tbl
          (run_calls (bob_books ++ after_bob_booked ++ alice_lets_go) store0))
     = true.
Proof.
  assert (H : forallb hold_shape_ok (seats_tbl store0) = true)
    by (vm_compute; reflexivity).
  split; [exact H|].
  exact (hold_fields_follow_the_status
           (bob_books ++ after_bob_booked ++ alice_lets_go) store0 H).
Defined.

Lemma shapes_kept_without_release_witness :
  Forall (fun k => no_release k = true) (bob_books ++ after_bob_booked)
  /\ forallb seat_shape_ok (seats_tbl store0) = true
  /\ forallb seat_shape_ok
       (seats_tbl (run_calls (bob_books ++ after_bob_booked) store0)) = true.
Proof.
  assert (H1 : Forall (fun k => no_release k = true)
                 (bob_books ++ after_bob_booked))
    by (unfold bob_books, after_bob_booked; cbn [app];
        all_calls ltac:(reflexivity)).
  assert (H2 : forallb seat_shape_ok (seats_tbl store0) = true)
    by (vm_compute; reflexivity).
  split; [exact H1|]. split; [exact H2|].
  exact (shapes_kept_without_release (bob_books ++ after_bob_booked) store0
           H1 H2).
Defined.

Lemma booked_seat_is_frozen_witness :
  Forall (fun k => no_release k = true) after_bob_booked
  /\ nth_error (seats_tbl (db bob_confirms)) 0
     = Some (book_seat_row "Bob" 27000 bobs_row)
  /\ status (book_seat_row "Bob" 27000 bobs_row) = BOOKED
  /\ hold_id (book_seat_row "Bob" 27000 bobs_row) = None
  /\ nth_error (seats_tbl (run_calls after_bob_booked (db bob_confirms))) 0
     = Some (book_seat_row "Bob" 27000 bobs_row).
Proof.
  assert (H1 : Forall (fun k => no_release k = true) after_bob_booked)
    by (unfold after_bob_booked; all_calls ltac:(reflexivity)).
  assert (H2 : nth_error (seats_tbl (db bob_confirms)) 0
               = Some (book_seat_row "Bob" 27000 bobs_row))
    by (vm_compute; reflexivity).
  assert (H3 : status (book_seat_row "Bob" 27000 bobs_row) = BOOKED)
    by reflexivity.
  assert (H4 : hold_id (book_seat_row "Bob" 27000 bobs_row) = None)
    by reflexivity.
  split; [exact H1|]. split; [exact H2|]. split; [exact H3|].
  split; [exact H4|].
  exact (booked_seat_is_frozen after_bob_booked (db bob_confirms) 0
           (book_seat_row "Bob" 27000 bobs_row) H1 H2 H3 H4).
Defined.



Lemma release_expired_holds_twice_witness :
  1000 <= 25000
  /\ release_expired_holds 25000 (release_expired_holds 1000 (db alice_holds))
     = release_expired_holds 25000 (db alice_holds).
Proof.
  assert (H : 1000 <= 25000) by lia.
  split; [exact H|].
  exact (release_expired_holds_twice 1000 25000 (db alice_holds) H).
Defined.

Lemma holdSeat_refuses_without_request_witness :
  (user alice_picked = None \/ selectedSeat alice_picked = None
   \/ currentShow alice_picked = None
   \/ all_space (" " ++ nbsp ++ em_space)%string = true)
  /\ exists t,
       (t = T_SelectSeat \/ t = T_EnterName)
       /\ exec (holdSeat alice_picked (" " ++ nbsp ++ em_space)%string 1000
                 "T1") alice_loaded
          = {| db := db alice_loaded; ui := ui alice_loaded;
               session := session alice_loaded;
               faults := faults alice_loaded;
               others := others alice_loaded; clock := clock alice_loaded;
               toasts := toasts alice_loaded ++ [t] |}.
Proof.
  assert (H : user alice_picked = None \/ selectedSeat alice_picked = None
              \/ currentShow alice_picked = None
              \/ all_space (" " ++ nbsp ++ em_space)%string = true)
    by (right; right; right; reflexivity).
  split; [exact H|].
  exact (holdSeat_refuses_without_request alice_picked
           (" " ++ nbsp ++ em_space)%string "T1" 1000 alice_loaded H).
Defined.

Lemma holdSeat_unavailable_in_list_witness :
  user dave_picked <> None
  /\ selectedSeat dave_picked = Some alices_row
  /\ currentShow dave_picked <> None
  /\ all_space "Dave" = false
  /\ option_map status
       (find (fun s => (id s =? id alices_row)%string) (seats dave_picked))
     <> Some AVAILABLE
  /\ toasts (exec (holdSeat dave_picked "Dave" 3000 "T4")
                  (start_among (Some "dave") dave_picked (db alice_holds) []
                     [] [3050; 3060]))
     = [T_SeatUnavailable]
  /\ (db (exec (holdSeat dave_picked "Dave" 3000 "T4")
               (start_among (Some "dave") dave_picked (db alice_holds) []
                  [] [3050; 3060]))
      = db alice_holds
      \/ db (exec (holdSeat dave_picked "Dave" 3000 "T4")
                  (start_among (Some "dave") dave_picked (db alice_holds) []
                     [] [3050; 3060]))
         = release_expired_holds (hd 3000 [3050; 3060]) (db alice_holds)).
Proof.
  assert (H1 : user dave_picked <> None) by (vm_compute; discriminate).
  assert (H2 : selectedSeat dave_picked = Some alices_row)
    by (vm_compute; reflexivity).
  assert (H3 : currentShow dave_picked <> None) by (vm_compute; discriminate).
  assert (H4 : all_space "Dave" = false) by reflexivity.
  assert (H5 : option_map status
                 (find (fun s => (id s =? id alices_row)%string)
                       (seats dave_picked))
               <> Some AVAILABLE) by (vm_compute; discriminate).
  split; [exact H1|]. split; [exact H2|]. split; [exact H3|].
  split; [exact H4|]. split; [exact H5|].
  exact (holdSeat_unavailable_in_list dave_picked (Some "dave")
           (db alice_holds) [] [3050; 3060] "Dave" "T4" 3000 alices_row
           H1 H2 H3 H4 H5).
Defined.

Lemma holdSeat_held_iff_witness :
  user alice_picked = Some "alice"
  /\ selectedSeat alice_picked = Some (fresh_seat "s1" "A1")
  /\ currentShow alice_picked = Some "show1"
  /\ (toasts (run_among (holdSeat alice_picked "Alice" 1000 "T1")
                alice_picked (db alice_loaded) [true; false; false; false]
                [] [1010; 1020; 1030; 1040; 1050; 1060])
      = [T_SeatHeld]
      <-> (all_space "Alice" = false
           /\ option_map status
                (find (fun s => (id s =? id (fresh_seat "s1" "A1"))%string)
                      (seats alice_picked))
              = Some AVAILABLE
           /\ nth 2 [true; false; false; false] false = false
           /\ nth 3 [true; false; false; false] false = false
           /\ existsb (fun b => (bk_id b =? "T1")%string)
                      (bookings_tbl (db alice_loaded)) = false
           /\ existsb (fun s => (id s =? id (fresh_seat "s1" "A1"))%string)
                      (seats_tbl (db alice_loaded)) = true)).
Proof.
  assert (H1 : user alice_picked = Some "alice") by (vm_compute; reflexivity).
  assert (H2 : selectedSeat alice_picked = Some (fresh_seat "s1" "A1"))
    by (vm_compute; reflexivity).
  assert (H3 : currentShow alice_picked = Some "show1")
    by (vm_compute; reflexivity).
  split; [exact H1|]. split; [exact H2|]. split; [exact H3|].
  exact (holdSeat_held_iff alice_picked (db alice_loaded)
           [true; false; false; false] [1010; 1020; 1030; 1040; 1050; 1060]
           "Alice" "T1" 1000 "alice" "show1"
           (fresh_seat "s1" "A1") H1 H2 H3).
Defined.


Lemma releaseHold_ends_idle_witness :
  seatId (bookingState (ui alice_holds)) = Some "s1"
  /\ "s1" <> EmptyString
  /\ In "s1" (map id (seats_tbl (db alice_holds)))
  /\ hd false [] = false
  /\ let w := exec (releaseHold (ui alice_holds) 5000)
                   (start_among (Some "alice") (ui alice_holds)
                      (db alice_holds) [] [] [5010; 5020; 5030; 5040]) in
     toasts w = [T_HoldReleased]
     /\ bookingState (ui w) = idle /\ loading (ui w) = false
     /\ Forall (fun s => id s = "s1" -> status s = AVAILABLE)
               (seats_tbl (db w)).
Proof.
  assert (H1 : seatId (bookingState (ui alice_holds)) = Some "s1")
    by (vm_compute; reflexivity).
  assert (H2 : "s1" <> EmptyString) by discriminate.
  assert (H3 : hd false [] = false) by reflexivity.
  assert (H4 : In "s1" (map id (seats_tbl (db alice_holds))))
    by (vm_compute; left; reflexivity).
  split; [exact H1|]. split; [exact H2|]. split; [exact H4|].
  split; [exact H3|].
  exact (releaseHold_ends_idle (ui alice_holds) (db alice_holds) []
           [5010; 5020; 5030; 5040] 5000 "alice" "s1" H1 H2 H4 H3).
Defined.



Lemma confirmed_booking_stays_confirmed_witness :
  Forall (fun k => releases_other
                     (bk_id (confirm_booking_row 27000
                               (mkBooking "T2" "s1" (Some "bob") "Bob"
                                          BK_HELD (Some 46000) None))) k
                   = true) alice_lets_go
  /\ nth_error (bookings_tbl (db bob_confirms)) 1
     = Some (confirm_booking_row 27000
               (mkBooking "T2" "s1" (Some "bob") "Bob" BK_HELD (Some 46000)
                          None))
  /\ bk_status (confirm_booking_row 27000
                  (mkBooking "T2" "s1" (Some "bob") "Bob" BK_HELD
                             (Some 46000) None))
     = BK_CONFIRMED
  /\ exists b',
       nth_error (bookings_tbl (run_calls alice_lets_go (db bob_confirms))) 1
       = Some b'
       /\ bk_id b'
          = bk_id (confirm_booking_row 27000
                     (mkBooking "T2" "s1" (Some "bob") "Bob" BK_HELD
                                (Some 46000) None))
       /\ bk_status b' = BK_CONFIRMED
       /\ booking_key b'
          = booking_key (confirm_booking_row 27000
                           (mkBooking "T2" "s1" (Some "bob") "Bob" BK_HELD
                                      (Some 46000) None)).
Proof.
  assert (H1 : Forall (fun k =>
                  releases_other
                    (bk_id (confirm_booking_row 27000
                              (mkBooking "T2" "s1" (Some "bob") "Bob"
                                         BK_HELD (Some 46000) None))) k
                  = true) alice_lets_go)
    by (unfold alice_lets_go; all_calls ltac:(vm_compute; reflexivity)).
  assert (H2 : nth_error (bookings_tbl (db bob_confirms)) 1
               = Some (confirm_booking_row 27000
                         (mkBooking "T2" "s1" (Some "bob") "Bob" BK_HELD
                                    (Some 46000) None)))
    by (vm_compute; reflexivity).
  assert (H3 : bk_status (confirm_booking_row 27000
                            (mkBooking "T2" "s1" (Some "bob") "Bob" BK_HELD
                                       (Some 46000) None))
               = BK_CONFIRMED) by reflexivity.
  split; [exact H1|]. split; [exact H2|]. split; [exact H3|].
  exact (confirmed_booking_stays_confirmed alice_lets_go (db bob_confirms) 1
           _ H1 H2 H3).
Defined.

Lemma countdown_threshold_witness :
  holdExpiresAt (bookingState (ui alice_holds)) = Some 21000
  /\ bstatus (bookingState (ui alice_holds)) = ST_HELD
  /\ exec (timer_tick (ui alice_holds) 20001) alice_holds
     = if 21000 - 20001 <? 1000
       then exec (releaseHold (ui alice_holds) 20001) alice_holds
       else alice_holds.
Proof.
  assert (H1 : holdExpiresAt (bookingState (ui alice_holds)) = Some 21000)
    by (vm_compute; reflexivity).
  assert (H2 : bstatus (bookingState (ui alice_holds)) = ST_HELD)
    by (vm_compute; reflexivity).
  split; [exact H1|]. split; [exact H2|].
  exact (countdown_threshold (ui alice_holds) 20001 21000 alice_holds H1 H2).
Defined.

Lemma seat_label_is_read_back_witness :
  0 <= 10 < 2 ^ 53
  /\ seat_label 10 = Some "A10"
  /\ seat_label (2 ^ 53) = None
  /\ exists label,
       seat_label 10 = Some label
       /\ forall s : Seat, seat_id s = label -> seat_number s = Some 10.
Proof.
  assert (H : 0 <= 10 < 2 ^ 53)
    by (split; vm_compute; [intro E; discriminate E | reflexivity]).
  split; [exact H|]. split; [vm_compute; reflexivity|].
  split; [vm_compute; reflexivity|].
  exact (seat_label_is_read_back 10 H).
Defined.

Lemma seeded_show_is_listed_in_order_witness :
  Permutation
    (map (fun s => (show_id s, seat_id s, status s))
         (rev (map (fun r => inserted_seat (snd (fst r)) r)
                   (seatsToInsert "show1"))))
    (seatsToInsert "show1")
  /\ map seat_id
       (sortedSeats (rev (map (fun r => inserted_seat (snd (fst r)) r)
                              (seatsToInsert "show1"))))
     = seatLabels.
Proof.
  assert (H : Permutation
                (map (fun s => (show_id s, seat_id s, status s))
                     (rev (map (fun r => inserted_seat (snd (fst r)) r)
                               (seatsToInsert "show1"))))
                (seatsToInsert "show1")).
  { rewrite map_rev, map_map.
    rewrite (map_ext _ (fun r => r)) by (intros [[a b] c]; reflexivity).
    rewrite map_id. apply Permutation_sym, Permutation_rev. }
  split; [exact H|].
  exact (seeded_show_is_listed_in_order "show1" _ H).
Defined.

Lemma answers_do_not_look_at_the_store_witness :
  (forall name uuid, Confirm <> Hold name uuid)
  /\ toasts (exec (handler Confirm (ui alice_holds) 5000)
                  (start (Some "alice") (ui alice_holds) (db alice_holds) []))
     = toasts (exec (handler Confirm (ui alice_holds) 5000)
                    (start (Some "alice") (ui alice_holds) store0 [])).
Proof.
  assert (H : forall name uuid, Confirm <> Hold name uuid)
    by (intros name uuid; discriminate).
  split; [exact H|].
  exact (answers_do_not_look_at_the_store Confirm (ui alice_holds) 5000
           (Some "alice") (db alice_holds) store0 [] H).
Defined.

Lemma handlers_leave_the_loading_flag_down_witness :
  loading (ui alice_hold_insert_fails) = false
  /\ loading (ui (exec (handler (Hold "Alice" "T9") alice_picked 2000)
                       alice_hold_insert_fails)) = false.
Proof.
  assert (H : loading (ui alice_hold_insert_fails) = false)
    by (vm_compute; reflexivity).
  split; [exact H|].
  exact (handlers_leave_the_loading_flag_down (Hold "Alice" "T9") alice_picked
           2000 alice_hold_insert_fails H).
Defined.

(** ** A hold past its deadline does not keep the seat *)

(** X25.  Expiry at work.  A seat is HELD with a deadline that has passed
    on the server's clock, in a store whose seat ids are unique and whose
    labels are unique within a show.  A signed-in client whose refresh goes
    through after the deadline, who picks the seat by its label in the
    panel and calls [holdSeat] with a name that is not blank and a fresh
    token, gets the seat when the seat update and the insert of the hold
    meet no transport fault, nobody else's request is served during the
    two calls, and the closing refresh of the hold fails or runs when the
    server's clock is not past the new deadline: the hold ends in "Seat
    Held" and the seat is HELD under the new token with the new deadline
    and the trimmed name.  Nothing is asked of the previous holder. *)
Theorem expired_hold_is_taken_over
    (c0 : Client) (d : Db) (i : nat) (row : Seat) (uid name uuid : string)
    (t0 now e : Timestamp) (f1 f2 f5 f6 : bool) (fs0 fs : list bool)
    (sv0 sv : list Timestamp) :
  user c0 = Some uid -> currentShow c0 = Some (show_id row) ->
  NoDup (map id (seats_tbl d)) ->
  NoDup (map (fun s => (show_id s, seat_id s)) (seats_tbl d)) ->
  nth_error (seats_tbl d) i = Some row ->
  status row = HELD -> hold_expires_at row = Some e -> e < hd t0 sv0 ->
  all_space name = false ->
  existsb (fun b => (bk_id b =? uuid)%string) (bookings_tbl d) = false ->
  f5 = true \/ nth 4 sv now <= now + 20000 ->
  let w0 := run_among (fetchSeats c0 t0) c0 d (false :: false :: fs0) []
                      sv0 in
  let c1 := pick (seat_id row) (ui w0) in
  let w1 := run_among (holdSeat c1 name now uuid) c1 (db w0)
                (f1 :: f2 :: false :: false :: f5 :: f6 :: fs) [] sv in
  toasts w1 = [T_SeatHeld]
  /\ nth_error (seats_tbl (db w1)) i
     = Some {| id := id row; show_id := show_id row; seat_id := seat_id row;
               status := HELD; hold_expires_at := Some (now + 20000);
               booked_by := booked_by row; booked_at := booked_at row;
               hold_id := Some uuid; held_by := Some (trim name) |}.
Proof.
  intros Hu Hshow Hids Hlabels Hrow Hst He Hlt Hname Hfresh Hclock.
  unfold run_among at 1. rewrite Hu.
  destruct (fetchSeats_world c0 t0
              (start_among (Some uid) c0 d (false :: false :: fs0) [] sv0)
              (show_id row) Hshow)
    as (u0 & E0 & (U1 & U2 & _) & Hl).
  rewrite (refreshed_undisturbed t0
             (start_among (Some uid) c0 d (false :: false :: fs0) [] sv0)
             eq_refl) in E0, Hl.
  cbn [start_among db ui faults others clock hd tl] in E0, U1, U2, Hl.
  specialize (Hl eq_refl). cbn zeta. rewrite E0. cbn [db ui].
  set (D := release_expired_holds (hd t0 sv0) d) in *.
  assert (Hrow' : nth_error (seats_tbl D) i = Some (clear_hold row)).
  { subst D.
    rewrite (nth_error_release_expired_holds (hd t0 sv0) d i row Hrow).
    unfold seat_hold_expired, expired_before. rewrite Hst, He.
    cbn [SeatStatus_eqb andb].
    assert ((e <? hd t0 sv0) = true) as -> by (apply Z.ltb_lt; exact Hlt).
    reflexivity. }
  assert (Kid : map id (seats_tbl D) = map id (seats_tbl d)).
  { subst D. cbn [release_expired_holds seats_tbl].
    apply map_sql_update_key. intro; reflexivity. }
  assert (Klab : map (fun s => (show_id s, seat_id s)) (seats_tbl D)
                 = map (fun s => (show_id s, seat_id s)) (seats_tbl d)).
  { subst D. cbn [release_expired_holds seats_tbl].
    apply (map_sql_update_key (fun s => (show_id s, seat_id s))).
    intro; reflexivity. }
  assert (Kbk : map bk_id (bookings_tbl D) = map bk_id (bookings_tbl d)).
  { subst D. cbn [release_expired_holds bookings_tbl].
    apply map_bk_id_sql_update. }
  rewrite <- Kid in Hids. rewrite <- Klab in Hlabels.
  assert (Hin : In (clear_hold row) (select_seats (show_id row) D)).
  { apply In_select_seats. split; [|reflexivity].
    exact (nth_error_In _ _ Hrow'). }
  assert (Hpick : find (fun s => (seat_id s =? seat_id row)%string)
                       (select_seats (show_id row) D)
                  = Some (clear_hold row)).
  { apply find_unique; [exact Hin | apply String.eqb_refl |].
    intros y Hy Hp. apply In_select_seats in Hy. destruct Hy as (Hy & Hs).
    apply String.eqb_eq in Hp.
    apply (unique_row (fun s => (show_id s, seat_id s)) (seats_tbl D) i
             (clear_hold row) y Hlabels Hrow' Hy).
    cbn [clear_hold show_id seat_id]. rewrite Hs, Hp. reflexivity. }
  assert (Hfind : find (fun s => (id s =? id (clear_hold row))%string)
                       (select_seats (show_id row) D)
                  = Some (clear_hold row)).
  { apply find_unique; [exact Hin | apply String.eqb_refl |].
    intros y Hy Hp. apply In_select_seats in Hy. destruct Hy as (Hy & _).
    apply String.eqb_eq in Hp.
    exact (unique_row id (seats_tbl D) i (clear_hold row) y Hids Hrow' Hy
             Hp). }
  assert (Hfresh' : existsb (fun b => (bk_id b =? uuid)%string)
                            (bookings_tbl D) = false).
  { rewrite (existsb_map (fun x => (x =? uuid)%string) bk_id), Kbk,
      <- (existsb_map (fun x => (x =? uuid)%string) bk_id). exact Hfresh. }
  assert (Hfk : existsb (fun s => (id s =? id (clear_hold row))%string)
                        (seats_tbl D) = true).
  { apply (nth_error_existsb _ _ i _ Hrow'). apply String.eqb_refl. }
  set (c1 := pick (seat_id row) u0).
  assert (C1 : user c1 = Some uid) by (cbn [c1 pick user]; congruence).
  assert (C2 : selectedSeat c1 = Some (clear_hold row)).
  { cbn [c1 pick selectedSeat]. rewrite Hl. exact Hpick. }
  assert (C3 : currentShow c1 = Some (show_id row))
    by (cbn [c1 pick currentShow]; congruence).
  assert (C4 : option_map status
                 (find (fun s => (id s =? id (clear_hold row))%string)
                       (seats c1)) = Some AVAILABLE).
  { cbn [c1 pick seats]. rewrite Hl, Hfind. reflexivity. }
  destruct (holdSeat_world c1 D f1 f2 f5 f6 fs sv name uuid now uid
              (show_id row) (clear_hold row) C1 C2 C3 Hname C4 Hfresh' Hfk)
    as (u & E & _).
  destruct (held_rows D f1 f5 (hd now sv) (nth 4 sv now) (trim name) uuid
              uid now (clear_hold row) i (clear_hold row) Hrow' eq_refl
              eq_refl Hclock) as (R1 & _).
  cbn zeta in E, R1. rewrite E. cbn [db toasts].
  split; [reflexivity|]. rewrite R1. reflexivity.
Qed.

Lemma expired_hold_is_taken_over_witness :
  user (client0 "bob") = Some "bob"
  /\ currentShow (client0 "bob") = Some (show_id alices_row)
  /\ NoDup (map id (seats_tbl (db alice_holds)))
  /\ NoDup (map (fun s => (show_id s, seat_id s))
                (seats_tbl (db alice_holds)))
  /\ nth_error (seats_tbl (db alice_holds)) 0 = Some alices_row
  /\ status alices_row = HELD
  /\ hold_expires_at alices_row = Some 21000
  /\ 21000 < hd 25000 [25010; 25020]
  /\ all_space "Bob" = false
  /\ existsb (fun b => (bk_id b =? "T2")%string)
             (bookings_tbl (db alice_holds)) = false
  /\ (false = true
      \/ nth 4 [26010; 26020; 26030; 26040; 26050; 26060] 26000
         <= 26000 + 20000)
  /\ let w0 := run_among (fetchSeats (client0 "bob") 25000) (client0 "bob")
                   (db alice_holds) (false :: false :: []) []
                   [25010; 25020] in
     let c1 := pick (seat_id alices_row) (ui w0) in
     let w1 := run_among (holdSeat c1 "Bob" 26000 "T2") c1 (db w0)
                   (false :: false :: false :: false :: false :: false :: [])
                   [] [26010; 26020; 26030; 26040; 26050; 26060]
     in
     toasts w1 = [T_SeatHeld]
     /\ nth_error (seats_tbl (db w1)) 0
        = Some {| id := id alices_row; show_id := show_id alices_row;
                  seat_id := seat_id alices_row;
                  status := HELD; hold_expires_at := Some (26000 + 20000);
                  booked_by := booked_by alices_row;
                  booked_at := booked_at alices_row;
                  hold_id := Some "T2"; held_by := Some (trim "Bob") |}.
Proof.
  assert (H1 : user (client0 "bob") = Some "bob") by reflexivity.
  assert (H2 : currentShow (client0 "bob") = Some (show_id alices_row))
    by reflexivity.
  assert (E1 : map id (seats_tbl (db alice_holds)) = ["s1"; "s2"; "s10"])
    by (vm_compute; reflexivity).
  assert (H3 : NoDup (map id (seats_tbl (db alice_holds)))).
  { rewrite E1.
    repeat (apply NoDup_cons; [cbn [In]; intuition discriminate|]).
    apply NoDup_nil. }
  assert (E2 : map (fun s => (show_id s, seat_id s))
                   (seats_tbl (db alice_holds))
               = [("show1", "A1"); ("show1", "A2"); ("show1", "A10")])
    by (vm_compute; reflexivity).
  assert (H4 : NoDup (map (fun s => (show_id s, seat_id s))
                          (seats_tbl (db alice_holds)))).
  { rewrite E2.
    repeat (apply NoDup_cons; [cbn [In]; intuition discriminate|]).
    apply NoDup_nil. }
  assert (H5 : nth_error (seats_tbl (db alice_holds)) 0 = Some alices_row)
    by (vm_compute; reflexivity).
  assert (H6 : status alices_row = HELD) by reflexivity.
  assert (H7 : hold_expires_at alices_row = Some 21000) by reflexivity.
  assert (H8 : 21000 < hd 25000 [25010; 25020]) by reflexivity.
  assert (H9 : all_space "Bob" = false) by reflexivity.
  assert (H10 : existsb (fun b => (bk_id b =? "T2")%string)
                        (bookings_tbl (db alice_holds)) = false)
    by (vm_compute; reflexivity).
  split; [exact H1|]. split; [exact H2|]. split; [exact H3|].
  split; [exact H4|]. split; [exact H5|]. split; [exact H6|].
  split; [exact H7|]. split; [exact H8|]. split; [exact H9|].
  assert (H11 : false = true
                 \/ nth 4 [26010; 26020; 26030; 26040; 26050; 26060] 26000
                    <= 26000 + 20000)
    by (right; vm_compute; intro H; discriminate H).
  split; [exact H10|]. split; [exact H11|].
  exact (expired_hold_is_taken_over (client0 "bob") (db alice_holds) 0
           alices_row "bob" "Bob" "T2" 25000 26000 21000 false false false
           false [] [] [25010; 25020]
           [26010; 26020; 26030; 26040; 26050; 26060]
           H1 H2 H3 H4 H5 H6 H7 H8 H9 H10 H11).
Defined.
